(** * zli: a command-line argument parser driven by Zod schemas

    A shallow embedding of the three copies of the resolver that live in the
    repository:

    - [ZliV1]: the first [Zli] class of [src/zli.ts];
    - [ZliV2]: the second [Zli] class of [src/zli.ts];
    - [Index]: the [Zli] class of [src/index.ts].

    JavaScript strings are [string]s (code units below 256),
    [Map<string,string>] and the record [parsedArgs] are [gmap string _],
    [Set<number>] is [gset nat], objects that are enumerated (the schema
    shape, [this.commands]) are association lists in enumeration order,
    the console and the handler calls are a trace of [Event]s, a thrown
    exception is a [Throw] completion, and the [while]/[for] scans are
    loops over a fuel counter, [None] standing for a scan that has not
    ended within the fuel.

    What comes from outside the repository is a parameter: JavaScript's
    [Number], and Zod's [safeParse] and [isOptional]. *)

From Stdlib Require Import String Ascii List Bool Arith Lia DecimalString.
From stdpp Require Import gmap strings list fin_maps.

Local Open Scope string_scope.

(** ** JavaScript string and array primitives *)

Module Js.

(** [s.startsWith(p)] *)
Definition startsWith (s p : string) : bool := String.prefix p s.

(** [s.includes(sub)] *)
Fixpoint includes (s sub : string) : bool :=
  String.prefix sub s ||
  match s with
  | EmptyString => false
  | String _ s' => includes s' sub
  end.

(** [s.split(sep)] for a one-character separator: the first piece and the
    remaining pieces. *)
Fixpoint split_pieces (s : string) (sep : ascii) : string * list string :=
  match s with
  | EmptyString => (EmptyString, [])
  | String c s' =>
      let '(p, ps) := split_pieces s' sep in
      if Ascii.eqb c sep then (EmptyString, p :: ps) else (String c p, ps)
  end.

Definition split (s : string) (sep : ascii) : list string :=
  let '(p, ps) := split_pieces s sep in p :: ps.

(** [s.split('')] *)
Definition chars (s : string) : list ascii := list_ascii_of_string s.

(** [s.slice(1)] *)
Definition slice1 (s : string) : string :=
  match s with
  | EmptyString => EmptyString
  | String _ s' => s'
  end.

(** [xs.join(sep)] on strings *)
Definition join (sep : string) (xs : list string) : string :=
  String.concat sep xs.

(** [xs.includes(x)] on an array of strings *)
Definition Array_includes (xs : list string) (x : string) : bool :=
  existsb (String.eqb x) xs.

(** White space removed by [trim]: TAB, LF, VT, FF, CR, SP and NBSP
    (code units below 256). *)
Definition isWhiteSpace (c : ascii) : bool :=
  let n := nat_of_ascii c in
  (Nat.leb 9 n && Nat.leb n 13) || Nat.eqb n 32 || Nat.eqb n 160.

Fixpoint trimStart (s : string) : string :=
  match s with
  | EmptyString => EmptyString
  | String c s' => if isWhiteSpace c then trimStart s' else s
  end.

Fixpoint trimEnd (s : string) : string :=
  match s with
  | EmptyString => EmptyString
  | String c s' =>
      match trimEnd s' with
      | EmptyString => if isWhiteSpace c then EmptyString else String c EmptyString
      | t => String c t
      end
  end.

(** [s.trim()] *)
Definition trim (s : string) : string := trimEnd (trimStart s).

(** A possibly [undefined] string used as a condition: [undefined] and the
    empty string are falsy. *)
Definition truthy (v : option string) : option string :=
  match v with
  | Some EmptyString => None
  | Some s => Some s
  | None => None
  end.

(** [String(n)] for an array index. *)
Definition String_of_index (n : nat) : string :=
  NilEmpty.string_of_uint (Nat.to_uint n).

(** [obj[k] = v] on an object enumerated in insertion order: an existing
    key keeps its position. *)
Fixpoint setProperty {A} (o : list (string * A)) (k : string) (v : A)
  : list (string * A) :=
  match o with
  | [] => [(k, v)]
  | (k', v') :: o' =>
      if String.eqb k' k then (k, v) :: o' else (k', v') :: setProperty o' k v
  end.

(** [obj[k]] on own properties. *)
Fixpoint getProperty {A} (o : list (string * A)) (k : string) : option A :=
  match o with
  | [] => None
  | (k', v') :: o' => if String.eqb k' k then Some v' else getProperty o' k
  end.

(** What a JavaScript computation can end with. *)
Inductive JsError : Type :=
| Error (message : string)
| TypeError.

Inductive Completion (A : Type) : Type :=
| Normal (a : A)
| Throw (e : JsError).
Global Arguments Normal {A} a.
Global Arguments Throw {A} e.

End Js.
Import Js.

(** ** The schema collaborator (Zod) with the repository's extensions *)

(** [_def.aliases] and [_def.description] of [zod-extensions.ts]. *)
Record ZodTypeDef : Type := mkDef {
  def_aliases : option (list string);
  def_description : option string
}.

Definition noDef : ZodTypeDef := mkDef None None.

(** The classes of schema nodes the resolver tells apart with [instanceof];
    every other Zod class is [ZodOther]. *)
#[warnings="-register-all"]
Inductive ZodTypeAny : Type :=
| ZodString (def : ZodTypeDef)
| ZodNumber (def : ZodTypeDef)
| ZodBoolean (def : ZodTypeDef)
| ZodArray (def : ZodTypeDef) (element : ZodTypeAny)
| ZodOptional (def : ZodTypeDef) (innerType : ZodTypeAny)
| ZodObject (def : ZodTypeDef) (shape : list (string * ZodTypeAny))
| ZodEffects (def : ZodTypeDef) (schema : ZodTypeAny)
| ZodOther (def : ZodTypeDef).

Definition _def (t : ZodTypeAny) : ZodTypeDef :=
  match t with
  | ZodString d | ZodNumber d | ZodBoolean d | ZodArray d _
  | ZodOptional d _ | ZodObject d _ | ZodEffects d _ | ZodOther d => d
  end.

Definition with_def (t : ZodTypeAny) (d : ZodTypeDef) : ZodTypeAny :=
  match t with
  | ZodString _ => ZodString d
  | ZodNumber _ => ZodNumber d
  | ZodBoolean _ => ZodBoolean d
  | ZodArray _ e => ZodArray d e
  | ZodOptional _ e => ZodOptional d e
  | ZodObject _ sh => ZodObject d sh
  | ZodEffects _ s => ZodEffects d s
  | ZodOther _ => ZodOther d
  end.

(** [z.ZodType.prototype.aliases]: a one-character alias becomes a
    single-dash token, any other a double-dash token. *)
Definition alias_token (alias : string) : string :=
  if Nat.eqb (String.length alias) 1 then "-" ++ alias else "--" ++ alias.

Definition aliases (t : ZodTypeAny) (names : list string) : ZodTypeAny :=
  with_def t (mkDef (Some (map alias_token names)) (def_description (_def t))).

(** [getAliases]: [_def.aliases || []] *)
Definition getAliases (t : ZodTypeAny) : list string :=
  match def_aliases (_def t) with
  | Some l => l
  | None => []
  end.

Definition describe (t : ZodTypeAny) (description : string) : ZodTypeAny :=
  with_def t (mkDef (def_aliases (_def t)) (Some description)).

Definition getDescription (t : ZodTypeAny) : option string :=
  def_description (_def t).

(** [x.getDescription() || 'No description available'] *)
Definition descriptionOrDefault (t : ZodTypeAny) : string :=
  match truthy (getDescription t) with
  | Some d => d
  | None => "No description available"
  end.

(** [issue.path] holds property names and array indices. *)
Inductive PathSegment : Type :=
| PathKey (k : string)
| PathIndex (n : nat).

Definition String_of_segment (p : PathSegment) : string :=
  match p with
  | PathKey k => k
  | PathIndex n => String_of_index n
  end.

Record ZodIssue : Type := mkIssue {
  path : list PathSegment;
  message : string
}.

(** JavaScript's [Number(value)]: [None] stands for [NaN]. *)
Class JsNumbers : Type := {
  JsNum : Type;
  Number : string -> option JsNum
}.

(** The values the resolver stores in [parsedArgs]. *)
Inductive JsValue `{JsNumbers} : Type :=
| JsString (s : string)
| JsNumber (n : JsNum)
| JsBoolean (b : bool)
| JsArray (xs : list string)
| JsUndefined.

Inductive SafeParseReturn (Data : Type) : Type :=
| SafeParseSuccess (data : Data)
| SafeParseError (issues : list ZodIssue).
Arguments SafeParseSuccess {Data} data.
Arguments SafeParseError {Data} issues.

(** What the resolver consumes from Zod itself: [schema.safeParse],
    [type.isOptional()], and whether validated data is truthy (it is
    tested with [!parsedArgs]). These are the calls that return; the
    calls that throw, from the callback of a refinement or of a
    transform, are those of [ZodCallbacks] below. *)
Class ZodRuntime `{JsNumbers} : Type := {
  Data : Type;
  safeParse : ZodTypeAny -> gmap string JsValue -> SafeParseReturn Data;
  isOptional : ZodTypeAny -> bool;
  Data_truthy : Data -> bool
}.

(** What a handler throws: a value whose [message] renders as the given
    text in the template of the [catch] block, or a value on which the
    template itself throws a [TypeError]: [null], [undefined], or a value
    whose [message] cannot be converted to a string. *)
Inductive Thrown : Type :=
| ThrownValue (message : string)
| ThrownNullish.

Inductive HandlerOutcome : Type :=
| HandlerReturns
| HandlerThrows (error : Thrown).

(** The observable trace of a [parse] call. *)
Inductive Event `{ZodRuntime} : Type :=
| ConsoleLog (text : string)
| ConsoleError (text : string)
| HandlerCall (commandName : string) (args : Data).

(** ** Code shared verbatim by the three copies *)

Section Shared.
Context `{ZodRuntime}.

(** [t instanceof ZodBoolean ||
     (t instanceof ZodOptional && t._def.innerType instanceof ZodBoolean)] *)
Definition isBooleanType (t : option ZodTypeAny) : bool :=
  match t with
  | Some (ZodBoolean _) => true
  | Some (ZodOptional _ (ZodBoolean _)) => true
  | _ => false
  end.

Definition isNumberType (t : option ZodTypeAny) : bool :=
  match t with
  | Some (ZodNumber _) => true
  | Some (ZodOptional _ (ZodNumber _)) => true
  | _ => false
  end.

(** [t instanceof z.ZodArray] *)
Definition isArrayType (t : option ZodTypeAny) : bool :=
  match t with
  | Some (ZodArray _ _) => true
  | _ => false
  end.

(** [parseValue(value, type)] *)
Definition parseValue (value : string) (type : option ZodTypeAny) : JsValue :=
  if isNumberType type then
    match Number value with
    | Some parsed => JsNumber parsed
    | None => JsString value
    end
  else if isBooleanType type then
    if String.eqb value "true" || String.eqb value "false"
    then JsBoolean (String.eqb value "true")
    else JsString value
  else JsString value.

(** [[arg, value] = arg.split('=')], guarded by [arg.includes('=')] *)
Definition splitInlineValue (arg : string) : string * option string :=
  if includes arg "=" then
    let parts := split arg "="%char in
    (hd EmptyString parts, parts !! 1)
  else (arg, None).

(** The inner loop [while (i < args.length && !args[i].startsWith('-'))]
    of the array case, run over the tokens from index [i] on. *)
Fixpoint consumeArrayValues (rest : list string) (i : nat)
    (values : list string) (processedIndices : gset nat)
  : list string * nat * gset nat :=
  match rest with
  | [] => (values, i, processedIndices)
  | a :: rest' =>
      if startsWith a "-" then (values, i, processedIndices)
      else consumeArrayValues rest' (S i) (values ++ [a])%list ({[i]} ∪ processedIndices)
  end.

(** One rendered line of a validation issue. *)
Definition issueLine (issue : ZodIssue) : string :=
  let joined := join " -> " (map String_of_segment (path issue)) in
  let path := if String.eqb joined "" then "Input" else joined in
  "  - " ++ path ++ ": " ++ message issue.

Definition newline : string := String (ascii_of_nat 10) EmptyString.

Definition aliasText (aliases : list string) : string :=
  if Nat.ltb 0 (List.length aliases) then " (" ++ join ", " aliases ++ ")" else "".

End Shared.

(** ** First copy: the first [Zli] class of [src/zli.ts] *)

Module ZliV1.
Section Zli.
Context `{ZodRuntime}.

Record CommandDefinition : Type := mkCommand {
  schema : ZodTypeAny;
  handler : Data -> HandlerOutcome;
  cmd_aliases : list string
}.

(** [this.commands], enumerated as [Object.entries] does. *)
Record Zli : Type := mkZli {
  commands : list (string * CommandDefinition)
}.

Definition newZli : Zli := mkZli [].

Definition addCommand (this : Zli) (commandName : string) (schema : ZodTypeAny)
    (handler : Data -> HandlerOutcome) (aliases : list string) : Zli :=
  mkZli (setProperty (commands this) commandName (mkCommand schema handler aliases)).

(** [unwrapSchema]: one layer of [ZodEffects] at most. *)
Definition unwrapSchema (schema : ZodTypeAny) : Completion ZodTypeAny :=
  match schema with
  | ZodEffects _ (ZodObject d sh) => Normal (ZodObject d sh)
  | ZodObject d sh => Normal schema
  | _ => Throw (Error "Unsupported schema type")
  end.

Definition shapeOf (unwrapped : ZodTypeAny) : list (string * ZodTypeAny) :=
  match unwrapped with
  | ZodObject _ sh => sh
  | _ => []
  end.

(** The [for (const key of schemaKeys)] loop that fills
    [recognizedOptions]. *)
Definition registerAliases (aliases : list string) (key : string)
    (recognizedOptions : gmap string string) : gmap string string :=
  fold_left (fun m alias => <[alias := key]> m) aliases recognizedOptions.

Definition buildRecognizedOptions (schemaShape : list (string * ZodTypeAny))
  : gmap string string :=
  fold_left
    (fun m '(key, field) =>
       registerAliases (getAliases field) key (<["--" ++ key := key]> m))
    schemaShape ∅.

Record LoopState : Type := mkState {
  i : nat;
  parsedArgs : gmap string JsValue;
  processedIndices : gset nat
}.

(** One turn of a loop body either goes on or leaves [parseArgs] with
    [return null] after one [console.error]. *)
Inductive Step : Type :=
| Next (st : LoopState)
| ReturnNull (error : string).

(** The value of a scalar option: inline, or the next token. *)
Definition scalarOption (args : list string) (arg : string) (value : option string)
    (optionKey : string) (fieldType : option ZodTypeAny) (st : LoopState) : Step :=
  match truthy value with
  | Some value =>
      Next (mkState (i st + 1)
              (<[optionKey := parseValue value fieldType]> (parsedArgs st))
              (processedIndices st))
  | None =>
      match args !! (i st + 1) with
      | None => ReturnNull ("Option " ++ arg ++ " requires a value")
      | Some value =>
          if startsWith value "-"
          then ReturnNull ("Option " ++ arg ++ " requires a value")
          else Next (mkState (i st + 1 + 1)
                       (<[optionKey := parseValue value fieldType]> (parsedArgs st))
                       ({[i st + 1]} ∪ processedIndices st))
      end
  end.

(** Branch [arg.startsWith('--')]. *)
Definition longOption (args : list string)
    (schemaShape : list (string * ZodTypeAny))
    (recognizedOptions : gmap string string) (arg : string) (st : LoopState) : Step :=
  let '(arg, value) := splitInlineValue arg in
  match truthy (recognizedOptions !! arg) with
  | None => ReturnNull ("Unknown option: " ++ arg)
  | Some optionKey =>
      let st := mkState (i st) (parsedArgs st) ({[i st]} ∪ processedIndices st) in
      let fieldType := getProperty schemaShape optionKey in
      if isBooleanType fieldType then
        let b := match truthy value with
                 | Some value => String.eqb value "true"
                 | None => true
                 end in
        Next (mkState (i st + 1) (<[optionKey := JsBoolean b]> (parsedArgs st))
                (processedIndices st))
      else if isArrayType fieldType then
        let '(values, i', processed) :=
          consumeArrayValues (drop (i st + 1) args) (i st + 1) [] (processedIndices st) in
        Next (mkState i' (<[optionKey := JsArray values]> (parsedArgs st)) processed)
      else scalarOption args arg value optionKey fieldType st
  end.

(** The [for (const flag of flags)] loop of the combined short flags. *)
Fixpoint combinedFlags (args : list string)
    (schemaShape : list (string * ZodTypeAny))
    (recognizedOptions : gmap string string) (flags : list ascii) (st : LoopState)
  : Step :=
  match flags with
  | [] => Next st
  | flag :: flags' =>
      let flagArg := "-" ++ String flag EmptyString in
      match truthy (recognizedOptions !! flagArg) with
      | None => ReturnNull ("Unknown option: " ++ flagArg)
      | Some optionKey =>
          let fieldType := getProperty schemaShape optionKey in
          if isBooleanType fieldType then
            combinedFlags args schemaShape recognizedOptions flags'
              (mkState (i st) (<[optionKey := JsBoolean true]> (parsedArgs st))
                 (processedIndices st))
          else
            match args !! (i st + 1) with
            | None => ReturnNull ("Option " ++ flagArg ++ " requires a value")
            | Some value =>
                if startsWith value "-"
                then ReturnNull ("Option " ++ flagArg ++ " requires a value")
                else
                  combinedFlags args schemaShape recognizedOptions flags'
                    (mkState (i st + 1)
                       (<[optionKey := parseValue value fieldType]> (parsedArgs st))
                       ({[i st + 1]} ∪ processedIndices st))
            end
      end
  end.

(** Branch [arg.startsWith('-')] for a token of at most two characters. *)
Definition shortOption (args : list string)
    (schemaShape : list (string * ZodTypeAny))
    (recognizedOptions : gmap string string) (arg : string) (st : LoopState) : Step :=
  let '(arg, value) := splitInlineValue arg in
  match truthy (recognizedOptions !! arg) with
  | None => ReturnNull ("Unknown option: " ++ arg)
  | Some optionKey =>
      let st := mkState (i st) (parsedArgs st) ({[i st]} ∪ processedIndices st) in
      let fieldType := getProperty schemaShape optionKey in
      if isBooleanType fieldType then
        let b := match truthy value with
                 | Some value => String.eqb value "true"
                 | None => true
                 end in
        Next (mkState (i st + 1) (<[optionKey := JsBoolean b]> (parsedArgs st))
                (processedIndices st))
      else scalarOption args arg value optionKey fieldType st
  end.

(** The body of [while (i < args.length)] for [arg = args[i]]. *)
Definition loopBody (args : list string)
    (schemaShape : list (string * ZodTypeAny))
    (recognizedOptions : gmap string string) (arg : string) (st : LoopState) : Step :=
  if startsWith arg "--" then
    longOption args schemaShape recognizedOptions arg st
  else if startsWith arg "-" && Nat.ltb 2 (String.length arg) then
    match combinedFlags args schemaShape recognizedOptions (chars (slice1 arg)) st with
    | Next st =>
        Next (mkState (i st + 1) (parsedArgs st) ({[i st]} ∪ processedIndices st))
    | ReturnNull e => ReturnNull e
    end
  else if startsWith arg "-" then
    shortOption args schemaShape recognizedOptions arg st
  else
    Next (mkState (i st + 1) (parsedArgs st) ({[i st]} ∪ processedIndices st)).

(** [while (i < args.length) { ... }]: [None] when the fuel runs out. *)
Fixpoint scan (fuel : nat) (args : list string)
    (schemaShape : list (string * ZodTypeAny))
    (recognizedOptions : gmap string string) (st : LoopState) : option Step :=
  match fuel with
  | 0 => None
  | S fuel' =>
      match args !! i st with
      | None => Some (Next st)
      | Some arg =>
          match loopBody args schemaShape recognizedOptions arg st with
          | Next st' => scan fuel' args schemaShape recognizedOptions st'
          | ReturnNull e => Some (ReturnNull e)
          end
      end
  end.

(** [args.filter((_, index) => !processedIndices.has(index))] *)
Definition unprocessedArgs (args : list string) (processedIndices : gset nat)
  : list string :=
  map snd (filter (fun p => negb (bool_decide (fst p ∈ processedIndices)))
             (imap (fun index a => (index, a)) args)).

(** [displayValidationErrors]: one [console.error] per line. *)
Definition displayValidationErrors (issues : list ZodIssue) : list Event :=
  ConsoleError "Argument validation failed:"
    :: map (fun issue => ConsoleError (issueLine issue)) issues.

(** [parseArgs(args, schema)]: the console output and the validated data,
    or [null]. *)
Definition parseArgs (args : list string) (schema : ZodTypeAny)
  : option (Completion (list Event * option Data)) :=
  match unwrapSchema schema with
  | Throw e => Some (Throw e)
  | Normal unwrappedSchema =>
      let schemaShape := shapeOf unwrappedSchema in
      let recognizedOptions := buildRecognizedOptions schemaShape in
      match scan (S (List.length args)) args schemaShape recognizedOptions
              (mkState 0 ∅ ∅) with
      | None => None
      | Some (ReturnNull e) => Some (Normal ([ConsoleError e], None))
      | Some (Next st) =>
          match unprocessedArgs args (processedIndices st) with
          | first :: _ =>
              Some (Normal ([ConsoleError ("Unknown argument: " ++ first)], None))
          | [] =>
              match safeParse schema (parsedArgs st) with
              | SafeParseError issues =>
                  Some (Normal (displayValidationErrors issues, None))
              | SafeParseSuccess data => Some (Normal ([], Some data))
              end
          end
      end
  end.

(** [displayHelp] *)
Definition displayHelp (this : Zli) : list Event :=
  (ConsoleLog "Available commands:"
    :: map (fun '(commandName, cmd) =>
              ConsoleLog ("  " ++ commandName ++ aliasText (cmd_aliases cmd) ++ ": "
                            ++ descriptionOrDefault (schema cmd)))
         (commands this)
    ++ [ConsoleLog (newline ++ "Use --help with a command for more details.")])%list.

(** [displayHelpForCommand] *)
Definition displayHelpForCommand (commandName : string) (schema : ZodTypeAny)
  : Completion (list Event) :=
  match unwrapSchema schema with
  | Throw e => Throw e
  | Normal unwrappedSchema =>
      Normal
        (ConsoleLog (newline ++ "Usage: " ++ commandName ++ " [options]" ++ newline)
           :: ConsoleLog (descriptionOrDefault unwrappedSchema ++ newline ++ "Options:")
           :: map (fun '(key, type) =>
                     ConsoleLog ("  --" ++ key ++ aliasText (getAliases type) ++ " "
                                   ++ (if isOptional type then "(optional)" else "(required)")
                                   ++ ": " ++ descriptionOrDefault type))
                (shapeOf unwrappedSchema)
           ++ [ConsoleLog (newline ++ "Examples:")])%list
  end.

(** [Object.entries(this.commands).find(...)] *)
Definition findCommand (this : Zli) (subcommand : string)
  : option (string * CommandDefinition) :=
  List.find (fun '(cmdName, cmd) => Array_includes (cmdName :: cmd_aliases cmd) subcommand)
    (commands this).

(** The [try { handler(parsedArgs) } catch (error) { ... error.message ... }]
    block. *)
Definition runHandler (commandName : string) (cmd : CommandDefinition) (data : Data)
  : list Event * Completion unit :=
  match handler cmd data with
  | HandlerReturns => ([HandlerCall commandName data], Normal tt)
  | HandlerThrows (ThrownValue message) =>
      ([HandlerCall commandName data;
        ConsoleError ("An error occurred while executing the command: " ++ message)],
       Normal tt)
  | HandlerThrows ThrownNullish => ([HandlerCall commandName data], Throw TypeError)
  end.

(** [parse(args)]: the trace and how the call ends; [None] when the scan
    runs out of fuel. *)
Definition parse (this : Zli) (args : list string)
  : option (list Event * Completion unit) :=
  match args with
  | [] => Some (displayHelp this, Normal tt)
  | subcommand :: options =>
      match findCommand this subcommand with
      | None =>
          if String.eqb subcommand "--help" then Some (displayHelp this, Normal tt)
          else Some (ConsoleError ("Unknown command: " ++ subcommand) :: displayHelp this,
                     Normal tt)
      | Some (commandName, commandDefinition) =>
          if Array_includes options "--help" then
            match displayHelpForCommand commandName (schema commandDefinition) with
            | Throw e => Some ([], Throw e)
            | Normal out => Some (out, Normal tt)
            end
          else
            match parseArgs options (schema commandDefinition) with
            | None => None
            | Some (Throw e) => Some ([], Throw e)
            | Some (Normal (out, parsed)) =>
                match (match parsed with
                       | Some data => if Data_truthy data then Some data else None
                       | None => None
                       end) with
                | None =>
                    match displayHelpForCommand commandName (schema commandDefinition) with
                    | Throw e => Some (out, Throw e)
                    | Normal help => Some ((out ++ help)%list, Normal tt)
                    end
                | Some data =>
                    let '(events, completion) := runHandler commandName commandDefinition data in
                    Some ((out ++ events)%list, completion)
                end
            end
      end
  end.

End Zli.
End ZliV1.

(** ** Second copy: the second [Zli] class of [src/zli.ts] *)

Module ZliV2.
Section Zli.
Context `{ZodRuntime}.

Record CommandDefinition : Type := mkCommand {
  schema : ZodTypeAny;
  handler : Data -> HandlerOutcome;
  cmd_aliases : list string
}.

Record Zli : Type := mkZli {
  commands : list (string * CommandDefinition);
  shouldDisplayHelp : bool
}.

Definition newZli : Zli := mkZli [] false.

Definition addCommand (this : Zli) (commandName : string) (schema : ZodTypeAny)
    (handler : Data -> HandlerOutcome) (aliases : list string) : Zli :=
  mkZli (setProperty (commands this) commandName (mkCommand schema handler aliases))
    (shouldDisplayHelp this).

(** [unwrapSchema]: any number of [ZodEffects] layers. *)
Fixpoint unwrapSchema (schema : ZodTypeAny) : Completion ZodTypeAny :=
  match schema with
  | ZodEffects _ inner => unwrapSchema inner
  | ZodObject _ _ => Normal schema
  | _ => Throw (Error "Unsupported schema type")
  end.

Definition shapeOf (unwrapped : ZodTypeAny) : list (string * ZodTypeAny) :=
  match unwrapped with
  | ZodObject _ sh => sh
  | _ => []
  end.

Definition registerAliases (aliases : list string) (key : string)
    (recognizedOptions : gmap string string) : gmap string string :=
  fold_left (fun m alias => <[alias := key]> m) aliases recognizedOptions.

(** The table also receives [-key] for every key. *)
Definition buildRecognizedOptions (schemaShape : list (string * ZodTypeAny))
  : gmap string string :=
  fold_left
    (fun m '(key, field) =>
       registerAliases (getAliases field) key
         (<["-" ++ key := key]> (<["--" ++ key := key]> m)))
    schemaShape ∅.

(** The locals of [parseArgs] together with what it mutates: the shared
    set [processedIndices], [this.shouldDisplayHelp] and the console. *)
Record LoopState : Type := mkState {
  i : nat;
  parsedArgs : gmap string JsValue;
  processedIndices : gset nat;
  this_shouldDisplayHelp : bool;
  console : list Event
}.

Definition setIndex (n : nat) (st : LoopState) : LoopState :=
  mkState n (parsedArgs st) (processedIndices st) (this_shouldDisplayHelp st) (console st).

Definition setParsedArg (k : string) (v : JsValue) (st : LoopState) : LoopState :=
  mkState (i st) (<[k := v]> (parsedArgs st)) (processedIndices st)
    (this_shouldDisplayHelp st) (console st).

Definition addProcessed (n : nat) (st : LoopState) : LoopState :=
  mkState (i st) (parsedArgs st) ({[n]} ∪ processedIndices st)
    (this_shouldDisplayHelp st) (console st).

(** [console.error(text); this.shouldDisplayHelp = true;] *)
Definition reportError (text : string) (st : LoopState) : LoopState :=
  mkState (i st) (parsedArgs st) (processedIndices st) true
    (console st ++ [ConsoleError text])%list.

Inductive ParseOptionResult : Type :=
| OptionSuccess (optionKey : string) (fieldType : ZodTypeAny)
    (value : option string) (newIndex : nat)
| OptionFailure (newIndex : nat).

(** [parseOption(arg, args, i, recognizedOptions, schemaShape,
    processedIndices)] *)
Definition parseOption (arg : string) (args : list string) (i : nat)
    (recognizedOptions : gmap string string)
    (schemaShape : list (string * ZodTypeAny)) (st : LoopState)
  : ParseOptionResult * LoopState :=
  let '(arg, value) := splitInlineValue arg in
  match truthy (recognizedOptions !! arg) with
  | None => (OptionFailure i, reportError ("Unknown option: " ++ arg) st)
  | Some optionKey =>
      let st := addProcessed i st in
      match getProperty schemaShape optionKey with
      | None => (OptionFailure i, reportError ("Unknown option: " ++ arg) st)
      | Some fieldType =>
          if isBooleanType (Some fieldType) then
            let value := match truthy value with
                         | Some value => value
                         | None => "true"
                         end in
            (OptionSuccess optionKey fieldType (Some value) i, st)
          else if isArrayType (Some fieldType) then
            (OptionSuccess optionKey fieldType None i, st)
          else
            match truthy value with
            | None =>
                match args !! (i + 1) with
                | None =>
                    (OptionFailure i,
                     reportError ("Option " ++ arg ++ " requires a value") st)
                | Some next =>
                    if startsWith next "-" then
                      (OptionFailure i,
                       reportError ("Option " ++ arg ++ " requires a value") st)
                    else
                      (OptionSuccess optionKey fieldType (Some next) (i + 2),
                       addProcessed (i + 1) st)
                end
            | Some value => (OptionSuccess optionKey fieldType (Some value) (i + 1), st)
            end
      end
  end.

Inductive Step : Type :=
| Next (st : LoopState)
| ReturnNull (st : LoopState).

(** [parseValue(value!, fieldType)]: an [undefined] value comes back as
    it is. *)
Definition parseValue' (value : option string) (fieldType : ZodTypeAny) : JsValue :=
  match value with
  | Some value => parseValue value (Some fieldType)
  | None => JsUndefined
  end.

(** [value === 'true'] *)
Definition isTrueLiteral (value : option string) : bool :=
  match value with
  | Some value => String.eqb value "true"
  | None => false
  end.

(** Branch [arg.startsWith('--')]. *)
Definition longOption (args : list string)
    (schemaShape : list (string * ZodTypeAny))
    (recognizedOptions : gmap string string) (arg : string) (st : LoopState) : Step :=
  match parseOption arg args (i st) recognizedOptions schemaShape st with
  | (OptionFailure _, st) => ReturnNull st
  | (OptionSuccess optionKey fieldType value newIndex, st) =>
      let st := setIndex newIndex st in
      if isBooleanType (Some fieldType) then
        Next (setIndex (i st + 1) (setParsedArg optionKey (JsBoolean (isTrueLiteral value)) st))
      else if isArrayType (Some fieldType) then
        match truthy value with
        | Some value => Next (setParsedArg optionKey (JsArray (split value ","%char)) st)
        | None =>
            let '(values, i', processed) :=
              consumeArrayValues (drop (i st + 1) args) (i st + 1) [] (processedIndices st) in
            Next (mkState i' (<[optionKey := JsArray values]> (parsedArgs st)) processed
                    (this_shouldDisplayHelp st) (console st))
        end
      else
        Next (setIndex newIndex (setParsedArg optionKey (parseValue' value fieldType) st))
  end.

(** The [for (const flag of flags)] loop of the combined short flags;
    [i] already points after the combined token. *)
Fixpoint combinedFlags (args : list string)
    (schemaShape : list (string * ZodTypeAny))
    (recognizedOptions : gmap string string) (flags : list ascii) (st : LoopState)
  : Step :=
  match flags with
  | [] => Next st
  | flag :: flags' =>
      let flagArg := "-" ++ String flag EmptyString in
      match parseOption flagArg args (i st - 1) recognizedOptions schemaShape st with
      | (OptionFailure _, st) => ReturnNull st
      | (OptionSuccess optionKey fieldType _ _, st) =>
          if isBooleanType (Some fieldType) then
            combinedFlags args schemaShape recognizedOptions flags'
              (setParsedArg optionKey (JsBoolean true) st)
          else
            match args !! i st with
            | None => ReturnNull (reportError ("Option " ++ flagArg ++ " requires a value") st)
            | Some val =>
                if startsWith val "-" then
                  ReturnNull (reportError ("Option " ++ flagArg ++ " requires a value") st)
                else
                  combinedFlags args schemaShape recognizedOptions flags'
                    (setParsedArg optionKey (parseValue val (Some fieldType))
                       (setIndex (i st + 1) (addProcessed (i st) st)))
            end
      end
  end.

(** Branch [arg.startsWith('-')] for the remaining dash tokens. *)
Definition shortOption (args : list string)
    (schemaShape : list (string * ZodTypeAny))
    (recognizedOptions : gmap string string) (arg : string) (st : LoopState) : Step :=
  match parseOption arg args (i st) recognizedOptions schemaShape st with
  | (OptionFailure _, st) => ReturnNull st
  | (OptionSuccess optionKey fieldType value newIndex, st) =>
      let st := setIndex newIndex st in
      if isBooleanType (Some fieldType) then
        Next (setIndex (i st + 1) (setParsedArg optionKey (JsBoolean (isTrueLiteral value)) st))
      else
        Next (setIndex newIndex (setParsedArg optionKey (parseValue' value fieldType) st))
  end.

(** The body of [while (i < args.length)] for [arg = args[i]]. *)
Definition loopBody (args : list string)
    (schemaShape : list (string * ZodTypeAny))
    (recognizedOptions : gmap string string) (arg : string) (st : LoopState) : Step :=
  if startsWith arg "--" then
    longOption args schemaShape recognizedOptions arg st
  else if startsWith arg "-" && Nat.ltb 2 (String.length arg)
          && negb (startsWith arg "--") then
    combinedFlags args schemaShape recognizedOptions (chars (slice1 arg))
      (setIndex (i st + 1) (addProcessed (i st) st))
  else if startsWith arg "-" then
    shortOption args schemaShape recognizedOptions arg st
  else
    ReturnNull (reportError ("Unknown argument: " ++ arg) st).

(** [while (i < args.length) { ... }]: [None] when the fuel runs out. *)
Fixpoint scan (fuel : nat) (args : list string)
    (schemaShape : list (string * ZodTypeAny))
    (recognizedOptions : gmap string string) (st : LoopState) : option Step :=
  match fuel with
  | 0 => None
  | S fuel' =>
      match args !! i st with
      | None => Some (Next st)
      | Some arg =>
          match loopBody args schemaShape recognizedOptions arg st with
          | Next st' => scan fuel' args schemaShape recognizedOptions st'
          | ReturnNull st' => Some (ReturnNull st')
          end
      end
  end.

(** [displayValidationErrors]: one trimmed message. *)
Definition validationMessage (issues : list ZodIssue) : string :=
  trim (fold_left (fun errorMessage issue => errorMessage ++ issueLine issue ++ newline)
          issues ("Argument validation failed:" ++ newline)).

Definition displayValidationErrors (issues : list ZodIssue) : list Event :=
  [ConsoleError (validationMessage issues)].

(** [parseArgs(args, schema)] with the given fuel for its scan: the
    instance afterwards, the console output, and the validated data or
    [null]. *)
Definition parseArgs_fuel (fuel : nat) (this : Zli) (args : list string)
    (schema : ZodTypeAny)
  : option (Completion (Zli * list Event * option Data)) :=
  match unwrapSchema schema with
  | Throw e => Some (Throw e)
  | Normal unwrappedSchema =>
      let schemaShape := shapeOf unwrappedSchema in
      let recognizedOptions := buildRecognizedOptions schemaShape in
      match scan fuel args schemaShape recognizedOptions
              (mkState 0 ∅ ∅ (shouldDisplayHelp this) []) with
      | None => None
      | Some (ReturnNull st) =>
          Some (Normal (mkZli (commands this) (this_shouldDisplayHelp st), console st, None))
      | Some (Next st) =>
          match safeParse schema (parsedArgs st) with
          | SafeParseError issues =>
              Some (Normal (mkZli (commands this) true,
                            (console st ++ displayValidationErrors issues)%list, None))
          | SafeParseSuccess data =>
              Some (Normal (mkZli (commands this) (this_shouldDisplayHelp st),
                            console st, Some data))
          end
      end
  end.

Definition parseArgs (this : Zli) (args : list string) (schema : ZodTypeAny) :=
  parseArgs_fuel (S (List.length args)) this args schema.

(** [displayHelp]: one message. *)
Definition displayHelp (this : Zli) : list Event :=
  [ConsoleLog
     (fold_left
        (fun helpMessage '(commandName, cmd) =>
           helpMessage ++ "  " ++ commandName ++ aliasText (cmd_aliases cmd) ++ ": "
             ++ descriptionOrDefault (schema cmd) ++ newline)
        (commands this) ("Available commands:" ++ newline)
      ++ newline ++ "Use --help with a command for more details.")].

(** [displayHelpForCommand]: one message. *)
Definition displayHelpForCommand (commandName : string) (schema : ZodTypeAny)
  : Completion (list Event) :=
  match unwrapSchema schema with
  | Throw e => Throw e
  | Normal unwrappedSchema =>
      Normal
        [ConsoleLog
           (fold_left
              (fun helpMessage '(key, type) =>
                 helpMessage ++ "  --" ++ key ++ aliasText (getAliases type) ++ " "
                   ++ (if isOptional type then "(optional)" else "(required)")
                   ++ ": " ++ descriptionOrDefault type ++ newline)
              (shapeOf unwrappedSchema)
              (newline ++ "Usage: " ++ commandName ++ " [options]" ++ newline ++ newline
                 ++ descriptionOrDefault unwrappedSchema ++ newline ++ newline
                 ++ "Options:" ++ newline)
            ++ newline ++ "Examples:")]
  end.

Definition findCommand (this : Zli) (subcommand : string)
  : option (string * CommandDefinition) :=
  List.find (fun '(cmdName, cmd) => Array_includes (cmdName :: cmd_aliases cmd) subcommand)
    (commands this).

Definition runHandler (commandName : string) (cmd : CommandDefinition) (data : Data)
  : list Event * Completion unit :=
  match handler cmd data with
  | HandlerReturns => ([HandlerCall commandName data], Normal tt)
  | HandlerThrows (ThrownValue message) =>
      ([HandlerCall commandName data;
        ConsoleError ("An error occurred while executing the command: " ++ message)],
       Normal tt)
  | HandlerThrows ThrownNullish => ([HandlerCall commandName data], Throw TypeError)
  end.

(** [parse(args)] with the given fuel for the scan of [parseArgs]: the
    instance afterwards, the trace, and how the call ends. *)
Definition parse_fuel (fuel : nat) (this : Zli) (args : list string)
  : option (Zli * list Event * Completion unit) :=
  match args with
  | [] => Some (this, displayHelp this, Normal tt)
  | subcommand :: options =>
      match findCommand this subcommand with
      | None =>
          if String.eqb subcommand "--help" then Some (this, displayHelp this, Normal tt)
          else Some (this,
                     ConsoleError ("Unknown command: " ++ subcommand) :: displayHelp this,
                     Normal tt)
      | Some (commandName, commandDefinition) =>
          if Array_includes options "--help" then
            match displayHelpForCommand commandName (schema commandDefinition) with
            | Throw e => Some (this, [], Throw e)
            | Normal out => Some (this, out, Normal tt)
            end
          else
            match parseArgs_fuel fuel this options (schema commandDefinition) with
            | None => None
            | Some (Throw e) => Some (this, [], Throw e)
            | Some (Normal (this, out, parsed)) =>
                match (match parsed with
                       | Some data => if Data_truthy data then Some data else None
                       | None => None
                       end) with
                | None =>
                    if shouldDisplayHelp this then
                      match displayHelpForCommand commandName (schema commandDefinition) with
                      | Throw e => Some (this, out, Throw e)
                      | Normal help => Some (this, (out ++ help)%list, Normal tt)
                      end
                    else Some (this, out, Normal tt)
                | Some data =>
                    let '(events, completion) := runHandler commandName commandDefinition data in
                    Some (this, (out ++ events)%list, completion)
                end
            end
      end
  end.

Definition parse (this : Zli) (args : list string) :=
  parse_fuel (List.length args) this args.

End Zli.
End ZliV2.

(** ** Third copy: the [Zli] class of [src/index.ts] *)

Module Index.
Section Zli.
Context `{ZodRuntime}.

Record CommandDefinition : Type := mkCommand {
  schema : ZodTypeAny;
  handler : Data -> HandlerOutcome
}.

Record Zli : Type := mkZli {
  commands : list (string * CommandDefinition);
  shouldDisplayHelp : bool
}.

Definition newZli : Zli := mkZli [] false.

Definition addCommand (this : Zli) (commandName : string) (schema : ZodTypeAny)
    (handler : Data -> HandlerOutcome) : Zli :=
  mkZli (setProperty (commands this) commandName (mkCommand schema handler))
    (shouldDisplayHelp this).

Fixpoint resolveSchema (schema : ZodTypeAny) : Completion ZodTypeAny :=
  match schema with
  | ZodEffects _ inner => resolveSchema inner
  | ZodObject _ _ => Normal schema
  | _ => Throw (Error "Unsupported schema type")
  end.

Definition shapeOf (unwrapped : ZodTypeAny) : list (string * ZodTypeAny) :=
  match unwrapped with
  | ZodObject _ sh => sh
  | _ => []
  end.

Definition registerAliases (aliases : list string) (key : string)
    (optionAliasMap : gmap string string) : gmap string string :=
  fold_left (fun m alias => <[alias := key]> m) aliases optionAliasMap.

Definition buildOptionAliasMap (schemaShape : list (string * ZodTypeAny))
  : gmap string string :=
  fold_left
    (fun m '(key, field) =>
       registerAliases (getAliases field) key
         (<["-" ++ key := key]> (<["--" ++ key := key]> m)))
    schemaShape ∅.

Record LoopState : Type := mkState {
  i : nat;
  parsedArgs : gmap string JsValue;
  processedIndices : gset nat;
  this_shouldDisplayHelp : bool;
  console : list Event
}.

Definition setIndex (n : nat) (st : LoopState) : LoopState :=
  mkState n (parsedArgs st) (processedIndices st) (this_shouldDisplayHelp st) (console st).

Definition setParsedArg (k : string) (v : JsValue) (st : LoopState) : LoopState :=
  mkState (i st) (<[k := v]> (parsedArgs st)) (processedIndices st)
    (this_shouldDisplayHelp st) (console st).

Definition addProcessed (n : nat) (st : LoopState) : LoopState :=
  mkState (i st) (parsedArgs st) ({[n]} ∪ processedIndices st)
    (this_shouldDisplayHelp st) (console st).

(** [this.shouldDisplayHelp = true;] *)
Definition setShouldDisplayHelp (st : LoopState) : LoopState :=
  mkState (i st) (parsedArgs st) (processedIndices st) true (console st).

(** [console.error(text); this.shouldDisplayHelp = true;] *)
Definition reportError (text : string) (st : LoopState) : LoopState :=
  mkState (i st) (parsedArgs st) (processedIndices st) true
    (console st ++ [ConsoleError text])%list.

Inductive ParseOptionResult : Type :=
| OptionSuccess (optionKey : string) (fieldType : ZodTypeAny)
    (value : option string) (newIndex : nat)
| OptionFailure (newIndex : nat).

(** [processOptionValue(arg, args, i, optionAliasMap, schemaShape,
    processedIndices)] *)
Definition processOptionValue (arg : string) (args : list string) (i : nat)
    (optionAliasMap : gmap string string)
    (schemaShape : list (string * ZodTypeAny)) (st : LoopState)
  : ParseOptionResult * LoopState :=
  let '(arg, value) := splitInlineValue arg in
  match truthy (optionAliasMap !! arg) with
  | None => (OptionFailure i, reportError ("Unknown option: " ++ arg) st)
  | Some optionKey =>
      let st := addProcessed i st in
      match getProperty schemaShape optionKey with
      | None => (OptionFailure i, reportError ("Unknown option: " ++ arg) st)
      | Some fieldType =>
          if isBooleanType (Some fieldType) then
            let value := match truthy value with
                         | Some value => value
                         | None => "true"
                         end in
            (OptionSuccess optionKey fieldType (Some value) i, st)
          else if isArrayType (Some fieldType) then
            (OptionSuccess optionKey fieldType None i, st)
          else
            match truthy value with
            | None =>
                match args !! (i + 1) with
                | None =>
                    (OptionFailure i,
                     reportError ("Option " ++ arg ++ " requires a value") st)
                | Some next =>
                    if startsWith next "-" then
                      (OptionFailure i,
                       reportError ("Option " ++ arg ++ " requires a value") st)
                    else
                      (OptionSuccess optionKey fieldType (Some next) (i + 2),
                       addProcessed (i + 1) st)
                end
            | Some value => (OptionSuccess optionKey fieldType (Some value) (i + 1), st)
            end
      end
  end.

Definition parseValue' (value : option string) (fieldType : ZodTypeAny) : JsValue :=
  match value with
  | Some value => parseValue value (Some fieldType)
  | None => JsUndefined
  end.

Definition isTrueLiteral (value : option string) : bool :=
  match value with
  | Some value => String.eqb value "true"
  | None => false
  end.

(** [processArrayArgs(args, index)] *)
Fixpoint processArrayArgs_from (rest : list string) (values : list string)
  : list string :=
  match rest with
  | [] => values
  | a :: rest' =>
      if startsWith a "-" then values
      else processArrayArgs_from rest' (values ++ [a])%list
  end.

Definition processArrayArgs (args : list string) (index : nat) : list string :=
  processArrayArgs_from (drop index args) [].

(** The [for (const flag of flags)] loop of [processCombinedShortFlags]:
    a failure sets [shouldDisplayHelp] and returns the current [i]. *)
Fixpoint combinedFlags (args : list string)
    (optionAliasMap : gmap string string)
    (schemaShape : list (string * ZodTypeAny)) (flags : list ascii) (st : LoopState)
  : LoopState :=
  match flags with
  | [] => st
  | flag :: flags' =>
      let flagArg := "-" ++ String flag EmptyString in
      match processOptionValue flagArg args (i st - 1) optionAliasMap schemaShape st with
      | (OptionFailure _, st) => setShouldDisplayHelp st
      | (OptionSuccess optionKey fieldType _ _, st) =>
          if isBooleanType (Some fieldType) then
            combinedFlags args optionAliasMap schemaShape flags'
              (setParsedArg optionKey (JsBoolean true) st)
          else
            match args !! i st with
            | None => reportError ("Option " ++ flagArg ++ " requires a value") st
            | Some val =>
                if startsWith val "-" then
                  reportError ("Option " ++ flagArg ++ " requires a value") st
                else
                  combinedFlags args optionAliasMap schemaShape flags'
                    (setParsedArg optionKey (parseValue val (Some fieldType))
                       (setIndex (i st + 1) (addProcessed (i st) st)))
            end
      end
  end.

(** [processCombinedShortFlags(arg, args, i, ...)]: the number it returns
    is the [i] of the resulting state. *)
Definition processCombinedShortFlags (arg : string) (args : list string)
    (optionAliasMap : gmap string string)
    (schemaShape : list (string * ZodTypeAny)) (st : LoopState) : LoopState :=
  combinedFlags args optionAliasMap schemaShape (chars (slice1 arg))
    (setIndex (i st + 1) (addProcessed (i st) st)).

Inductive Step : Type :=
| Continue (st : LoopState)
| ReturnNull (st : LoopState).

(** The body of [for (let i = 0; i < args.length; i++)] for
    [arg = args[i]]; [Continue] is followed by the loop's [i++]. *)
Definition loopBody (args : list string)
    (schemaShape : list (string * ZodTypeAny))
    (optionAliasMap : gmap string string) (arg : string) (st : LoopState) : Step :=
  if startsWith arg "--" then
    match processOptionValue arg args (i st) optionAliasMap schemaShape st with
    | (OptionFailure _, st) => ReturnNull st
    | (OptionSuccess optionKey fieldType value newIndex, st) =>
        if isBooleanType (Some fieldType) then
          Continue (setParsedArg optionKey (JsBoolean (isTrueLiteral value)) st)
        else if isArrayType (Some fieldType) then
          Continue (setParsedArg optionKey
                      (JsArray (match truthy value with
                                | Some value => split value ","%char
                                | None => processArrayArgs args (i st)
                                end)) st)
        else
          Continue (setIndex (newIndex - 1)
                      (setParsedArg optionKey (parseValue' value fieldType) st))
    end
  else if startsWith arg "-" && Nat.ltb 2 (String.length arg) then
    let st := processCombinedShortFlags arg args optionAliasMap schemaShape st in
    Continue (setIndex (i st - 1) st)
  else
    ReturnNull (reportError ("Unknown argument: " ++ arg) st).

Fixpoint scan (fuel : nat) (args : list string)
    (schemaShape : list (string * ZodTypeAny))
    (optionAliasMap : gmap string string) (st : LoopState) : option Step :=
  match fuel with
  | 0 => None
  | S fuel' =>
      match args !! i st with
      | None => Some (Continue st)
      | Some arg =>
          match loopBody args schemaShape optionAliasMap arg st with
          | Continue st' =>
              scan fuel' args schemaShape optionAliasMap (setIndex (i st' + 1) st')
          | ReturnNull st' => Some (ReturnNull st')
          end
      end
  end.

Definition validationMessage (issues : list ZodIssue) : string :=
  trim (fold_left (fun errorMessage issue => errorMessage ++ issueLine issue ++ newline)
          issues ("Argument validation failed:" ++ newline)).

(** [showValidationErrors] *)
Definition showValidationErrors (issues : list ZodIssue) : list Event :=
  [ConsoleError (validationMessage issues)].

(** [processArguments(args, schema)] *)
Definition processArguments (this : Zli) (args : list string) (schema : ZodTypeAny)
  : option (Completion (Zli * list Event * option Data)) :=
  match resolveSchema schema with
  | Throw e => Some (Throw e)
  | Normal schemaObject =>
      let schemaShape := shapeOf schemaObject in
      let optionAliasMap := buildOptionAliasMap schemaShape in
      match scan (S (List.length args)) args schemaShape optionAliasMap
              (mkState 0 ∅ ∅ (shouldDisplayHelp this) []) with
      | None => None
      | Some (ReturnNull st) =>
          Some (Normal (mkZli (commands this) (this_shouldDisplayHelp st), console st, None))
      | Some (Continue st) =>
          match safeParse schema (parsedArgs st) with
          | SafeParseError issues =>
              Some (Normal (mkZli (commands this) true,
                            (console st ++ showValidationErrors issues)%list, None))
          | SafeParseSuccess data =>
              Some (Normal (mkZli (commands this) (this_shouldDisplayHelp st),
                            console st, Some data))
          end
      end
  end.

Definition displayHelp (this : Zli) : list Event :=
  [ConsoleLog
     (fold_left
        (fun helpMessage '(commandName, cmd) =>
           helpMessage ++ "  " ++ commandName ++ ": "
             ++ descriptionOrDefault (schema cmd) ++ newline)
        (commands this) ("Available commands:" ++ newline)
      ++ newline ++ "Use --help with a command for more details.")].

Definition displayHelpForCommand (commandName : string) (schema : ZodTypeAny)
  : Completion (list Event) :=
  match resolveSchema schema with
  | Throw e => Throw e
  | Normal schemaObject =>
      Normal
        [ConsoleLog
           (fold_left
              (fun helpMessage '(key, type) =>
                 helpMessage ++ "  --" ++ key ++ aliasText (getAliases type) ++ " "
                   ++ (if isOptional type then "(optional)" else "(required)")
                   ++ ": " ++ descriptionOrDefault type ++ newline)
              (shapeOf schemaObject)
              (newline ++ "Usage: " ++ commandName ++ " [options]" ++ newline ++ newline
                 ++ descriptionOrDefault schemaObject ++ newline ++ newline
                 ++ "Options:" ++ newline)
            ++ newline ++ "Examples:")]
  end.

Definition findCommand (this : Zli) (subcommand : string)
  : option (string * CommandDefinition) :=
  List.find (fun '(cmdName, cmd) => Array_includes [cmdName] subcommand) (commands this).

Definition runHandler (commandName : string) (cmd : CommandDefinition) (data : Data)
  : list Event * Completion unit :=
  match handler cmd data with
  | HandlerReturns => ([HandlerCall commandName data], Normal tt)
  | HandlerThrows (ThrownValue message) =>
      ([HandlerCall commandName data;
        ConsoleError ("An error occurred while executing the command: " ++ message)],
       Normal tt)
  | HandlerThrows ThrownNullish => ([HandlerCall commandName data], Throw TypeError)
  end.

(** [parse(args)] *)
Definition parse (this : Zli) (args : list string)
  : option (Zli * list Event * Completion unit) :=
  match args with
  | [] => Some (this, displayHelp this, Normal tt)
  | subcommand :: options =>
      match findCommand this subcommand with
      | None =>
          if String.eqb subcommand "--help" then Some (this, displayHelp this, Normal tt)
          else Some (this,
                     ConsoleError ("Unknown command: " ++ subcommand) :: displayHelp this,
                     Normal tt)
      | Some (commandName, commandDefinition) =>
          if Array_includes options "--help" then
            match displayHelpForCommand commandName (schema commandDefinition) with
            | Throw e => Some (this, [], Throw e)
            | Normal out => Some (this, out, Normal tt)
            end
          else
            match processArguments this options (schema commandDefinition) with
            | None => None
            | Some (Throw e) => Some (this, [], Throw e)
            | Some (Normal (this, out, parsed)) =>
                match (match parsed with
                       | Some data => if Data_truthy data then Some data else None
                       | None => None
                       end) with
                | None =>
                    if shouldDisplayHelp this then
                      match displayHelpForCommand commandName (schema commandDefinition) with
                      | Throw e => Some (this, out, Throw e)
                      | Normal help => Some (this, (out ++ help)%list, Normal tt)
                      end
                    else Some (this, out, Normal tt)
                | Some data =>
                    let '(events, completion) := runHandler commandName commandDefinition data in
                    Some (this, (out ++ events)%list, completion)
                end
            end
      end
  end.

End Zli.
End Index.

(** ** A concrete runtime for examples *)

(** Decimal numerals read as naturals; every other text is [NaN]. Enough
    to run the scenarios of the test suite. *)
Definition digit_value (c : ascii) : option nat :=
  let n := nat_of_ascii c in
  if Nat.leb 48 n && Nat.leb n 57 then Some (n - 48) else None.

Fixpoint decimal_value (s : string) (acc : nat) : option nat :=
  match s with
  | EmptyString => Some acc
  | String c s' =>
      match digit_value c with
      | Some d => decimal_value s' (10 * acc + d)
      | None => None
      end
  end.

Definition exampleNumber (s : string) : option nat := decimal_value s 0.

#[local] Instance exampleNumbers : JsNumbers :=
  {| JsNum := nat; Number := exampleNumber |}.

(** A small validator in the manner of Zod, for object schemas whose fields
    are strings, numbers, booleans, arrays of strings and their optional
    forms: every field is checked against the value stored under its key,
    every failing field yields one issue, and the data are the record
    restricted to the declared keys. Refinements always pass. *)
Module MiniZod.

Fixpoint accepts (t : ZodTypeAny) (v : option JsValue) : bool :=
  match t with
  | ZodString _ => match v with Some (JsString _) => true | _ => false end
  | ZodNumber _ => match v with Some (JsNumber _) => true | _ => false end
  | ZodBoolean _ => match v with Some (JsBoolean _) => true | _ => false end
  | ZodArray _ (ZodString _) => match v with Some (JsArray _) => true | _ => false end
  | ZodArray _ _ => match v with Some (JsArray []) => true | _ => false end
  | ZodOptional _ inner =>
      match v with
      | None | Some JsUndefined => true
      | _ => accepts inner v
      end
  | _ => false
  end.

Definition issueFor (key : string) (v : option JsValue) : ZodIssue :=
  match v with
  | None | Some JsUndefined => mkIssue [PathKey key] "Required"
  | _ => mkIssue [PathKey key] "Invalid type"
  end.

Definition checkShape (shape : list (string * ZodTypeAny))
    (record : gmap string JsValue) : list ZodIssue :=
  flat_map (fun '(key, t) =>
              if accepts t (record !! key) then [] else [issueFor key (record !! key)])
    shape.

Definition strip (shape : list (string * ZodTypeAny))
    (record : gmap string JsValue) : gmap string JsValue :=
  fold_left (fun m '(key, _) =>
               match record !! key with
               | Some v => <[key := v]> m
               | None => m
               end) shape ∅.

Fixpoint safeParse (schema : ZodTypeAny) (record : gmap string JsValue)
  : SafeParseReturn (gmap string JsValue) :=
  match schema with
  | ZodEffects _ inner => safeParse inner record
  | ZodObject _ shape =>
      match checkShape shape record with
      | [] => SafeParseSuccess (strip shape record)
      | issues => SafeParseError issues
      end
  | _ => SafeParseError [mkIssue [] "Expected object"]
  end.

Definition isOptional (t : ZodTypeAny) : bool := accepts t None.

End MiniZod.

#[local] Instance miniZod : ZodRuntime :=
  {| Data := gmap string JsValue;
     safeParse := MiniZod.safeParse;
     isOptional := MiniZod.isOptional;
     Data_truthy := fun _ => true |}.

(** ** Statements of the specification, for comparison with the code *)

Module Spec.

(** "[  - <dot-joined path, or 'Input' if path empty>: <message>]" *)
Definition issueLine_dotted (issue : ZodIssue) : string :=
  "  - "
  ++ match path issue with
     | [] => "Input"
     | segments => join "." (map String_of_segment segments)
     end
  ++ ": " ++ message issue.

(** The same line with the separator and the fallback of the code: the
    path joined with [" -> "], or ['Input'] when that text is empty. *)
Definition issueLine_arrow (issue : ZodIssue) : string :=
  "  - "
  ++ match join " -> " (map String_of_segment (path issue)) with
     | EmptyString => "Input"
     | joined => joined
     end
  ++ ": " ++ message issue.

(** The header and the lines of a validation report. *)
Definition reportLines (line : ZodIssue -> string) (issues : list ZodIssue)
  : list string :=
  "Argument validation failed:" :: map line issues.

(** The tokens a greedy array option takes: the longest run of tokens
    that do not start with a dash. *)
Fixpoint bareValues (rest : list string) : list string :=
  match rest with
  | [] => []
  | a :: rest' => if startsWith a "-" then [] else a :: bareValues rest'
  end.

(** What a boolean option stores: [true] without a (non-empty) inline
    value, otherwise whether the inline value is the text [true]. *)
Definition booleanOptionValue (value : option string) : bool :=
  match truthy value with
  | Some v => String.eqb v "true"
  | None => true
  end.

(** The option token [token] reads as [name] with inline value [value],
    and the alias table [table] resolves [name] to the field [key] of
    type [fieldType]. *)
Definition resolvesTo (table : gmap string string)
    (shape : list (string * ZodTypeAny)) (token name : string)
    (value : option string) (key : string) (fieldType : ZodTypeAny) : Prop :=
  splitInlineValue token = (name, value)
  /\ truthy (table !! name) = Some key
  /\ getProperty shape key = Some fieldType.

(** The tokens the first copy registers for a field, and the tokens the
    other two copies register. *)
Definition tokensV1 (entry : string * ZodTypeAny) : list string :=
  ("--" ++ fst entry) :: getAliases (snd entry).

Definition tokensV2 (entry : string * ZodTypeAny) : list string :=
  ("--" ++ fst entry) :: ("-" ++ fst entry) :: getAliases (snd entry).

(** What registering one field does to the table, in the first copy and
    in the other two. *)
Definition stepV1 (m : gmap string string) (entry : string * ZodTypeAny)
  : gmap string string :=
  ZliV1.registerAliases (getAliases (snd entry)) (fst entry)
    (<["--" ++ fst entry := fst entry]> m).

Definition stepV2 (m : gmap string string) (entry : string * ZodTypeAny)
  : gmap string string :=
  ZliV2.registerAliases (getAliases (snd entry)) (fst entry)
    (<["-" ++ fst entry := fst entry]> (<["--" ++ fst entry := fst entry]> m)).

(** The token of a one-character flag, and what it means for the flag
    to resolve to the boolean-kind field [key]. *)
Definition flagToken (c : ascii) : string := "-" ++ String c EmptyString.

Definition isBooleanFlag (table : gmap string string)
    (shape : list (string * ZodTypeAny)) (c : ascii) (key : string) : Prop :=
  exists fieldType,
    truthy (table !! flagToken c) = Some key
    /\ getProperty shape key = Some fieldType
    /\ isBooleanType (Some fieldType) = true.

(** The record in which the three flags are set to [true]. *)
Definition threeFlags `{JsNumbers} (ka kb kc : string) : gmap string JsValue :=
  <[kc := JsBoolean true]> (<[kb := JsBoolean true]> (<[ka := JsBoolean true]> ∅)).



(** A handler that never throws [null] or [undefined]. *)
Definition throwsOnlyObjects `{ZodRuntime} (handler : Data -> HandlerOutcome) : Prop :=
  forall data, handler data <> HandlerThrows ThrownNullish.

(** One long option resolved once and for all: a failure with its
    message, or the field to set, its value, and whether the next token was
    taken as the value. *)
Inductive LongStep `{JsNumbers} : Type :=
| StepFail (error : string)
| StepSet (key : string) (v : JsValue) (takesNext : bool).

Definition longStep `{ZodRuntime} (table : gmap string string)
    (shape : list (string * ZodTypeAny)) (token : string) (next : option string)
  : LongStep :=
  let '(name, value) := splitInlineValue token in
  match truthy (table !! name) with
  | None => StepFail ("Unknown option: " ++ name)
  | Some key =>
      let fieldType := getProperty shape key in
      if isBooleanType fieldType then
        StepSet key (JsBoolean (booleanOptionValue value)) false
      else if isArrayType fieldType then StepSet key (JsArray []) false
      else
        match truthy value with
        | Some v => StepSet key (parseValue v fieldType) false
        | None =>
            match next with
            | Some v =>
                if startsWith v "-"
                then StepFail ("Option " ++ name ++ " requires a value")
                else StepSet key (parseValue v fieldType) true
            | None => StepFail ("Option " ++ name ++ " requires a value")
            end
        end
  end.

(** The record a list of long options resolves to, or the message of the
    first failure. *)
Fixpoint resolveLong `{ZodRuntime} (table : gmap string string)
    (shape : list (string * ZodTypeAny)) (tokens : list string)
    (record : gmap string JsValue) : string + gmap string JsValue :=
  match tokens with
  | [] => inr record
  | token :: rest =>
      match longStep table shape token (head rest) with
      | StepFail error => inl error
      | StepSet key v false => resolveLong table shape rest (<[key := v]> record)
      | StepSet key v true =>
          match rest with
          | [] => inr (<[key := v]> record)
          | _ :: rest' => resolveLong table shape rest' (<[key := v]> record)
          end
      end
  end.

(** The option [token] is a scalar option without inline value: it takes
    the next token as its value. *)
Definition takesNextValue (table : gmap string string)
    (shape : list (string * ZodTypeAny)) (token : string) : Prop :=
  exists name value key fieldType,
    resolvesTo table shape token name value key fieldType
    /\ truthy value = None
    /\ isBooleanType (Some fieldType) = false
    /\ isArrayType (Some fieldType) = false.

(** Token lists made of long options only: every token begins with [--],
    except that a scalar option without inline value may be followed by
    its value, a token that does not begin with [-]. *)
Inductive longForm (table : gmap string string)
    (shape : list (string * ZodTypeAny)) : list string -> Prop :=
| longForm_nil : longForm table shape []
| longForm_option (token : string) (rest : list string) :
    startsWith token "--" = true ->
    longForm table shape rest ->
    longForm table shape (token :: rest)
| longForm_valued (token v : string) (rest : list string) :
    startsWith token "--" = true ->
    startsWith v "-" = false ->
    takesNextValue table shape token ->
    longForm table shape rest ->
    longForm table shape (token :: v :: rest).

(** A dash token that the scans do not read as combined short flags. *)
Definition isShortToken (token : string) : Prop :=
  startsWith token "--" = false
  /\ startsWith token "-" = true
  /\ Nat.ltb 2 (String.length token) = false.

End Spec.

(** ** The effect of a resolved long option on the state of each scan *)

Module Turn.
Section Turn.
Context `{ZodRuntime}.

(** What one turn of the first copy does to its state, given the resolved
    step. *)
Definition V1_after (st : ZliV1.LoopState) (step : Spec.LongStep) : ZliV1.Step :=
  match step with
  | Spec.StepFail error => ZliV1.ReturnNull error
  | Spec.StepSet key v false =>
      ZliV1.Next (ZliV1.mkState (ZliV1.i st + 1) (<[key := v]> (ZliV1.parsedArgs st))
                    ({[ZliV1.i st]} ∪ ZliV1.processedIndices st))
  | Spec.StepSet key v true =>
      ZliV1.Next (ZliV1.mkState (ZliV1.i st + 1 + 1) (<[key := v]> (ZliV1.parsedArgs st))
                    ({[ZliV1.i st + 1]} ∪ ({[ZliV1.i st]} ∪ ZliV1.processedIndices st)))
  end.

(** The second copy: a failure reports the message and sets
    [shouldDisplayHelp]; a success moves the index and sets the field. *)
Definition V2_after (st : ZliV2.LoopState) (step : Spec.LongStep)
    (result : ZliV2.Step) : Prop :=
  match step, result with
  | Spec.StepFail error, ZliV2.ReturnNull st' =>
      ZliV2.console st' = (ZliV2.console st ++ [ConsoleError error])%list
      /\ ZliV2.this_shouldDisplayHelp st' = true
  | Spec.StepSet key v takesNext, ZliV2.Next st' =>
      ZliV2.i st' = ZliV2.i st + (if takesNext then 2 else 1)
      /\ ZliV2.parsedArgs st' = <[key := v]> (ZliV2.parsedArgs st)
      /\ ZliV2.console st' = ZliV2.console st
      /\ ZliV2.this_shouldDisplayHelp st' = ZliV2.this_shouldDisplayHelp st
  | _, _ => False
  end.

(** The copy of [index.ts]: the same, with the index one short of the next
    token, since the [for] loop adds one. *)
Definition Index_after (st : Index.LoopState) (step : Spec.LongStep)
    (result : Index.Step) : Prop :=
  match step, result with
  | Spec.StepFail error, Index.ReturnNull st' =>
      Index.console st' = (Index.console st ++ [ConsoleError error])%list
      /\ Index.this_shouldDisplayHelp st' = true
  | Spec.StepSet key v takesNext, Index.Continue st' =>
      Index.i st' + 1 = Index.i st + (if takesNext then 2 else 1)
      /\ Index.parsedArgs st' = <[key := v]> (Index.parsedArgs st)
      /\ Index.console st' = Index.console st
      /\ Index.this_shouldDisplayHelp st' = Index.this_shouldDisplayHelp st
  | _, _ => False
  end.

(** What a turn or a scan of the second copy does to the console and to
    [shouldDisplayHelp]: nothing when it goes on, one error message and
    the flag set when it returns [null]. *)
Definition V2_quiet (st : ZliV2.LoopState) (result : ZliV2.Step) : Prop :=
  match result with
  | ZliV2.Next st' =>
      ZliV2.console st' = ZliV2.console st
      /\ ZliV2.this_shouldDisplayHelp st' = ZliV2.this_shouldDisplayHelp st
  | ZliV2.ReturnNull st' =>
      ZliV2.this_shouldDisplayHelp st' = true
      /\ exists error, ZliV2.console st' = (ZliV2.console st ++ [ConsoleError error])%list
  end.

(** A trace without handler calls. *)
Definition onlyConsole (trace : list Event) : Prop :=
  Forall (fun event => match event with HandlerCall _ _ => False | _ => True end) trace.

End Turn.
End Turn.

(** ** Schemas and registries used in examples *)

Module Examples.

(** [z.object({ flag: z.boolean() })] *)
Definition flagSchema : ZodTypeAny :=
  ZodObject noDef [("flag", ZodBoolean noDef)].

(** The schema of the README and of the test suite:
    [name: z.string().aliases('n', 'fullname')],
    [age: z.number().aliases('a')],
    [verbose: z.boolean().optional().aliases('v')]. *)
Definition userSchema : ZodTypeAny :=
  ZodObject noDef
    [("name", aliases (ZodString noDef) ["n"; "fullname"]);
     ("age", aliases (ZodNumber noDef) ["a"]);
     ("verbose", aliases (ZodOptional noDef (ZodBoolean noDef)) ["v"])].

(** [z.object({ tags: z.array(z.string()) })] *)
Definition tagsSchema : ZodTypeAny :=
  ZodObject noDef [("tags", ZodArray noDef (ZodString noDef))].

(** [z.object({ tags: z.array(z.string()).aliases('t') })] *)
Definition shortTagsSchema : ZodTypeAny :=
  ZodObject noDef [("tags", aliases (ZodArray noDef (ZodString noDef)) ["t"])].

(** The three flags of the test "should handle combined short flags". *)
Definition abcSchema : ZodTypeAny :=
  ZodObject noDef
    [("a", aliases (ZodBoolean noDef) ["a"]);
     ("b", aliases (ZodBoolean noDef) ["b"]);
     ("c", aliases (ZodBoolean noDef) ["c"])].

(** Three boolean flags, the first with the alias ['-']. *)
Definition dashAliasSchema : ZodTypeAny :=
  ZodObject noDef
    [("x", aliases (ZodBoolean noDef) ["-"]);
     ("b", aliases (ZodBoolean noDef) ["b"]);
     ("c", aliases (ZodBoolean noDef) ["c"])].

(** Three boolean flags, the second with the alias ['=']. *)
Definition equalsAliasSchema : ZodTypeAny :=
  ZodObject noDef
    [("a", aliases (ZodBoolean noDef) ["a"]);
     ("e", aliases (ZodBoolean noDef) ["="]);
     ("c", aliases (ZodBoolean noDef) ["c"])].

(** [z.object({ a: z.string().optional(),
                b: z.string().optional().aliases('a') })] *)
Definition collidingSchema : ZodTypeAny :=
  ZodObject noDef
    [("a", ZodOptional noDef (ZodString noDef));
     ("b", aliases (ZodOptional noDef (ZodString noDef)) ["a"])].

(** [z.object({ name: z.string().aliases('n', 'fullname') })] *)
Definition aliasedNameSchema : ZodTypeAny :=
  ZodObject noDef [("name", aliases (ZodString noDef) ["n"; "fullname"])].

(** [z.object({ name: z.string() })] *)
Definition nameSchema : ZodTypeAny :=
  ZodObject noDef [("name", ZodString noDef)].

(** [z.object({ verbose: z.boolean().optional().aliases('v') })] *)
Definition verboseSchema : ZodTypeAny :=
  ZodObject noDef
    [("verbose", aliases (ZodOptional noDef (ZodBoolean noDef)) ["v"])].

Definition silent : gmap string JsValue -> HandlerOutcome := fun _ => HandlerReturns.

(** [new Zli().addCommand('test', verboseSchema, handler)] in the three
    copies. *)
Definition verboseV1 : ZliV1.Zli :=
  ZliV1.addCommand ZliV1.newZli "test" verboseSchema silent [].
Definition verboseV2 : ZliV2.Zli :=
  ZliV2.addCommand ZliV2.newZli "test" verboseSchema silent [].
Definition verboseIndex : Index.Zli :=
  Index.addCommand Index.newZli "test" verboseSchema silent.

(** [new Zli().addCommand('test', shortTagsSchema, handler)] *)
Definition shortTagsV2 : ZliV2.Zli :=
  ZliV2.addCommand ZliV2.newZli "test" shortTagsSchema silent [].

(** A handler that does [throw null]. *)
Definition throwsNull : gmap string JsValue -> HandlerOutcome :=
  fun _ => HandlerThrows ThrownNullish.

Definition throwingV2 : ZliV2.Zli :=
  ZliV2.addCommand ZliV2.newZli "test" verboseSchema throwsNull [].


End Examples.

(** ** Property names of plain objects *)

Module Objects.

Definition beginsWithDigit (name : string) : bool :=
  match name with
  | String c _ => let n := nat_of_ascii c in Nat.leb 48 n && Nat.leb n 57
  | EmptyString => false
  end.

(** [obj[name] = value] on a plain object stores an own property that is
    enumerated in insertion order, unless [name] is [__proto__] (the
    assignment then sets the prototype) or an array index (enumerated
    before all other names). Array indices are numerals, so a name that
    does not begin with a digit is none. *)
Definition ordinaryName (name : string) : bool :=
  negb (String.eqb name "__proto__") && negb (beginsWithDigit name).

End Objects.

(** ** Reading a trace *)

Module Trace.
Section Trace.
Context `{ZodRuntime}.

(** The texts written with [console.log], in order. *)
Definition logTexts (trace : list Event) : list string :=
  flat_map (fun event => match event with
                         | ConsoleLog text => [text]
                         | _ => []
                         end) trace.

(** The handler calls, in order: the command and the data it received. *)
Definition handlerCalls (trace : list Event) : list (string * Data) :=
  flat_map (fun event => match event with
                         | HandlerCall commandName data => [(commandName, data)]
                         | _ => []
                         end) trace.

(** The line of a command in the global help of [zli.ts], from its name,
    its aliases and its schema. *)
Definition commandLine (entry : string * list string * ZodTypeAny) : string :=
  let '(commandName, aliases, schema) := entry in
  "  " ++ commandName ++ aliasText aliases ++ ": " ++ descriptionOrDefault schema.

(** The record [record] with the fields [keys] set to [true]. *)
Definition withFlags (keys : list string) (record : gmap string JsValue)
  : gmap string JsValue :=
  fold_left (fun r key => <[key := JsBoolean true]> r) keys record.

(** A record whose keys are all fields of the schema shape. *)
Definition onlyDeclared (shape : list (string * ZodTypeAny))
    (record : gmap string JsValue) : Prop :=
  forall k, is_Some (record !! k) -> is_Some (getProperty shape k).

(** Name, aliases and schema of a registered command. *)
Definition entryV1 (entry : string * ZliV1.CommandDefinition)
  : string * list string * ZodTypeAny :=
  (fst entry, ZliV1.cmd_aliases (snd entry), ZliV1.schema (snd entry)).

Definition entryV2 (entry : string * ZliV2.CommandDefinition)
  : string * list string * ZodTypeAny :=
  (fst entry, ZliV2.cmd_aliases (snd entry), ZliV2.schema (snd entry)).

End Trace.
End Trace.

(** ** Callbacks that throw *)

(** Zod runs the callbacks of refinements and transforms inside
    [safeParse] and [isOptional] and lets what they throw escape, as it
    does with its own errors (an asynchronous refinement in a synchronous
    parse). [Some e]: the call throws [e]; [None]: the call returns what
    [safeParse] or [isOptional] of the runtime says. *)
Class ZodCallbacks `{ZodRuntime} : Type := {
  safeParse_throws : ZodTypeAny -> gmap string JsValue -> option JsError;
  isOptional_throws : ZodTypeAny -> option JsError
}.

(** The second [Zli] class of [src/zli.ts] once more, from [parseArgs]
    on, with the calls of [safeParse] and [isOptional] that may throw.
    The scan of the tokens calls neither and is the one of [ZliV2]. *)
Module Callbacks.
Section Zli.
Context `{ZodCallbacks}.

(** [schema.safeParse(parsedArgs)] *)
Definition callSafeParse (schema : ZodTypeAny) (record : gmap string JsValue)
  : Completion (SafeParseReturn Data) :=
  match safeParse_throws schema record with
  | Some e => Throw e
  | None => Normal (safeParse schema record)
  end.

(** [type.isOptional()] *)
Definition callIsOptional (type : ZodTypeAny) : Completion bool :=
  match isOptional_throws type with
  | Some e => Throw e
  | None => Normal (isOptional type)
  end.

(** [parseArgs(args, schema)]: the instance afterwards, the console
    output, and the validated data or [null], or what was thrown. *)
Definition parseArgs_fuel (fuel : nat) (this : ZliV2.Zli) (args : list string)
    (schema : ZodTypeAny)
  : option (ZliV2.Zli * list Event * Completion (option Data)) :=
  match ZliV2.unwrapSchema schema with
  | Throw e => Some (this, [], Throw e)
  | Normal unwrappedSchema =>
      let schemaShape := ZliV2.shapeOf unwrappedSchema in
      let recognizedOptions := ZliV2.buildRecognizedOptions schemaShape in
      match ZliV2.scan fuel args schemaShape recognizedOptions
              (ZliV2.mkState 0 ∅ ∅ (ZliV2.shouldDisplayHelp this) []) with
      | None => None
      | Some (ZliV2.ReturnNull st) =>
          Some (ZliV2.mkZli (ZliV2.commands this) (ZliV2.this_shouldDisplayHelp st),
                ZliV2.console st, Normal None)
      | Some (ZliV2.Next st) =>
          match callSafeParse schema (ZliV2.parsedArgs st) with
          | Throw e =>
              Some (ZliV2.mkZli (ZliV2.commands this) (ZliV2.this_shouldDisplayHelp st),
                    ZliV2.console st, Throw e)
          | Normal (SafeParseError issues) =>
              Some (ZliV2.mkZli (ZliV2.commands this) true,
                    (ZliV2.console st ++ ZliV2.displayValidationErrors issues)%list,
                    Normal None)
          | Normal (SafeParseSuccess data) =>
              Some (ZliV2.mkZli (ZliV2.commands this) (ZliV2.this_shouldDisplayHelp st),
                    ZliV2.console st, Normal (Some data))
          end
      end
  end.

(** The [for (const key in schemaShape)] loop of [displayHelpForCommand]:
    a throwing [isOptional] leaves it before anything is logged. *)
Fixpoint helpLines (schemaShape : list (string * ZodTypeAny)) (helpMessage : string)
  : Completion string :=
  match schemaShape with
  | [] => Normal helpMessage
  | (key, type) :: rest =>
      match callIsOptional type with
      | Throw e => Throw e
      | Normal optional =>
          helpLines rest
            (helpMessage ++ "  --" ++ key ++ aliasText (getAliases type) ++ " "
               ++ (if optional then "(optional)" else "(required)")
               ++ ": " ++ descriptionOrDefault type ++ newline)
      end
  end.

(** [displayHelpForCommand]: one message. *)
Definition displayHelpForCommand (commandName : string) (schema : ZodTypeAny)
  : Completion (list Event) :=
  match ZliV2.unwrapSchema schema with
  | Throw e => Throw e
  | Normal unwrappedSchema =>
      match helpLines (ZliV2.shapeOf unwrappedSchema)
              (newline ++ "Usage: " ++ commandName ++ " [options]" ++ newline ++ newline
                 ++ descriptionOrDefault unwrappedSchema ++ newline ++ newline
                 ++ "Options:" ++ newline) with
      | Throw e => Throw e
      | Normal helpMessage => Normal [ConsoleLog (helpMessage ++ newline ++ "Examples:")]
      end
  end.

(** [parse(args)] with the given fuel for the scan of [parseArgs]. *)
Definition parse_fuel (fuel : nat) (this : ZliV2.Zli) (args : list string)
  : option (ZliV2.Zli * list Event * Completion unit) :=
  match args with
  | [] => Some (this, ZliV2.displayHelp this, Normal tt)
  | subcommand :: options =>
      match ZliV2.findCommand this subcommand with
      | None =>
          if String.eqb subcommand "--help"
          then Some (this, ZliV2.displayHelp this, Normal tt)
          else Some (this,
                     ConsoleError ("Unknown command: " ++ subcommand)
                       :: ZliV2.displayHelp this,
                     Normal tt)
      | Some (commandName, commandDefinition) =>
          if Array_includes options "--help" then
            match displayHelpForCommand commandName (ZliV2.schema commandDefinition) with
            | Throw e => Some (this, [], Throw e)
            | Normal out => Some (this, out, Normal tt)
            end
          else
            match parseArgs_fuel fuel this options (ZliV2.schema commandDefinition) with
            | None => None
            | Some (this, out, Throw e) => Some (this, out, Throw e)
            | Some (this, out, Normal parsed) =>
                match (match parsed with
                       | Some data => if Data_truthy data then Some data else None
                       | None => None
                       end) with
                | None =>
                    if ZliV2.shouldDisplayHelp this then
                      match displayHelpForCommand commandName
                              (ZliV2.schema commandDefinition) with
                      | Throw e => Some (this, out, Throw e)
                      | Normal help => Some (this, (out ++ help)%list, Normal tt)
                      end
                    else Some (this, out, Normal tt)
                | Some data =>
                    let '(events, completion) :=
                      ZliV2.runHandler commandName commandDefinition data in
                    Some (this, (out ++ events)%list, completion)
                end
            end
      end
  end.

Definition parse (this : ZliV2.Zli) (args : list string) :=
  parse_fuel (List.length args) this args.


End Zli.
End Callbacks.

(** ** What [parse] reports *)

(** The reports of [parse] of the second copy of [zli.ts], read off its
    branches, for comparison with what a run prints and calls. *)
Module Reports.
Section Reports.
Context `{ZodRuntime}.





End Reports.
End Reports.

(** Callbacks that never throw. *)
#[local] Instance quietCallbacks : ZodCallbacks :=
  {| safeParse_throws := fun _ _ => None; isOptional_throws := fun _ => None |}.

(** A refinement that throws: [z.object({...}).refine(() => { throw new
    Error('refine exploded') })] is a [ZodEffects] schema whose
    [safeParse] lets the error escape. *)
Definition explodingRefinement : ZodCallbacks :=
  {| safeParse_throws :=
       fun schema _ =>
         match schema with
         | ZodEffects _ _ => Some (Error "refine exploded")
         | _ => None
         end;
     isOptional_throws := fun _ => None |}.

(** A runtime whose validated data are falsy, as for a schema that ends
    in [.transform(() => null)]. *)
Definition nullTransform : ZodRuntime :=
  {| Data := unit;
     safeParse := fun _ _ => SafeParseSuccess tt;
     isOptional := fun _ => false;
     Data_truthy := fun _ => false |}.

(** ** More schemas and registries used in examples *)

Module Scenarios.

(** A schema under refinements, the outermost first: each [.refine(...)]
    wraps the schema in one [ZodEffects]. *)
Definition refinements (defs : list ZodTypeDef) (schema : ZodTypeAny) : ZodTypeAny :=
  fold_right ZodEffects schema defs.

(** [new Zli().addCommand('add', userSchema, handler, 'a', 'new')] *)
Definition addV1 : ZliV1.Zli :=
  ZliV1.addCommand ZliV1.newZli "add" Examples.userSchema Examples.silent ["a"; "new"].
Definition addV2 : ZliV2.Zli :=
  ZliV2.addCommand ZliV2.newZli "add" Examples.userSchema Examples.silent ["a"; "new"].
Definition addIndex : Index.Zli :=
  Index.addCommand Index.newZli "add" Examples.userSchema Examples.silent.

(** [new Zli().addCommand('test', tagsSchema, handler)] *)
Definition tagsIndex : Index.Zli :=
  Index.addCommand Index.newZli "test" Examples.tagsSchema Examples.silent.

(** [new Zli().addCommand('test', verboseSchema.refine(...), handler)] *)
Definition refinedV2 : ZliV2.Zli :=
  ZliV2.addCommand ZliV2.newZli "test" (ZodEffects noDef Examples.verboseSchema)
    Examples.silent [].

(** [new Zli().addCommand('test', verboseSchema.transform(() => null),
    handler)], over the runtime whose validated data are falsy. *)
Definition nullDataV2 : @ZliV2.Zli _ nullTransform :=
  @ZliV2.addCommand _ nullTransform (@ZliV2.newZli _ nullTransform) "test"
    (ZodEffects noDef Examples.verboseSchema) (fun _ => HandlerReturns) [].

(** The trace of a run that only calls the handler of [test] with
    [{ verbose: true }]. *)
Definition verboseCall : list Event :=
  [HandlerCall "test" (<["verbose" := JsBoolean true]> ∅)].

End Scenarios.

(** ** Facts about the string primitives *)

Section StringFacts.

Lemma prefix_cons (a b : ascii) (p s : string) :
  String.prefix (String a p) (String b s) = Ascii.eqb a b && String.prefix p s.
Proof.
  cbn [String.prefix]. destruct (ascii_dec a b) as [->|Hne].
  - rewrite Ascii.eqb_refl. reflexivity.
  - apply Ascii.eqb_neq in Hne. rewrite Hne. reflexivity.
Qed.

Lemma prefix_empty (s : string) : String.prefix "" s = true.
Proof. destruct s; reflexivity. Qed.

Lemma startsWith_dash (s : string) :
  startsWith s "-" = match s with
                     | String c _ => Ascii.eqb "-" c
                     | EmptyString => false
                     end.
Proof.
  unfold startsWith. destruct s as [|c s]; [reflexivity|].
  rewrite prefix_cons, prefix_empty. apply andb_true_r.
Qed.

Lemma startsWith_dashes (s : string) :
  startsWith s "--" = match s with
                      | String a (String b _) => Ascii.eqb "-" a && Ascii.eqb "-" b
                      | _ => false
                      end.
Proof.
  unfold startsWith. destruct s as [|a [|b s]]; try reflexivity.
  - rewrite prefix_cons. cbn [String.prefix]. apply andb_false_r.
  - rewrite !prefix_cons, prefix_empty, andb_true_r. reflexivity.
Qed.

Lemma includes_equals_cons (c : ascii) (s : string) :
  includes (String c s) "=" = Ascii.eqb c "=" || includes s "=".
Proof.
  cbn [includes]. rewrite prefix_cons, prefix_empty, andb_true_r.
  rewrite (Ascii.eqb_sym "=" c). reflexivity.
Qed.

Lemma includes_equals_empty : includes "" "=" = false.
Proof. reflexivity. Qed.

Lemma includes_equals_app (name s : string) :
  includes (name ++ String "=" s) "=" = true.
Proof.
  induction name as [|c name IH].
  - change ("" ++ String "=" s) with (String "=" s).
    rewrite includes_equals_cons. reflexivity.
  - change (String c name ++ String "=" s) with (String c (name ++ String "=" s)).
    rewrite includes_equals_cons, IH. apply orb_true_r.
Qed.

Lemma split_pieces_no_separator (v : string) :
  includes v "=" = false -> split_pieces v "=" = (v, []).
Proof.
  induction v as [|c v IH]; [reflexivity|].
  rewrite includes_equals_cons. intros [Hc Hv]%orb_false_iff.
  cbn [split_pieces]. rewrite (IH Hv), Hc. reflexivity.
Qed.

Lemma split_pieces_at_separator (name s : string) :
  includes name "=" = false ->
  split_pieces (name ++ String "=" s) "=" = (name, split s "=").
Proof.
  induction name as [|c name IH]; intros Hname.
  - change ("" ++ String "=" s) with (String "=" s).
    cbn [split_pieces]. unfold split. destruct (split_pieces s "=").
    rewrite Ascii.eqb_refl. reflexivity.
  - rewrite includes_equals_cons in Hname.
    apply orb_false_iff in Hname as [Hc Hname].
    change (String c name ++ String "=" s) with (String c (name ++ String "=" s)).
    cbn [split_pieces]. rewrite (IH Hname), Hc. reflexivity.
Qed.

Lemma split_no_separator (v : string) :
  includes v "=" = false -> split v "=" = [v].
Proof. intros Hv. unfold split. rewrite (split_pieces_no_separator _ Hv). reflexivity. Qed.

Lemma split_at_separator (name s : string) :
  includes name "=" = false ->
  split (name ++ String "=" s) "=" = name :: split s "=".
Proof.
  intros Hname. unfold split at 1.
  rewrite (split_pieces_at_separator _ _ Hname). reflexivity.
Qed.

Lemma splitInlineValue_plain (arg : string) :
  includes arg "=" = false -> splitInlineValue arg = (arg, None).
Proof. intros Harg. unfold splitInlineValue. rewrite Harg. reflexivity. Qed.

Lemma splitInlineValue_one (name value : string) :
  includes name "=" = false -> includes value "=" = false ->
  splitInlineValue (name ++ "=" ++ value) = (name, Some value).
Proof.
  intros Hname Hvalue. unfold splitInlineValue.
  change (name ++ "=" ++ value) with (name ++ String "=" value).
  rewrite includes_equals_app, (split_at_separator _ _ Hname),
    (split_no_separator _ Hvalue).
  reflexivity.
Qed.

Lemma splitInlineValue_two (name value rest : string) :
  includes name "=" = false -> includes value "=" = false ->
  splitInlineValue (name ++ "=" ++ value ++ "=" ++ rest) = (name, Some value).
Proof.
  intros Hname Hvalue. unfold splitInlineValue.
  change (name ++ "=" ++ value ++ "=" ++ rest)
    with (name ++ String "=" (value ++ String "=" rest)).
  rewrite includes_equals_app, (split_at_separator _ _ Hname),
    (split_at_separator _ _ Hvalue).
  reflexivity.
Qed.

Lemma startsWith_app_dashes (name tail : string) :
  startsWith name "--" = true -> startsWith (name ++ tail) "--" = true.
Proof.
  rewrite !startsWith_dashes. destruct name as [|a [|b name]]; try discriminate.
  intros Hab. exact Hab.
Qed.

End StringFacts.

(** ** Inline values *)

(** The destructuring drops what follows a second [=]: the destructured
    pair of [name=value=rest] is [(name, value)], and the option helpers
    of the three copies ([longOption] and [shortOption] of the first copy,
    [parseOption], [processOptionValue]) as well as one turn of each scan
    on a long option return the same for [name=value=rest] as for
    [name=value]. *)
Lemma second_equals_in_helpers `{ZodRuntime} (name value rest : string) :
  includes name "=" = false ->
  includes value "=" = false ->
  let token := name ++ "=" ++ value ++ "=" ++ rest in
  let short := name ++ "=" ++ value in
  splitInlineValue token = (name, Some value)
  /\ (forall args shape table st,
         ZliV1.longOption args shape table token st
         = ZliV1.longOption args shape table short st
         /\ ZliV1.shortOption args shape table token st
            = ZliV1.shortOption args shape table short st)
  /\ (forall args i table shape st,
         ZliV2.parseOption token args i table shape st
         = ZliV2.parseOption short args i table shape st)
  /\ (forall args i table shape st,
         Index.processOptionValue token args i table shape st
         = Index.processOptionValue short args i table shape st)
  /\ (startsWith name "--" = true ->
      (forall args shape table st,
          ZliV1.loopBody args shape table token st
          = ZliV1.loopBody args shape table short st)
      /\ (forall args shape table st,
             ZliV2.loopBody args shape table token st
             = ZliV2.loopBody args shape table short st)
      /\ (forall args shape table st,
             Index.loopBody args shape table token st
             = Index.loopBody args shape table short st)).
Proof.
  intros Hname Hvalue token short.
  pose proof (splitInlineValue_two name value rest Hname Hvalue) as Htoken.
  pose proof (splitInlineValue_one name value Hname Hvalue) as Hshort.
  fold token in Htoken. fold short in Hshort.
  assert (Hv2 : forall args i table shape st,
             ZliV2.parseOption token args i table shape st
             = ZliV2.parseOption short args i table shape st).
  { intros. unfold ZliV2.parseOption. rewrite Htoken, Hshort. reflexivity. }
  assert (Hidx : forall args i table shape st,
             Index.processOptionValue token args i table shape st
             = Index.processOptionValue short args i table shape st).
  { intros. unfold Index.processOptionValue. rewrite Htoken, Hshort. reflexivity. }
  assert (Hv1 : forall args shape table st,
             ZliV1.longOption args shape table token st
             = ZliV1.longOption args shape table short st).
  { intros. unfold ZliV1.longOption. rewrite Htoken, Hshort. reflexivity. }
  split; [exact Htoken|]. split.
  { intros. split; [apply Hv1|].
    unfold ZliV1.shortOption. rewrite Htoken, Hshort. reflexivity. }
  split; [exact Hv2|]. split; [exact Hidx|].
  intros Hdashes.
  assert (Ht : startsWith token "--" = true) by (apply startsWith_app_dashes, Hdashes).
  assert (Hs : startsWith short "--" = true) by (apply startsWith_app_dashes, Hdashes).
  repeat split; intros.
  - unfold ZliV1.loopBody. rewrite Ht, Hs. apply Hv1.
  - unfold ZliV2.loopBody, ZliV2.longOption. rewrite Ht, Hs, Hv2. reflexivity.
  - unfold Index.loopBody. rewrite Ht, Hs, Hidx. reflexivity.
Qed.

(** ** One turn of the scans on an option token *)

Section OptionTurns.
Context `{ZodRuntime}.

Lemma consumeArrayValues_spec (rest : list string) (i : nat) (values : list string)
    (processed : gset nat) :
  consumeArrayValues rest i values processed
  = ((values ++ Spec.bareValues rest)%list,
     i + List.length (Spec.bareValues rest),
     list_to_set (seq i (List.length (Spec.bareValues rest))) ∪ processed).
Proof.
  revert i values processed.
  induction rest as [|a rest IH]; intros i values processed; cbn [consumeArrayValues Spec.bareValues].
  - rewrite app_nil_r, Nat.add_0_r. cbn [List.length seq list_to_set].
    rewrite (left_id_L ∅ (∪)). reflexivity.
  - destruct (startsWith a "-").
    + rewrite app_nil_r, Nat.add_0_r. cbn [List.length seq list_to_set].
      rewrite (left_id_L ∅ (∪)). reflexivity.
    + rewrite IH. cbn [List.length seq list_to_set].
      rewrite <- app_assoc. cbn [app]. f_equal; [f_equal; lia|].
      rewrite (assoc_L (∪)), (comm_L (∪) _ {[i]}). reflexivity.
Qed.

Lemma bareValues_no_dash (rest : list string) :
  Forall (fun v => startsWith v "-" = false) (Spec.bareValues rest).
Proof.
  induction rest as [|a rest IH]; cbn [Spec.bareValues]; [constructor|].
  destruct (startsWith a "-") eqn:Ha; [constructor|]. constructor; assumption.
Qed.

Lemma bareValues_stop (rest : list string) (t : string) :
  rest !! List.length (Spec.bareValues rest) = Some t -> startsWith t "-" = true.
Proof.
  induction rest as [|a rest IH]; cbn [Spec.bareValues]; [discriminate|].
  destruct (startsWith a "-") eqn:Ha; cbn.
  - intros [= <-]. exact Ha.
  - exact IH.
Qed.

Lemma V1_longOption_boolean args shape table token name value key fieldType st :
  Spec.resolvesTo table shape token name value key fieldType ->
  isBooleanType (Some fieldType) = true ->
  ZliV1.longOption args shape table token st
  = ZliV1.Next (ZliV1.mkState (ZliV1.i st + 1)
                  (<[key := JsBoolean (Spec.booleanOptionValue value)]> (ZliV1.parsedArgs st))
                  ({[ZliV1.i st]} ∪ ZliV1.processedIndices st)).
Proof.
  intros (Hsplit & Hkey & Hfield) Hbool. unfold ZliV1.longOption.
  rewrite Hsplit, Hkey, Hfield, Hbool. reflexivity.
Qed.

Lemma V1_shortOption_boolean args shape table token name value key fieldType st :
  Spec.resolvesTo table shape token name value key fieldType ->
  isBooleanType (Some fieldType) = true ->
  ZliV1.shortOption args shape table token st
  = ZliV1.Next (ZliV1.mkState (ZliV1.i st + 1)
                  (<[key := JsBoolean (Spec.booleanOptionValue value)]> (ZliV1.parsedArgs st))
                  ({[ZliV1.i st]} ∪ ZliV1.processedIndices st)).
Proof.
  intros (Hsplit & Hkey & Hfield) Hbool. unfold ZliV1.shortOption.
  rewrite Hsplit, Hkey, Hfield, Hbool. reflexivity.
Qed.

Lemma isTrueLiteral_boolean (value : option string) :
  ZliV2.isTrueLiteral
    (Some match truthy value with Some v => v | None => "true" end)
  = Spec.booleanOptionValue value.
Proof.
  unfold Spec.booleanOptionValue. destruct (truthy value); reflexivity.
Qed.

Lemma V2_parseOption_boolean args i table shape token name value key fieldType st :
  Spec.resolvesTo table shape token name value key fieldType ->
  isBooleanType (Some fieldType) = true ->
  ZliV2.parseOption token args i table shape st
  = (ZliV2.OptionSuccess key fieldType
       (Some match truthy value with Some v => v | None => "true" end) i,
     ZliV2.addProcessed i st).
Proof.
  intros (Hsplit & Hkey & Hfield) Hbool. unfold ZliV2.parseOption.
  rewrite Hsplit, Hkey, Hfield, Hbool. reflexivity.
Qed.

Lemma Index_processOptionValue_boolean args i table shape token name value key fieldType st :
  Spec.resolvesTo table shape token name value key fieldType ->
  isBooleanType (Some fieldType) = true ->
  Index.processOptionValue token args i table shape st
  = (Index.OptionSuccess key fieldType
       (Some match truthy value with Some v => v | None => "true" end) i,
     Index.addProcessed i st).
Proof.
  intros (Hsplit & Hkey & Hfield) Hbool. unfold Index.processOptionValue.
  rewrite Hsplit, Hkey, Hfield, Hbool. reflexivity.
Qed.

Lemma V1_loopBody_short args shape table token st :
  Spec.isShortToken token ->
  ZliV1.loopBody args shape table token st = ZliV1.shortOption args shape table token st.
Proof.
  intros (Hlong & Hdash & Hlen). unfold ZliV1.loopBody.
  rewrite Hlong, Hdash, Hlen. reflexivity.
Qed.

Lemma V2_loopBody_short args shape table token st :
  Spec.isShortToken token ->
  ZliV2.loopBody args shape table token st = ZliV2.shortOption args shape table token st.
Proof.
  intros (Hlong & Hdash & Hlen). unfold ZliV2.loopBody.
  rewrite Hlong, Hdash, Hlen. reflexivity.
Qed.

End OptionTurns.

(** ** Inline values with a second [=] *)

(** C9, as the code has it: in a long option token [name=value=rest]
    ([name] begins with [--]) whose name resolves to a boolean field, or
    to a scalar field with [value] not empty, the inline value is the
    text between the first and the second [=], and what follows the
    second [=] is dropped without any message. The destructured pair is
    [(name, value)], and one turn of each of the three scans stores under
    the key what [value] alone gives ([value === 'true'] for a boolean
    field, [true] if [value] is empty; [parseValue(value, fieldType)] for
    a scalar field), marks the index of the token, prints nothing, leaves
    [shouldDisplayHelp] as it is and goes on with the next token. *)
Theorem inline_value_ends_at_second_equals `{ZodRuntime} (name value rest key : string)
    (fieldType : ZodTypeAny) (shape : list (string * ZodTypeAny))
    (table : gmap string string) :
  startsWith name "--" = true ->
  includes name "=" = false ->
  includes value "=" = false ->
  truthy (table !! name) = Some key ->
  getProperty shape key = Some fieldType ->
  isBooleanType (Some fieldType) = true
  \/ (isArrayType (Some fieldType) = false /\ value <> "") ->
  let token := name ++ "=" ++ value ++ "=" ++ rest in
  let stored :=
    if isBooleanType (Some fieldType)
    then JsBoolean (Spec.booleanOptionValue (Some value))
    else parseValue value (Some fieldType) in
  splitInlineValue token = (name, Some value)
  /\ (forall args st,
         ZliV1.loopBody args shape table token st
         = ZliV1.Next
             (ZliV1.mkState (ZliV1.i st + 1) (<[key := stored]> (ZliV1.parsedArgs st))
                ({[ZliV1.i st]} ∪ ZliV1.processedIndices st)))
  /\ (forall args st,
         ZliV2.loopBody args shape table token st
         = ZliV2.Next
             (ZliV2.mkState (ZliV2.i st + 1) (<[key := stored]> (ZliV2.parsedArgs st))
                ({[ZliV2.i st]} ∪ ZliV2.processedIndices st)
                (ZliV2.this_shouldDisplayHelp st) (ZliV2.console st)))
  /\ (forall args st,
         Index.loopBody args shape table token st
         = Index.Continue
             (Index.mkState (Index.i st) (<[key := stored]> (Index.parsedArgs st))
                ({[Index.i st]} ∪ Index.processedIndices st)
                (Index.this_shouldDisplayHelp st) (Index.console st))).
Proof.
  intros Hdashes Hname Hvalue Hkey Hfield Hkind token stored.
  pose proof (splitInlineValue_two name value rest Hname Hvalue) as Hsplit.
  fold token in Hsplit.
  assert (Hlong : startsWith token "--" = true)
    by (apply startsWith_app_dashes, Hdashes).
  split; [exact Hsplit|]. subst stored.
  destruct (isBooleanType (Some fieldType)) eqn:Hbool.
  - split; [|split]; intros args st.
    + unfold ZliV1.loopBody, ZliV1.longOption.
      rewrite Hlong, Hsplit, Hkey, Hfield, Hbool. reflexivity.
    + unfold ZliV2.loopBody, ZliV2.longOption, ZliV2.parseOption.
      rewrite Hlong, Hsplit, Hkey, Hfield, Hbool, Hbool.
      unfold Spec.booleanOptionValue. destruct (truthy (Some value)); reflexivity.
    + unfold Index.loopBody, Index.processOptionValue.
      rewrite Hlong, Hsplit, Hkey, Hfield, Hbool, Hbool.
      unfold Spec.booleanOptionValue. destruct (truthy (Some value)); reflexivity.
  - destruct Hkind as [Hkind|[Harray Hnonempty]]; [discriminate Hkind|].
    assert (Htruthy : truthy (Some value) = Some value)
      by (destruct value; [contradiction|reflexivity]).
    split; [|split]; intros args st.
    + unfold ZliV1.loopBody, ZliV1.longOption, ZliV1.scalarOption.
      rewrite Hlong, Hsplit, Hkey, Hfield, Hbool, Harray, Htruthy. reflexivity.
    + unfold ZliV2.loopBody, ZliV2.longOption, ZliV2.parseOption.
      rewrite Hlong, Hsplit, Hkey, Hfield, Hbool, Harray, Htruthy, Hbool, Harray.
      reflexivity.
    + unfold Index.loopBody, Index.processOptionValue.
      rewrite Hlong, Hsplit, Hkey, Hfield, Hbool, Harray, Htruthy, Hbool, Harray.
      cbn [Index.setIndex Index.setParsedArg Index.addProcessed Index.i
             Index.parsedArgs Index.processedIndices Index.this_shouldDisplayHelp
             Index.console Index.parseValue'].
      rewrite Nat.add_sub. reflexivity.
Qed.

Lemma inline_value_ends_at_second_equals_witness :
  let nameType := aliases (ZodString noDef) ["n"; "fullname"] in
  let shape := ZliV2.shapeOf Examples.aliasedNameSchema in
  let table := ZliV2.buildRecognizedOptions shape in
  startsWith "--name" "--" = true
  /\ includes "--name" "=" = false
  /\ includes "a" "=" = false
  /\ truthy (table !! "--name") = Some "name"
  /\ getProperty shape "name" = Some nameType
  /\ isArrayType (Some nameType) = false
  /\ "a" <> ""
  /\ splitInlineValue "--name=a=b" = ("--name", Some "a")
  /\ (forall args st,
         ZliV1.loopBody args shape table "--name=a=b" st
         = ZliV1.Next
             (ZliV1.mkState (ZliV1.i st + 1)
                (<["name" := JsString "a"]> (ZliV1.parsedArgs st))
                ({[ZliV1.i st]} ∪ ZliV1.processedIndices st)))
  /\ (forall args st,
         ZliV2.loopBody args shape table "--name=a=b" st
         = ZliV2.Next
             (ZliV2.mkState (ZliV2.i st + 1)
                (<["name" := JsString "a"]> (ZliV2.parsedArgs st))
                ({[ZliV2.i st]} ∪ ZliV2.processedIndices st)
                (ZliV2.this_shouldDisplayHelp st) (ZliV2.console st)))
  /\ (forall args st,
         Index.loopBody args shape table "--name=a=b" st
         = Index.Continue
             (Index.mkState (Index.i st)
                (<["name" := JsString "a"]> (Index.parsedArgs st))
                ({[Index.i st]} ∪ Index.processedIndices st)
                (Index.this_shouldDisplayHelp st) (Index.console st))).
Proof.
  intros nameType shape table.
  assert (Hnonempty : "a" <> "") by discriminate.
  split; [reflexivity|]. split; [reflexivity|]. split; [reflexivity|].
  split; [reflexivity|]. split; [reflexivity|]. split; [reflexivity|].
  split; [exact Hnonempty|].
  exact (@inline_value_ends_at_second_equals exampleNumbers miniZod
           "--name" "a" "b" "name" nameType shape table
           eq_refl eq_refl eq_refl eq_refl eq_refl
           (or_intror (conj eq_refl Hnonempty))).
Defined.

(** C9, as stated, fails for option tokens with a single dash: a token of
    more than two characters that begins with one [-] is read as combined
    short flags, character by character, and no inline value is looked
    for. With [name: z.string().aliases('n', 'fullname')], [-n=a=b] does
    not give [name] the value [a]: the two copies of [zli.ts] report
    [Option -n requires a value], and [index.ts] reports the same and then
    a failed validation. Nor is the text after the second [=] dropped:
    with the boolean flags [a], [e] (alias [=]) and [c], the first copy
    of [zli.ts] reads [-a=a=c] as the flags [a], [=], [a], [=], [c] and
    sets [c], so that validation succeeds, while [-a=a] leaves [c] unset
    and fails validation. *)
Lemma single_dash_token_has_no_inline_value :
  let flags : gmap string JsValue :=
    <["c" := JsBoolean true]> (<["e" := JsBoolean true]> (<["a" := JsBoolean true]> ∅)) in
  ZliV1.parseArgs ["-n=a=b"] Examples.aliasedNameSchema
  = Some (Normal ([ConsoleError "Option -n requires a value"], None))
  /\ ZliV2.parseArgs ZliV2.newZli ["-n=a=b"] Examples.aliasedNameSchema
     = Some (Normal (ZliV2.mkZli [] true,
                     [ConsoleError "Option -n requires a value"], None))
  /\ (exists report,
         Index.processArguments Index.newZli ["-n=a=b"] Examples.aliasedNameSchema
         = Some (Normal (Index.mkZli [] true,
                         [ConsoleError "Option -n requires a value"; ConsoleError report],
                         None)))
  /\ ZliV1.parseArgs ["-a=a=c"] Examples.equalsAliasSchema = Some (Normal ([], Some flags))
  /\ exists report,
      ZliV1.parseArgs ["-a=a"] Examples.equalsAliasSchema = Some (Normal (report, None)).
Proof.
  intros flags. split; [reflexivity|]. split; [reflexivity|].
  split; [eexists; reflexivity|]. split; [reflexivity|]. eexists. reflexivity.
Qed.

(** ** Boolean options *)

(** C4, as the code has it: a boolean option (also an optional-wrapped
    one) stores [true] when it has no inline value or an empty one, and
    otherwise whether the inline value is exactly the text [true]; so
    [=true] stores [true], and [=false], [=yes] and every other text store
    [false]. [parseValue] is not consulted, although on a boolean field it
    would pass a text other than [true] and [false] through unchanged.
    This holds for long options in the three copies and for two-character
    short options in the two copies of [zli.ts]. *)
Theorem boolean_option_value `{ZodRuntime} (table : gmap string string)
    (shape : list (string * ZodTypeAny)) (token name : string)
    (value : option string) (key : string) (fieldType : ZodTypeAny) :
  Spec.resolvesTo table shape token name value key fieldType ->
  isBooleanType (Some fieldType) = true ->
  (startsWith token "--" = true ->
   (forall args st,
       ZliV1.loopBody args shape table token st
       = ZliV1.Next (ZliV1.mkState (ZliV1.i st + 1)
                       (<[key := JsBoolean (Spec.booleanOptionValue value)]>
                          (ZliV1.parsedArgs st))
                       ({[ZliV1.i st]} ∪ ZliV1.processedIndices st)))
   /\ (forall args st,
          ZliV2.loopBody args shape table token st
          = ZliV2.Next (ZliV2.mkState (ZliV2.i st + 1)
                          (<[key := JsBoolean (Spec.booleanOptionValue value)]>
                             (ZliV2.parsedArgs st))
                          ({[ZliV2.i st]} ∪ ZliV2.processedIndices st)
                          (ZliV2.this_shouldDisplayHelp st) (ZliV2.console st)))
   /\ (forall args st,
          Index.loopBody args shape table token st
          = Index.Continue (Index.mkState (Index.i st)
                              (<[key := JsBoolean (Spec.booleanOptionValue value)]>
                                 (Index.parsedArgs st))
                              ({[Index.i st]} ∪ Index.processedIndices st)
                              (Index.this_shouldDisplayHelp st) (Index.console st))))
  /\ (Spec.isShortToken token ->
      (forall args st,
          ZliV1.loopBody args shape table token st
          = ZliV1.Next (ZliV1.mkState (ZliV1.i st + 1)
                          (<[key := JsBoolean (Spec.booleanOptionValue value)]>
                             (ZliV1.parsedArgs st))
                          ({[ZliV1.i st]} ∪ ZliV1.processedIndices st)))
      /\ (forall args st,
             ZliV2.loopBody args shape table token st
             = ZliV2.Next (ZliV2.mkState (ZliV2.i st + 1)
                             (<[key := JsBoolean (Spec.booleanOptionValue value)]>
                                (ZliV2.parsedArgs st))
                             ({[ZliV2.i st]} ∪ ZliV2.processedIndices st)
                             (ZliV2.this_shouldDisplayHelp st) (ZliV2.console st))))
  /\ (forall text, String.eqb text "true" = false -> String.eqb text "false" = false ->
                   parseValue text (Some fieldType) = JsString text).
Proof.
  intros Hres Hbool. split; [|split].
  - intros Hlong. repeat split; intros.
    + unfold ZliV1.loopBody. rewrite Hlong.
      apply (V1_longOption_boolean _ _ _ _ _ _ _ _ _ Hres Hbool).
    + unfold ZliV2.loopBody, ZliV2.longOption. rewrite Hlong.
      rewrite (V2_parseOption_boolean _ _ _ _ _ _ _ _ _ _ Hres Hbool), Hbool.
      rewrite isTrueLiteral_boolean. reflexivity.
    + unfold Index.loopBody. rewrite Hlong.
      rewrite (Index_processOptionValue_boolean _ _ _ _ _ _ _ _ _ _ Hres Hbool), Hbool.
      change Index.isTrueLiteral with ZliV2.isTrueLiteral.
      rewrite isTrueLiteral_boolean. reflexivity.
  - intros Hshort. split; intros.
    + rewrite (V1_loopBody_short _ _ _ _ _ Hshort).
      apply (V1_shortOption_boolean _ _ _ _ _ _ _ _ _ Hres Hbool).
    + rewrite (V2_loopBody_short _ _ _ _ _ Hshort). unfold ZliV2.shortOption.
      rewrite (V2_parseOption_boolean _ _ _ _ _ _ _ _ _ _ Hres Hbool), Hbool.
      rewrite isTrueLiteral_boolean. reflexivity.
  - intros text Htrue Hfalse. unfold parseValue.
    replace (isNumberType (Some fieldType)) with false.
    + rewrite Hbool, Htrue, Hfalse. reflexivity.
    + destruct fieldType as [| | | | ? []| | |]; try discriminate; reflexivity.
Qed.

Lemma boolean_option_value_witness :
  let shape := ZliV2.shapeOf Examples.userSchema in
  let table := ZliV2.buildRecognizedOptions shape in
  let fieldType := aliases (ZodOptional noDef (ZodBoolean noDef)) ["v"] in
  Spec.resolvesTo table shape "--verbose=false" "--verbose" (Some "false") "verbose" fieldType
  /\ isBooleanType (Some fieldType) = true
  /\ startsWith "--verbose=false" "--" = true
  /\ ZliV2.loopBody ["--verbose=false"] shape table "--verbose=false"
       (ZliV2.mkState 0 ∅ ∅ false [])
     = ZliV2.Next (ZliV2.mkState 1 (<["verbose" := JsBoolean false]> ∅) ({[0]} ∪ ∅) false []).
Proof.
  intros shape table fieldType.
  assert (Hres : Spec.resolvesTo table shape "--verbose=false" "--verbose"
                   (Some "false") "verbose" fieldType)
    by (repeat split; reflexivity).
  split; [exact Hres|]. split; [reflexivity|]. split; [reflexivity|].
  exact (proj1 (proj2 (proj1 (boolean_option_value table shape _ _ _ _ _ Hres eq_refl)
                         eq_refl))
           ["--verbose=false"] (ZliV2.mkState 0 ∅ ∅ false [])).
Defined.

(** C4, as stated, fails: for [--flag=yes] on [flag: z.boolean()] the three
    copies store the boolean [false], not the text [yes] that [parseValue]
    would pass through. *)
Lemma boolean_inline_value_not_coerced :
  let stored : gmap string JsValue := <["flag" := JsBoolean false]> ∅ in
  ZliV1.parseArgs ["--flag=yes"] Examples.flagSchema = Some (Normal ([], Some stored))
  /\ ZliV2.parseArgs ZliV2.newZli ["--flag=yes"] Examples.flagSchema
     = Some (Normal (ZliV2.newZli, [], Some stored))
  /\ Index.processArguments Index.newZli ["--flag=yes"] Examples.flagSchema
     = Some (Normal (Index.newZli, [], Some stored))
  /\ parseValue "yes" (Some (ZodBoolean noDef)) = JsString "yes"
  /\ stored !! "flag" <> Some (parseValue "yes" (Some (ZodBoolean noDef))).
Proof.
  repeat split; try reflexivity.
  intros Heq. change (Some (JsBoolean false) = Some (JsString "yes")) in Heq.
  discriminate Heq.
Qed.

(** ** Flag-shaped tokens *)

Section FlagShaped.
Context `{ZodRuntime}.

Lemma V1_scalarOption_dash args name value key fieldType st next :
  truthy value = None ->
  args !! (ZliV1.i st + 1) = Some next ->
  startsWith next "-" = true ->
  ZliV1.scalarOption args name value key fieldType st
  = ZliV1.ReturnNull ("Option " ++ name ++ " requires a value").
Proof.
  intros Hvalue Hnext Hdash. unfold ZliV1.scalarOption.
  rewrite Hvalue, Hnext, Hdash. reflexivity.
Qed.

Lemma V2_parseOption_dash args i table shape token name value key fieldType st next :
  Spec.resolvesTo table shape token name value key fieldType ->
  isBooleanType (Some fieldType) = false ->
  isArrayType (Some fieldType) = false ->
  truthy value = None ->
  args !! (i + 1) = Some next ->
  startsWith next "-" = true ->
  ZliV2.parseOption token args i table shape st
  = (ZliV2.OptionFailure i,
     ZliV2.reportError ("Option " ++ name ++ " requires a value") (ZliV2.addProcessed i st)).
Proof.
  intros (Hsplit & Hkey & Hfield) Hbool Harray Hvalue Hnext Hdash.
  unfold ZliV2.parseOption.
  rewrite Hsplit, Hkey, Hfield, Hbool, Harray, Hvalue, Hnext, Hdash. reflexivity.
Qed.

Lemma Index_processOptionValue_dash args i table shape token name value key fieldType st next :
  Spec.resolvesTo table shape token name value key fieldType ->
  isBooleanType (Some fieldType) = false ->
  isArrayType (Some fieldType) = false ->
  truthy value = None ->
  args !! (i + 1) = Some next ->
  startsWith next "-" = true ->
  Index.processOptionValue token args i table shape st
  = (Index.OptionFailure i,
     Index.reportError ("Option " ++ name ++ " requires a value") (Index.addProcessed i st)).
Proof.
  intros (Hsplit & Hkey & Hfield) Hbool Harray Hvalue Hnext Hdash.
  unfold Index.processOptionValue.
  rewrite Hsplit, Hkey, Hfield, Hbool, Harray, Hvalue, Hnext, Hdash. reflexivity.
Qed.

Lemma V1_longOption_array args shape table token name value key fieldType st :
  Spec.resolvesTo table shape token name value key fieldType ->
  isBooleanType (Some fieldType) = false ->
  isArrayType (Some fieldType) = true ->
  let values := Spec.bareValues (drop (ZliV1.i st + 1) args) in
  ZliV1.longOption args shape table token st
  = ZliV1.Next (ZliV1.mkState (ZliV1.i st + 1 + List.length values)
                  (<[key := JsArray values]> (ZliV1.parsedArgs st))
                  (list_to_set (seq (ZliV1.i st + 1) (List.length values))
                     ∪ ({[ZliV1.i st]} ∪ ZliV1.processedIndices st))).
Proof.
  intros (Hsplit & Hkey & Hfield) Hbool Harray values. unfold ZliV1.longOption.
  rewrite Hsplit, Hkey, Hfield, Hbool, Harray. cbn [ZliV1.i ZliV1.processedIndices ZliV1.parsedArgs].
  rewrite consumeArrayValues_spec. reflexivity.
Qed.

Lemma V2_longOption_array args shape table token name value key fieldType st :
  Spec.resolvesTo table shape token name value key fieldType ->
  isBooleanType (Some fieldType) = false ->
  isArrayType (Some fieldType) = true ->
  let values := Spec.bareValues (drop (ZliV2.i st + 1) args) in
  ZliV2.longOption args shape table token st
  = ZliV2.Next (ZliV2.mkState (ZliV2.i st + 1 + List.length values)
                  (<[key := JsArray values]> (ZliV2.parsedArgs st))
                  (list_to_set (seq (ZliV2.i st + 1) (List.length values))
                     ∪ ({[ZliV2.i st]} ∪ ZliV2.processedIndices st))
                  (ZliV2.this_shouldDisplayHelp st) (ZliV2.console st)).
Proof.
  intros (Hsplit & Hkey & Hfield) Hbool Harray values.
  unfold ZliV2.longOption, ZliV2.parseOption.
  rewrite Hsplit, Hkey, Hfield, Hbool, Harray.
  cbn [truthy ZliV2.setIndex ZliV2.addProcessed ZliV2.i ZliV2.processedIndices
         ZliV2.parsedArgs ZliV2.this_shouldDisplayHelp ZliV2.console].
  rewrite Hbool, Harray, consumeArrayValues_spec. reflexivity.
Qed.

Lemma stops_before_dash (args : list string) (start : nat) (t : string) :
  args !! (start + List.length (Spec.bareValues (drop start args))) = Some t ->
  startsWith t "-" = true.
Proof.
  intros Ht. apply (bareValues_stop (drop start args)).
  rewrite lookup_drop. exact Ht.
Qed.

End FlagShaped.

(** C10: every token that begins with [-] counts as flag-shaped, whatever
    follows the dash. A scalar option without inline value whose next
    token begins with [-] (for instance [-5]) ends the scan with
    [Option <name> requires a value] instead of taking the token, and the
    greedy array option takes exactly the run of tokens that do not begin
    with [-], so it stops before the first token that does. *)
Theorem dash_token_is_flag_shaped `{ZodRuntime} (table : gmap string string)
    (shape : list (string * ZodTypeAny)) (token name : string)
    (value : option string) (key : string) (fieldType : ZodTypeAny)
    (args : list string) :
  Spec.resolvesTo table shape token name value key fieldType ->
  isBooleanType (Some fieldType) = false ->
  (isArrayType (Some fieldType) = false ->
   truthy value = None ->
   forall next, startsWith next "-" = true ->
     (forall st, args !! (ZliV1.i st + 1) = Some next ->
                 startsWith token "--" = true \/ Spec.isShortToken token ->
                 ZliV1.loopBody args shape table token st
                 = ZliV1.ReturnNull ("Option " ++ name ++ " requires a value"))
     /\ (forall st, args !! (ZliV2.i st + 1) = Some next ->
                    startsWith token "--" = true \/ Spec.isShortToken token ->
                    ZliV2.loopBody args shape table token st
                    = ZliV2.ReturnNull
                        (ZliV2.reportError ("Option " ++ name ++ " requires a value")
                           (ZliV2.addProcessed (ZliV2.i st) st)))
     /\ (forall st, args !! (Index.i st + 1) = Some next ->
                    startsWith token "--" = true ->
                    Index.loopBody args shape table token st
                    = Index.ReturnNull
                        (Index.reportError ("Option " ++ name ++ " requires a value")
                           (Index.addProcessed (Index.i st) st))))
  /\ (isArrayType (Some fieldType) = true ->
      startsWith token "--" = true ->
      (forall st,
          let values := Spec.bareValues (drop (ZliV1.i st + 1) args) in
          let stop := ZliV1.i st + 1 + List.length values in
          ZliV1.loopBody args shape table token st
          = ZliV1.Next (ZliV1.mkState stop
                          (<[key := JsArray values]> (ZliV1.parsedArgs st))
                          (list_to_set (seq (ZliV1.i st + 1) (List.length values))
                             ∪ ({[ZliV1.i st]} ∪ ZliV1.processedIndices st)))
          /\ Forall (fun v => startsWith v "-" = false) values
          /\ (forall t, args !! stop = Some t -> startsWith t "-" = true))
      /\ (forall st,
             let values := Spec.bareValues (drop (ZliV2.i st + 1) args) in
             let stop := ZliV2.i st + 1 + List.length values in
             ZliV2.loopBody args shape table token st
             = ZliV2.Next (ZliV2.mkState stop
                             (<[key := JsArray values]> (ZliV2.parsedArgs st))
                             (list_to_set (seq (ZliV2.i st + 1) (List.length values))
                                ∪ ({[ZliV2.i st]} ∪ ZliV2.processedIndices st))
                             (ZliV2.this_shouldDisplayHelp st) (ZliV2.console st))
             /\ Forall (fun v => startsWith v "-" = false) values
             /\ (forall t, args !! stop = Some t -> startsWith t "-" = true))).
Proof.
  intros Hres Hbool. pose proof Hres as (Hsplit & Hkey & Hfield). split.
  - intros Harray Hvalue next Hdash. repeat split.
    + intros st Hnext [Hlong|Hshort].
      * unfold ZliV1.loopBody, ZliV1.longOption.
        rewrite Hlong, Hsplit, Hkey, Hfield, Hbool, Harray.
        apply V1_scalarOption_dash with (next := next);
          [exact Hvalue | exact Hnext | exact Hdash].
      * rewrite (V1_loopBody_short _ _ _ _ _ Hshort). unfold ZliV1.shortOption.
        rewrite Hsplit, Hkey, Hfield, Hbool.
        apply V1_scalarOption_dash with (next := next);
          [exact Hvalue | exact Hnext | exact Hdash].
    + intros st Hnext [Hlong|Hshort].
      * unfold ZliV2.loopBody, ZliV2.longOption. rewrite Hlong.
        rewrite (V2_parseOption_dash _ _ _ _ _ _ _ _ _ _ next Hres Hbool Harray Hvalue Hnext Hdash).
        reflexivity.
      * rewrite (V2_loopBody_short _ _ _ _ _ Hshort). unfold ZliV2.shortOption.
        rewrite (V2_parseOption_dash _ _ _ _ _ _ _ _ _ _ next Hres Hbool Harray Hvalue Hnext Hdash).
        reflexivity.
    + intros st Hnext Hlong. unfold Index.loopBody. rewrite Hlong.
      rewrite (Index_processOptionValue_dash _ _ _ _ _ _ _ _ _ _ next
                 Hres Hbool Harray Hvalue Hnext Hdash).
      reflexivity.
  - intros Harray Hlong. split; intros st values stop.
    + split; [|split].
      * unfold ZliV1.loopBody. rewrite Hlong.
        apply (V1_longOption_array _ _ _ _ _ _ _ _ _ Hres Hbool Harray).
      * apply bareValues_no_dash.
      * intros t. apply stops_before_dash.
    + split; [|split].
      * unfold ZliV2.loopBody. rewrite Hlong.
        apply (V2_longOption_array _ _ _ _ _ _ _ _ _ Hres Hbool Harray).
      * apply bareValues_no_dash.
      * intros t. apply stops_before_dash.
Qed.

Lemma dash_token_is_flag_shaped_witness :
  let shape := ZliV2.shapeOf Examples.userSchema in
  let table := ZliV2.buildRecognizedOptions shape in
  let fieldType := aliases (ZodNumber noDef) ["a"] in
  Spec.resolvesTo table shape "--age" "--age" None "age" fieldType
  /\ isBooleanType (Some fieldType) = false
  /\ isArrayType (Some fieldType) = false
  /\ startsWith "-5" "-" = true
  /\ ZliV2.loopBody ["--age"; "-5"] shape table "--age" (ZliV2.mkState 0 ∅ ∅ false [])
     = ZliV2.ReturnNull
         (ZliV2.mkState 0 ∅ ({[0]} ∪ ∅) true [ConsoleError "Option --age requires a value"]).
Proof.
  intros shape table fieldType.
  assert (Hres : Spec.resolvesTo table shape "--age" "--age" None "age" fieldType)
    by (repeat split; reflexivity).
  split; [exact Hres|]. repeat (split; [reflexivity|]).
  exact (proj1 (proj2 (proj1 (dash_token_is_flag_shaped table shape _ _ _ _ _
                                ["--age"; "-5"] Hres eq_refl)
                         eq_refl eq_refl "-5" eq_refl))
           (ZliV2.mkState 0 ∅ ∅ false []) eq_refl (or_introl eq_refl)).
Defined.

(** ** Array options given as [--key=a,b,c] *)

(** C3 at [--tags=x,y] on [tags: z.array(z.string())]: the helpers return
    no inline value for an array field, so the branch that splits on commas
    is never taken and the three copies store the empty sequence, whereas
    [--tags x y] stores [["x"; "y"]] in the two copies of [zli.ts]. *)
Theorem comma_separated_array_is_dropped :
  let empty : gmap string JsValue := <["tags" := JsArray []]> ∅ in
  let both : gmap string JsValue := <["tags" := JsArray ["x"; "y"]]> ∅ in
  ZliV1.parseArgs ["--tags=x,y"] Examples.tagsSchema = Some (Normal ([], Some empty))
  /\ ZliV2.parseArgs ZliV2.newZli ["--tags=x,y"] Examples.tagsSchema
     = Some (Normal (ZliV2.newZli, [], Some empty))
  /\ Index.processArguments Index.newZli ["--tags=x,y"] Examples.tagsSchema
     = Some (Normal (Index.newZli, [], Some empty))
  /\ ZliV1.parseArgs ["--tags"; "x"; "y"] Examples.tagsSchema = Some (Normal ([], Some both))
  /\ ZliV2.parseArgs ZliV2.newZli ["--tags"; "x"; "y"] Examples.tagsSchema
     = Some (Normal (ZliV2.newZli, [], Some both))
  /\ empty <> both.
Proof.
  repeat split; try reflexivity.
  intros Heq. apply (f_equal (fun m => m !! "tags")) in Heq.
  change (Some (JsArray []) = Some (JsArray ["x"; "y"])) in Heq.
  discriminate Heq.
Qed.

(** ** Failures inside combined short flags *)

(** C5 at [test -vx] in the copy of [index.ts]: the unknown flag [-x] is
    reported, but [processCombinedShortFlags] only returns its index, the
    scan goes on, validation succeeds and the handler runs with
    [{verbose: true}]; no help is printed. The second copy of [zli.ts]
    prints the command's help on the same input and does not call the
    handler. *)
Theorem combined_flag_failure_still_runs_handler :
  Index.parse Examples.verboseIndex ["test"; "-vx"]
  = Some (Index.mkZli (Index.commands Examples.verboseIndex) true,
          [ConsoleError "Unknown option: -x";
           HandlerCall "test" (<["verbose" := JsBoolean true]> ∅)],
          Normal tt)
  /\ (exists help,
         ZliV2.displayHelpForCommand "test" Examples.verboseSchema = Normal help
         /\ ZliV2.parse Examples.verboseV2 ["test"; "-vx"]
            = Some (ZliV2.mkZli (ZliV2.commands Examples.verboseV2) true,
                    (ConsoleError "Unknown option: -x" :: help)%list,
                    Normal tt)).
Proof.
  split; [reflexivity|].
  eexists. split; reflexivity.
Qed.

(** ** The validation report *)

Section ValidationReport.
Context `{ZodRuntime}.

Lemma string_app_assoc (a b c : string) : (a ++ b) ++ c = a ++ b ++ c.
Proof.
  induction a as [|x a IH]; [reflexivity|].
  change (String x ((a ++ b) ++ c) = String x (a ++ b ++ c)). rewrite IH. reflexivity.
Qed.

Lemma join_cons_cons (sep a b : string) (l : list string) :
  join sep (a :: b :: l) = a ++ sep ++ join sep (b :: l).
Proof. reflexivity. Qed.

Lemma join_merge_head (sep a b : string) (l : list string) :
  join sep ((a ++ sep ++ b) :: l) = a ++ sep ++ join sep (b :: l).
Proof.
  destruct l as [|c l]; [reflexivity|].
  rewrite !join_cons_cons, !string_app_assoc. reflexivity.
Qed.

(** The text accumulated by [errorMessage += ...]. *)
Lemma accumulated_report (line : ZodIssue -> string) (issues : list ZodIssue)
    (acc : string) :
  fold_left (fun errorMessage issue => errorMessage ++ line issue ++ newline)
    issues (acc ++ newline)
  = join newline (acc :: map line issues) ++ newline.
Proof.
  revert acc. induction issues as [|issue issues IH]; intros acc; [reflexivity|].
  cbn [fold_left map].
  replace ((acc ++ newline) ++ line issue ++ newline)
    with ((acc ++ newline ++ line issue) ++ newline)
    by (rewrite !string_app_assoc; reflexivity).
  rewrite IH, join_merge_head, join_cons_cons, !string_app_assoc. reflexivity.
Qed.

Lemma trimEnd_newline (s : string) : trimEnd (s ++ newline) = trimEnd s.
Proof.
  induction s as [|c s IH]; [reflexivity|].
  change (String c s ++ newline) with (String c (s ++ newline)).
  cbn [trimEnd]. rewrite IH. reflexivity.
Qed.

Lemma issueLine_arrow (issue : ZodIssue) : issueLine issue = Spec.issueLine_arrow issue.
Proof.
  unfold issueLine, Spec.issueLine_arrow.
  destruct (join " -> " (map String_of_segment (path issue))); reflexivity.
Qed.

Lemma trimmed_report (issues : list ZodIssue) :
  trim (fold_left (fun errorMessage issue => errorMessage ++ issueLine issue ++ newline)
          issues ("Argument validation failed:" ++ newline))
  = trimEnd (join newline (Spec.reportLines Spec.issueLine_arrow issues)).
Proof.
  rewrite accumulated_report. unfold trim, Spec.reportLines.
  rewrite (map_ext _ _ issueLine_arrow).
  destruct (map Spec.issueLine_arrow issues) as [|l ls].
  - reflexivity.
  - rewrite join_cons_cons.
    change (trimStart (("Argument validation failed:" ++ newline ++ join newline (l :: ls))
                       ++ newline))
      with (("Argument validation failed:" ++ newline ++ join newline (l :: ls))
            ++ newline).
    apply trimEnd_newline.
Qed.

End ValidationReport.

(** C6, as the code has it: a validation failure is reported as the header
    [Argument validation failed:] followed, for every issue in order, by
    the line [  - <path>: <message>], where [<path>] is the issue's path
    joined with [" -> "], or [Input] when that text is empty. The first
    copy prints the header and each line with a [console.error] of its
    own; the other two print them as one text joined by line breaks, with
    the white space at its end trimmed. *)
Theorem validation_report_lists_every_issue `{ZodRuntime} (issues : list ZodIssue) :
  ZliV1.displayValidationErrors issues
  = map ConsoleError (Spec.reportLines Spec.issueLine_arrow issues)
  /\ ZliV2.displayValidationErrors issues
     = [ConsoleError (trimEnd (join newline (Spec.reportLines Spec.issueLine_arrow issues)))]
  /\ Index.showValidationErrors issues
     = [ConsoleError (trimEnd (join newline (Spec.reportLines Spec.issueLine_arrow issues)))].
Proof.
  split; [|split].
  - unfold ZliV1.displayValidationErrors, Spec.reportLines. cbn [map]. f_equal.
    rewrite map_map. apply map_ext. intros issue. rewrite issueLine_arrow. reflexivity.
  - unfold ZliV2.displayValidationErrors, ZliV2.validationMessage.
    rewrite trimmed_report. reflexivity.
  - unfold Index.showValidationErrors, Index.validationMessage.
    rewrite trimmed_report. reflexivity.
Qed.

(** C6, as stated, fails: the path [user, name] is rendered [user -> name],
    not [user.name]. *)
Lemma validation_path_is_not_dotted :
  let issue := mkIssue [PathKey "user"; PathKey "name"] "Required" in
  ZliV1.displayValidationErrors [issue]
  <> map ConsoleError (Spec.reportLines Spec.issueLine_dotted [issue])
  /\ ZliV2.displayValidationErrors [issue]
     <> [ConsoleError (join newline (Spec.reportLines Spec.issueLine_dotted [issue]))]
  /\ Index.showValidationErrors [issue]
     <> [ConsoleError (join newline (Spec.reportLines Spec.issueLine_dotted [issue]))]
  /\ ZliV2.displayValidationErrors [issue]
     = [ConsoleError ("Argument validation failed:" ++ newline ++ "  - user -> name: Required")].
Proof.
  intros issue.
  assert (Hdiff : issueLine issue <> Spec.issueLine_dotted issue).
  { intros Heq.
    change ("  - user -> name: Required" = "  - user.name: Required") in Heq.
    discriminate Heq. }
  assert (Hone : [ConsoleError ("Argument validation failed:" ++ newline ++ issueLine issue)]
                 <> [ConsoleError ("Argument validation failed:" ++ newline
                                     ++ Spec.issueLine_dotted issue)]).
  { intros Heq. apply Hdiff.
    apply (f_equal (fun events => match events with
                                  | [ConsoleError text] => text
                                  | _ => ""
                                  end)) in Heq.
    do 2 apply String.app_inj in Heq. exact Heq. }
  repeat split; try reflexivity; try exact Hone.
  intros Heq. apply Hdiff.
  apply (f_equal (fun events => match events with
                                | [_; ConsoleError text] => text
                                | _ => ""
                                end)) in Heq.
  exact Heq.
Qed.

(** ** The alias tables *)

Section AliasTables.

Lemma registerAliases_lookup (als : list string) (key tok : string)
    (m : gmap string string) :
  ZliV1.registerAliases als key m !! tok
  = if decide (tok ∈ als) then Some key else m !! tok.
Proof.
  unfold ZliV1.registerAliases. revert m.
  induction als as [|a als IH]; intros m; cbn [fold_left].
  - rewrite decide_False by apply not_elem_of_nil. reflexivity.
  - rewrite IH. destruct (decide (tok ∈ als)) as [Hin|Hnin].
    + rewrite decide_True by (right; exact Hin). reflexivity.
    + destruct (decide (a = tok)) as [->|Hne].
      * rewrite lookup_insert_eq, decide_True by left. reflexivity.
      * rewrite lookup_insert_ne by exact Hne.
        rewrite decide_False; [reflexivity|].
        intros [->|Hin]%elem_of_cons; [congruence|contradiction].
Qed.

Lemma V1_table_fold (shape : list (string * ZodTypeAny)) :
  ZliV1.buildRecognizedOptions shape = fold_left Spec.stepV1 shape ∅.
Proof.
  unfold ZliV1.buildRecognizedOptions. generalize (∅ : gmap string string).
  induction shape as [|[key field] shape IH]; intros m; [reflexivity|].
  cbn [fold_left]. apply IH.
Qed.

Lemma V2_table_fold (shape : list (string * ZodTypeAny)) :
  ZliV2.buildRecognizedOptions shape = fold_left Spec.stepV2 shape ∅.
Proof.
  unfold ZliV2.buildRecognizedOptions. generalize (∅ : gmap string string).
  induction shape as [|[key field] shape IH]; intros m; [reflexivity|].
  cbn [fold_left]. apply IH.
Qed.

Lemma Index_table (shape : list (string * ZodTypeAny)) :
  Index.buildOptionAliasMap shape = ZliV2.buildRecognizedOptions shape.
Proof. reflexivity. Qed.

Lemma stepV1_lookup (m : gmap string string) (entry : string * ZodTypeAny) (tok : string) :
  Spec.stepV1 m entry !! tok
  = if decide (tok ∈ Spec.tokensV1 entry) then Some (fst entry) else m !! tok.
Proof.
  unfold Spec.stepV1, Spec.tokensV1. rewrite registerAliases_lookup.
  destruct (decide (tok ∈ getAliases (snd entry))) as [Hin|Hnin].
  - rewrite decide_True by (right; exact Hin). reflexivity.
  - destruct (decide ("--" ++ fst entry = tok)) as [<-|Hne].
    + rewrite lookup_insert_eq, decide_True by left. reflexivity.
    + rewrite lookup_insert_ne by exact Hne.
      rewrite decide_False; [reflexivity|].
      intros [->|Hin]%elem_of_cons; [congruence|contradiction].
Qed.

Lemma stepV2_lookup (m : gmap string string) (entry : string * ZodTypeAny) (tok : string) :
  Spec.stepV2 m entry !! tok
  = if decide (tok ∈ Spec.tokensV2 entry) then Some (fst entry) else m !! tok.
Proof.
  unfold Spec.stepV2, Spec.tokensV2.
  change ZliV2.registerAliases with ZliV1.registerAliases.
  rewrite registerAliases_lookup.
  destruct (decide (tok ∈ getAliases (snd entry))) as [Hin|Hnin].
  - rewrite decide_True by (do 2 right; exact Hin). reflexivity.
  - destruct (decide ("-" ++ fst entry = tok)) as [<-|Hne1].
    + rewrite lookup_insert_eq, decide_True by (right; left). reflexivity.
    + rewrite lookup_insert_ne by exact Hne1.
      destruct (decide ("--" ++ fst entry = tok)) as [<-|Hne2].
      * rewrite lookup_insert_eq, decide_True by left. reflexivity.
      * rewrite lookup_insert_ne by exact Hne2.
        rewrite decide_False; [reflexivity|].
        intros [->|[->|Hin]%elem_of_cons]%elem_of_cons; [congruence|congruence|contradiction].
Qed.

(** A token that no later field registers keeps its entry. *)
Lemma foldV2_untouched (post : list (string * ZodTypeAny)) (tok : string)
    (m : gmap string string) :
  Forall (fun entry => tok ∉ Spec.tokensV2 entry) post ->
  fold_left Spec.stepV2 post m !! tok = m !! tok.
Proof.
  revert m. induction post as [|entry post IH]; intros m Hpost; [reflexivity|].
  apply Forall_cons in Hpost as [Hentry Hpost]. cbn [fold_left].
  rewrite (IH _ Hpost), stepV2_lookup, decide_False by exact Hentry. reflexivity.
Qed.

(** An entry, once made, is never removed. *)
Lemma foldV2_is_Some (post : list (string * ZodTypeAny)) (tok : string)
    (m : gmap string string) :
  is_Some (m !! tok) -> is_Some (fold_left Spec.stepV2 post m !! tok).
Proof.
  revert m. induction post as [|entry post IH]; intros m Hm; [exact Hm|].
  cbn [fold_left]. apply IH. rewrite stepV2_lookup.
  destruct (decide (tok ∈ Spec.tokensV2 entry)); [eexists; reflexivity|exact Hm].
Qed.

(** Every entry of the first copy's table comes from [--key] or from a
    declared alias. *)
Lemma foldV1_origin (shape : list (string * ZodTypeAny)) (tok key : string)
    (m : gmap string string) :
  fold_left Spec.stepV1 shape m !! tok = Some key ->
  m !! tok = Some key
  \/ exists field, (key, field) ∈ shape
                   /\ (tok = "--" ++ key \/ tok ∈ getAliases field).
Proof.
  revert m. induction shape as [|[k f] shape IH]; intros m Hlookup; [left; exact Hlookup|].
  cbn [fold_left] in Hlookup. apply IH in Hlookup as [Hstep|(field & Hin & Htok)].
  - rewrite stepV1_lookup in Hstep.
    destruct (decide (tok ∈ Spec.tokensV1 (k, f))) as [Htok|_]; [|left; exact Hstep].
    injection Hstep as <-. right. exists f. split; [left|].
    unfold Spec.tokensV1 in Htok. cbn [fst snd] in Htok.
    apply elem_of_cons in Htok as [->|Htok]; [left; reflexivity|right; exact Htok].
  - right. exists field. split; [right; exact Hin|exact Htok].
Qed.

End AliasTables.

(** C8, as the code has it: the tables of the second copy of [zli.ts] and
    of [index.ts] register, for every field key [k] and without any alias
    declaration, the single-dash token [-k]; the entry maps to [k] unless a
    later field registers the same token, in which case the last
    registration wins. A token [-k] longer than two characters is
    nevertheless scanned as combined short flags, one character at a time,
    so the entry is consulted only for one-character keys. Every entry of
    the first copy's table is [--k] or a declared alias of the field it
    maps to. *)
Theorem single_dash_key_registration (shape : list (string * ZodTypeAny)) :
  (forall pre key field post,
      shape = (pre ++ (key, field) :: post)%list ->
      is_Some (ZliV2.buildRecognizedOptions shape !! ("-" ++ key))
      /\ is_Some (Index.buildOptionAliasMap shape !! ("-" ++ key))
      /\ (Forall (fun entry => "-" ++ key ∉ Spec.tokensV2 entry) post ->
          ZliV2.buildRecognizedOptions shape !! ("-" ++ key) = Some key
          /\ Index.buildOptionAliasMap shape !! ("-" ++ key) = Some key))
  /\ (forall `{ZodRuntime} key args table st,
         startsWith ("-" ++ key) "--" = false ->
         Nat.ltb 2 (String.length ("-" ++ key)) = true ->
         ZliV2.loopBody args shape table ("-" ++ key) st
         = ZliV2.combinedFlags args shape table (chars key)
             (ZliV2.setIndex (ZliV2.i st + 1) (ZliV2.addProcessed (ZliV2.i st) st)))
  /\ (forall `{ZodRuntime} key args table st,
         startsWith ("-" ++ key) "--" = false ->
         Nat.ltb 2 (String.length ("-" ++ key)) = true ->
         let st' := Index.combinedFlags args table shape (chars key)
                      (Index.setIndex (Index.i st + 1) (Index.addProcessed (Index.i st) st)) in
         Index.loopBody args shape table ("-" ++ key) st
         = Index.Continue (Index.setIndex (Index.i st' - 1) st'))
  /\ (forall tok key,
         ZliV1.buildRecognizedOptions shape !! tok = Some key ->
         exists field, (key, field) ∈ shape
                       /\ (tok = "--" ++ key \/ tok ∈ getAliases field)).
Proof.
  split; [|split; [|split]].
  - intros pre key field post ->.
    change Index.buildOptionAliasMap with ZliV2.buildRecognizedOptions.
    rewrite V2_table_fold.
    rewrite fold_left_app. cbn [fold_left].
    assert (Hhere : forall m, Spec.stepV2 m (key, field) !! ("-" ++ key) = Some key).
    { intros m. rewrite stepV2_lookup, decide_True; [reflexivity|].
      unfold Spec.tokensV2. cbn [fst snd]. right. left. }
    split; [|split].
    + apply foldV2_is_Some. rewrite Hhere. eexists; reflexivity.
    + apply foldV2_is_Some. rewrite Hhere. eexists; reflexivity.
    + intros Hpost. rewrite (foldV2_untouched _ _ _ Hpost), Hhere. split; reflexivity.
  - intros ? ? key args table st Hlong Hlen. unfold ZliV2.loopBody.
    rewrite Hlong, Hlen.
    change ("-" ++ key) with (String "-" key).
    rewrite startsWith_dash, Ascii.eqb_refl. reflexivity.
  - intros ? ? key args table st Hlong Hlen st'. unfold Index.loopBody.
    rewrite Hlong, Hlen.
    change ("-" ++ key) with (String "-" key).
    rewrite startsWith_dash, Ascii.eqb_refl. reflexivity.
  - intros tok key Hlookup. rewrite V1_table_fold in Hlookup.
    apply foldV1_origin in Hlookup as [Hempty|Hfield]; [|exact Hfield].
    rewrite lookup_empty in Hempty. discriminate.
Qed.

Lemma single_dash_key_registration_witness :
  let shape := ZliV2.shapeOf Examples.userSchema in
  let field := aliases (ZodNumber noDef) ["a"] in
  let pre := [("name", aliases (ZodString noDef) ["n"; "fullname"])] in
  let post := [("verbose", aliases (ZodOptional noDef (ZodBoolean noDef)) ["v"])] in
  shape = (pre ++ ("age", field) :: post)%list
  /\ Forall (fun entry => "-age" ∉ Spec.tokensV2 entry) post
  /\ ZliV2.buildRecognizedOptions shape !! "-age" = Some "age".
Proof.
  intros shape field pre post.
  assert (Hpost : Forall (fun entry => "-age" ∉ Spec.tokensV2 entry) post).
  { repeat constructor. intros Hin.
    repeat (apply elem_of_cons in Hin as [Heq|Hin]; [discriminate Heq|]).
    exact (not_elem_of_nil _ Hin). }
  split; [reflexivity|]. split; [exact Hpost|].
  exact (proj1 (proj2 (proj2 (proj1 (single_dash_key_registration shape)
                                pre "age" field post eq_refl))
                  Hpost)).
Defined.

(** C8, as stated, fails: in [collidingSchema] the key [a] is not reached
    through [-a], which the alias of the later field [b] has taken over;
    and in [nameSchema] the table holds [-name], yet the token [-name] is
    scanned as the flags [-n], [-a], [-m], [-e]. *)
Lemma single_dash_key_can_be_shadowed :
  let shape := ZliV2.shapeOf Examples.collidingSchema in
  ("a", ZodOptional noDef (ZodString noDef)) ∈ shape
  /\ ZliV2.buildRecognizedOptions shape !! "-a" <> Some "a"
  /\ Index.buildOptionAliasMap shape !! "-a" <> Some "a"
  /\ ZliV2.buildRecognizedOptions shape !! "-a" = Some "b"
  /\ ZliV2.parseArgs ZliV2.newZli ["-a"; "v"] Examples.collidingSchema
     = Some (Normal (ZliV2.newZli, [], Some (<["b" := JsString "v"]> ∅)))
  /\ ZliV2.buildRecognizedOptions (ZliV2.shapeOf Examples.nameSchema) !! "-name"
     = Some "name"
  /\ ZliV2.parseArgs ZliV2.newZli ["-name"; "Bob"] Examples.nameSchema
     = Some (Normal (ZliV2.mkZli [] true, [ConsoleError "Unknown option: -n"], None)).
Proof.
  intros shape. split; [left|].
  repeat split; try reflexivity;
    intros Heq; change (Some "b" = Some "a") in Heq; discriminate Heq.
Qed.

(** ** Combined short flags *)

Section CombinedFlags.
Context `{ZodRuntime}.

Lemma flagToken_plain (x : ascii) :
  x <> "="%char -> splitInlineValue (Spec.flagToken x) = (Spec.flagToken x, None).
Proof.
  intros Hx. apply splitInlineValue_plain.
  change (Spec.flagToken x) with (String "-" (String x "")).
  rewrite !includes_equals_cons.
  apply Ascii.eqb_neq in Hx. rewrite Hx. reflexivity.
Qed.

Lemma flagToken_resolves table shape x key :
  x <> "="%char ->
  Spec.isBooleanFlag table shape x key ->
  exists fieldType,
    Spec.resolvesTo table shape (Spec.flagToken x) (Spec.flagToken x) None key fieldType
    /\ isBooleanType (Some fieldType) = true.
Proof.
  intros Hx (fieldType & Hkey & Hfield & Hbool). exists fieldType.
  split; [|exact Hbool]. split; [apply flagToken_plain, Hx|]. split; assumption.
Qed.

Lemma flagToken_long_or_short (x : ascii) :
  startsWith (Spec.flagToken x) "--" = true \/ Spec.isShortToken (Spec.flagToken x).
Proof.
  unfold Spec.isShortToken.
  change (Spec.flagToken x) with (String "-" (String x "")).
  rewrite startsWith_dashes, startsWith_dash, Ascii.eqb_refl.
  destruct (Ascii.eqb "-" x); [left; reflexivity|right; repeat split].
Qed.

Lemma V1_loopBody_flag args shape table x key st :
  x <> "="%char ->
  Spec.isBooleanFlag table shape x key ->
  ZliV1.loopBody args shape table (Spec.flagToken x) st
  = ZliV1.Next (ZliV1.mkState (ZliV1.i st + 1)
                  (<[key := JsBoolean true]> (ZliV1.parsedArgs st))
                  ({[ZliV1.i st]} ∪ ZliV1.processedIndices st)).
Proof.
  intros Hx Hflag.
  destruct (flagToken_resolves _ _ _ _ Hx Hflag) as (fieldType & Hres & Hbool).
  destruct (flagToken_long_or_short x) as [Hlong|Hshort].
  - unfold ZliV1.loopBody. rewrite Hlong.
    apply (V1_longOption_boolean _ _ _ _ _ _ _ _ _ Hres Hbool).
  - rewrite (V1_loopBody_short _ _ _ _ _ Hshort).
    apply (V1_shortOption_boolean _ _ _ _ _ _ _ _ _ Hres Hbool).
Qed.

Lemma V2_loopBody_flag args shape table x key st :
  x <> "="%char ->
  Spec.isBooleanFlag table shape x key ->
  ZliV2.loopBody args shape table (Spec.flagToken x) st
  = ZliV2.Next (ZliV2.mkState (ZliV2.i st + 1)
                  (<[key := JsBoolean true]> (ZliV2.parsedArgs st))
                  ({[ZliV2.i st]} ∪ ZliV2.processedIndices st)
                  (ZliV2.this_shouldDisplayHelp st) (ZliV2.console st)).
Proof.
  intros Hx Hflag.
  destruct (flagToken_resolves _ _ _ _ Hx Hflag) as (fieldType & Hres & Hbool).
  destruct (flagToken_long_or_short x) as [Hlong|Hshort].
  - unfold ZliV2.loopBody, ZliV2.longOption. rewrite Hlong.
    rewrite (V2_parseOption_boolean _ _ _ _ _ _ _ _ _ _ Hres Hbool), Hbool. reflexivity.
  - rewrite (V2_loopBody_short _ _ _ _ _ Hshort). unfold ZliV2.shortOption.
    rewrite (V2_parseOption_boolean _ _ _ _ _ _ _ _ _ _ Hres Hbool), Hbool. reflexivity.
Qed.

Lemma V1_combinedFlags_flag args shape table x key flags st :
  Spec.isBooleanFlag table shape x key ->
  ZliV1.combinedFlags args shape table (x :: flags) st
  = ZliV1.combinedFlags args shape table flags
      (ZliV1.mkState (ZliV1.i st) (<[key := JsBoolean true]> (ZliV1.parsedArgs st))
         (ZliV1.processedIndices st)).
Proof.
  intros (fieldType & Hkey & Hfield & Hbool). cbn [ZliV1.combinedFlags].
  change ("-" ++ String x "") with (Spec.flagToken x).
  rewrite Hkey, Hfield, Hbool. reflexivity.
Qed.

Lemma V2_combinedFlags_flag args shape table x key flags st :
  x <> "="%char ->
  Spec.isBooleanFlag table shape x key ->
  ZliV2.combinedFlags args shape table (x :: flags) st
  = ZliV2.combinedFlags args shape table flags
      (ZliV2.setParsedArg key (JsBoolean true) (ZliV2.addProcessed (ZliV2.i st - 1) st)).
Proof.
  intros Hx Hflag.
  destruct (flagToken_resolves _ _ _ _ Hx Hflag) as (fieldType & Hres & Hbool).
  cbn [ZliV2.combinedFlags].
  change ("-" ++ String x "") with (Spec.flagToken x).
  rewrite (V2_parseOption_boolean _ _ _ _ _ _ _ _ _ _ Hres Hbool), Hbool. reflexivity.
Qed.

Lemma combined_token_branch (a b c : ascii) :
  a <> "-"%char ->
  let token := String "-" (String a (String b (String c ""))) in
  startsWith token "--" = false
  /\ startsWith token "-" = true
  /\ Nat.ltb 2 (String.length token) = true
  /\ chars (slice1 token) = [a; b; c].
Proof.
  intros Ha token. unfold token.
  rewrite startsWith_dashes, startsWith_dash, Ascii.eqb_refl.
  assert (Hne : Ascii.eqb "-" a = false) by (apply Ascii.eqb_neq; congruence).
  rewrite Hne. repeat split.
Qed.

End CombinedFlags.

(** C7, as the code has it: when the one-character aliases [a], [b], [c]
    each resolve to a boolean-kind field, none of them is [=] and [a] is
    not [-], the combined token [-abc] and the three tokens [-a -b -c]
    yield the same parsed record, in which the three fields are [true],
    and the same result of [parseArgs], in both copies of [zli.ts]. *)
Theorem combined_flags_equal_separate_flags `{ZodRuntime} (schema : ZodTypeAny)
    (d : ZodTypeDef) (shape : list (string * ZodTypeAny)) (a b c : ascii)
    (ka kb kc : string) :
  a <> "-"%char -> a <> "="%char -> b <> "="%char -> c <> "="%char ->
  let combined := [String "-" (String a (String b (String c "")))] in
  let separate := [Spec.flagToken a; Spec.flagToken b; Spec.flagToken c] in
  let record := Spec.threeFlags ka kb kc in
  (ZliV1.unwrapSchema schema = Normal (ZodObject d shape) ->
   let table := ZliV1.buildRecognizedOptions shape in
   Spec.isBooleanFlag table shape a ka ->
   Spec.isBooleanFlag table shape b kb ->
   Spec.isBooleanFlag table shape c kc ->
   ZliV1.scan 2 combined shape table (ZliV1.mkState 0 ∅ ∅)
   = Some (ZliV1.Next (ZliV1.mkState 1 record ({[0]} ∪ ∅)))
   /\ ZliV1.scan 4 separate shape table (ZliV1.mkState 0 ∅ ∅)
      = Some (ZliV1.Next (ZliV1.mkState 3 record ({[2]} ∪ ({[1]} ∪ ({[0]} ∪ ∅)))))
   /\ ZliV1.parseArgs combined schema = ZliV1.parseArgs separate schema)
  /\ (ZliV2.unwrapSchema schema = Normal (ZodObject d shape) ->
      let table := ZliV2.buildRecognizedOptions shape in
      Spec.isBooleanFlag table shape a ka ->
      Spec.isBooleanFlag table shape b kb ->
      Spec.isBooleanFlag table shape c kc ->
      forall this,
        ZliV2.scan 2 combined shape table
          (ZliV2.mkState 0 ∅ ∅ (ZliV2.shouldDisplayHelp this) [])
        = Some (ZliV2.Next (ZliV2.mkState 1 record ({[0]} ∪ ({[0]} ∪ ({[0]} ∪ ({[0]} ∪ ∅))))
                              (ZliV2.shouldDisplayHelp this) []))
        /\ ZliV2.scan 4 separate shape table
             (ZliV2.mkState 0 ∅ ∅ (ZliV2.shouldDisplayHelp this) [])
           = Some (ZliV2.Next (ZliV2.mkState 3 record ({[2]} ∪ ({[1]} ∪ ({[0]} ∪ ∅)))
                                 (ZliV2.shouldDisplayHelp this) []))
        /\ ZliV2.parseArgs this combined schema = ZliV2.parseArgs this separate schema).
Proof.
  intros Ha Ha' Hb' Hc' combined separate record.
  destruct (combined_token_branch a b c Ha) as (Hlong & Hdash & Hlen & Hchars).
  split.
  - intros Hschema table Hfa Hfb Hfc.
    assert (Hcombined : ZliV1.scan 2 combined shape table (ZliV1.mkState 0 ∅ ∅)
                        = Some (ZliV1.Next (ZliV1.mkState 1 record ({[0]} ∪ ∅)))).
    { cbn [ZliV1.scan]. cbn [combined lookup list_lookup ZliV1.i].
      unfold ZliV1.loopBody. rewrite Hlong, Hdash, Hlen, Hchars. cbn [andb].
      rewrite (V1_combinedFlags_flag _ _ _ _ _ _ _ Hfa),
        (V1_combinedFlags_flag _ _ _ _ _ _ _ Hfb),
        (V1_combinedFlags_flag _ _ _ _ _ _ _ Hfc).
      reflexivity. }
    assert (Hseparate : ZliV1.scan 4 separate shape table (ZliV1.mkState 0 ∅ ∅)
                        = Some (ZliV1.Next (ZliV1.mkState 3 record
                                              ({[2]} ∪ ({[1]} ∪ ({[0]} ∪ ∅)))))).
    { cbn [ZliV1.scan]. cbn [separate lookup list_lookup ZliV1.i].
      rewrite (V1_loopBody_flag _ _ _ _ _ _ Ha' Hfa).
      cbn [separate lookup list_lookup ZliV1.i ZliV1.parsedArgs ZliV1.processedIndices Nat.add].
      rewrite (V1_loopBody_flag _ _ _ _ _ _ Hb' Hfb).
      cbn [separate lookup list_lookup ZliV1.i ZliV1.parsedArgs ZliV1.processedIndices Nat.add].
      rewrite (V1_loopBody_flag _ _ _ _ _ _ Hc' Hfc).
      reflexivity. }
    split; [exact Hcombined|]. split; [exact Hseparate|].
    unfold ZliV1.parseArgs. rewrite Hschema. cbn [ZliV1.shapeOf].
    change (S (List.length combined)) with 2. change (S (List.length separate)) with 4.
    fold table. rewrite Hcombined, Hseparate. reflexivity.
  - intros Hschema table Hfa Hfb Hfc this.
    assert (Hcombined :
             ZliV2.scan 2 combined shape table
               (ZliV2.mkState 0 ∅ ∅ (ZliV2.shouldDisplayHelp this) [])
             = Some (ZliV2.Next (ZliV2.mkState 1 record
                                   ({[0]} ∪ ({[0]} ∪ ({[0]} ∪ ({[0]} ∪ ∅))))
                                   (ZliV2.shouldDisplayHelp this) []))).
    { cbn [ZliV2.scan]. cbn [combined lookup list_lookup ZliV2.i].
      unfold ZliV2.loopBody. rewrite Hlong, Hdash, Hlen, Hchars. cbn [andb negb].
      rewrite (V2_combinedFlags_flag _ _ _ _ _ _ _ Ha' Hfa),
        (V2_combinedFlags_flag _ _ _ _ _ _ _ Hb' Hfb),
        (V2_combinedFlags_flag _ _ _ _ _ _ _ Hc' Hfc).
      reflexivity. }
    assert (Hseparate :
             ZliV2.scan 4 separate shape table
               (ZliV2.mkState 0 ∅ ∅ (ZliV2.shouldDisplayHelp this) [])
             = Some (ZliV2.Next (ZliV2.mkState 3 record ({[2]} ∪ ({[1]} ∪ ({[0]} ∪ ∅)))
                                   (ZliV2.shouldDisplayHelp this) []))).
    { cbn [ZliV2.scan]. cbn [separate lookup list_lookup ZliV2.i].
      rewrite (V2_loopBody_flag _ _ _ _ _ _ Ha' Hfa).
      cbn [separate lookup list_lookup ZliV2.i ZliV2.parsedArgs ZliV2.processedIndices
             ZliV2.this_shouldDisplayHelp ZliV2.console Nat.add].
      rewrite (V2_loopBody_flag _ _ _ _ _ _ Hb' Hfb).
      cbn [separate lookup list_lookup ZliV2.i ZliV2.parsedArgs ZliV2.processedIndices
             ZliV2.this_shouldDisplayHelp ZliV2.console Nat.add].
      rewrite (V2_loopBody_flag _ _ _ _ _ _ Hc' Hfc).
      reflexivity. }
    split; [exact Hcombined|]. split; [exact Hseparate|].
    unfold ZliV2.parseArgs, ZliV2.parseArgs_fuel. rewrite Hschema. cbn [ZliV2.shapeOf].
    change (S (List.length combined)) with 2. change (S (List.length separate)) with 4.
    fold table. rewrite Hcombined, Hseparate. reflexivity.
Qed.

Lemma combined_flags_equal_separate_flags_witness :
  let shape := ZliV1.shapeOf Examples.abcSchema in
  ("a" <> "-" /\ "a" <> "=" /\ "b" <> "=" /\ "c" <> "=")%char
  /\ ZliV1.unwrapSchema Examples.abcSchema = Normal (ZodObject noDef shape)
  /\ Spec.isBooleanFlag (ZliV1.buildRecognizedOptions shape) shape "a" "a"
  /\ Spec.isBooleanFlag (ZliV1.buildRecognizedOptions shape) shape "b" "b"
  /\ Spec.isBooleanFlag (ZliV1.buildRecognizedOptions shape) shape "c" "c"
  /\ ZliV1.parseArgs ["-abc"] Examples.abcSchema
     = ZliV1.parseArgs ["-a"; "-b"; "-c"] Examples.abcSchema.
Proof.
  intros shape.
  assert (Ha : ("a" <> "-")%char) by discriminate.
  assert (Ha' : ("a" <> "=")%char) by discriminate.
  assert (Hb' : ("b" <> "=")%char) by discriminate.
  assert (Hc' : ("c" <> "=")%char) by discriminate.
  assert (Hfa : Spec.isBooleanFlag (ZliV1.buildRecognizedOptions shape) shape "a" "a")
    by (eexists; repeat split; reflexivity).
  assert (Hfb : Spec.isBooleanFlag (ZliV1.buildRecognizedOptions shape) shape "b" "b")
    by (eexists; repeat split; reflexivity).
  assert (Hfc : Spec.isBooleanFlag (ZliV1.buildRecognizedOptions shape) shape "c" "c")
    by (eexists; repeat split; reflexivity).
  split; [repeat split; assumption|]. split; [reflexivity|].
  split; [exact Hfa|]. split; [exact Hfb|]. split; [exact Hfc|].
  exact (proj2 (proj2 (proj1 (combined_flags_equal_separate_flags Examples.abcSchema
                                noDef shape "a" "b" "c" "a" "b" "c" Ha Ha' Hb' Hc')
                         eq_refl Hfa Hfb Hfc))).
Defined.

(** C7, as stated, fails for the aliases [-] and [=]. With the alias [-]
    in first place the combined token is [--bc], which both copies read as
    an unknown long option, while [-- -b -c] sets the three flags. With
    the alias [=] the first copy accepts the combined token [-a=c], but
    reads the separate token [-=] as the option [-] with an empty inline
    value and rejects it. *)
Lemma combined_flags_differ_for_dash_and_equals :
  let dashShape := ZliV1.shapeOf Examples.dashAliasSchema in
  let equalsShape := ZliV1.shapeOf Examples.equalsAliasSchema in
  (Spec.isBooleanFlag (ZliV1.buildRecognizedOptions dashShape) dashShape "-" "x"
   /\ Spec.isBooleanFlag (ZliV1.buildRecognizedOptions dashShape) dashShape "b" "b"
   /\ Spec.isBooleanFlag (ZliV1.buildRecognizedOptions dashShape) dashShape "c" "c")
  /\ ZliV1.parseArgs ["--bc"] Examples.dashAliasSchema
     = Some (Normal ([ConsoleError "Unknown option: --bc"], None))
  /\ ZliV1.parseArgs ["--"; "-b"; "-c"] Examples.dashAliasSchema
     = Some (Normal ([], Some (Spec.threeFlags "x" "b" "c")))
  /\ ZliV2.parseArgs ZliV2.newZli ["--bc"] Examples.dashAliasSchema
     = Some (Normal (ZliV2.mkZli [] true, [ConsoleError "Unknown option: --bc"], None))
  /\ ZliV2.parseArgs ZliV2.newZli ["--"; "-b"; "-c"] Examples.dashAliasSchema
     = Some (Normal (ZliV2.newZli, [], Some (Spec.threeFlags "x" "b" "c")))
  /\ (Spec.isBooleanFlag (ZliV1.buildRecognizedOptions equalsShape) equalsShape "a" "a"
      /\ Spec.isBooleanFlag (ZliV1.buildRecognizedOptions equalsShape) equalsShape "=" "e"
      /\ Spec.isBooleanFlag (ZliV1.buildRecognizedOptions equalsShape) equalsShape "c" "c")
  /\ ZliV1.parseArgs ["-a=c"] Examples.equalsAliasSchema
     = Some (Normal ([], Some (Spec.threeFlags "a" "e" "c")))
  /\ ZliV1.parseArgs ["-a"; "-="; "-c"] Examples.equalsAliasSchema
     = Some (Normal ([ConsoleError "Unknown option: -"], None))
  /\ ZliV1.parseArgs ["--bc"] Examples.dashAliasSchema
     <> ZliV1.parseArgs ["--"; "-b"; "-c"] Examples.dashAliasSchema
  /\ ZliV2.parseArgs ZliV2.newZli ["--bc"] Examples.dashAliasSchema
     <> ZliV2.parseArgs ZliV2.newZli ["--"; "-b"; "-c"] Examples.dashAliasSchema
  /\ ZliV1.parseArgs ["-a=c"] Examples.equalsAliasSchema
     <> ZliV1.parseArgs ["-a"; "-="; "-c"] Examples.equalsAliasSchema.
Proof.
  intros dashShape equalsShape.
  assert (Hsome : forall (A : Type) (events : list Event) (data : A),
             Some (Normal (events, @None A)) <> Some (Normal ([], Some data))).
  { intros A events data Heq. injection Heq as _ Heq. discriminate Heq. }
  assert (Hsome2 : forall (A : Type) (z z' : ZliV2.Zli) (events : list Event) (data : A),
             Some (Normal (z, events, @None A)) <> Some (Normal (z', [], Some data))).
  { intros A z z' events data Heq. injection Heq as _ _ Heq. discriminate Heq. }
  repeat split; try reflexivity; try (eexists; repeat split; reflexivity).
  - apply (Hsome _ [ConsoleError "Unknown option: --bc"] (Spec.threeFlags "x" "b" "c")).
  - apply (Hsome2 _ (ZliV2.mkZli [] true) ZliV2.newZli
             [ConsoleError "Unknown option: --bc"] (Spec.threeFlags "x" "b" "c")).
  - intros Heq. symmetry in Heq. revert Heq.
    apply (Hsome _ [ConsoleError "Unknown option: -"] (Spec.threeFlags "a" "e" "c")).
Qed.

(** ** Termination of the second copy's scan *)

Section ScanV2.
Context `{ZodRuntime}.











End ScanV2.

(** ** Completion of [parse] in the second copy *)

Section ParseV2.
Context `{ZodRuntime}.



Lemma V2_runHandler_returns (commandName : string) (cmd : ZliV2.CommandDefinition)
    (data : Data) :
  Spec.throwsOnlyObjects (ZliV2.handler cmd) ->
  exists events, ZliV2.runHandler commandName cmd data = (events, Normal tt).
Proof.
  intros Hhandler. unfold ZliV2.runHandler. specialize (Hhandler data).
  destruct (ZliV2.handler cmd data) as [|[message|]];
    [eexists; reflexivity|eexists; reflexivity|contradiction].
Qed.


End ParseV2.

(** Two ways in which [parse] of the second copy does not return
    normally: a two-character option that resolves to an array-kind field
    leaves the index where it is, so the scan never ends; and a handler
    that throws [null] makes the [catch] block itself throw. *)
Lemma short_array_option_never_returns (fuel : nat) :
  ZliV2.parse_fuel fuel Examples.shortTagsV2 ["test"; "-t"; "x"] = None.
Proof.
  set (shape := ZliV2.shapeOf Examples.shortTagsSchema).
  set (table := ZliV2.buildRecognizedOptions shape).
  assert (Hstuck : forall n st, ZliV2.i st = 0 ->
             ZliV2.scan n ["-t"; "x"] shape table st = None).
  { induction n as [|n IH]; intros [i parsed processed flag console] Hi; [reflexivity|].
    cbn [ZliV2.i] in Hi. subst i. cbn [ZliV2.scan ZliV2.i lookup list_lookup].
    change (ZliV2.loopBody ["-t"; "x"] shape table "-t"
              (ZliV2.mkState 0 parsed processed flag console))
      with (ZliV2.Next (ZliV2.mkState 0 (<["tags" := JsUndefined]> parsed)
                          ({[0]} ∪ processed) flag console)).
    apply IH. reflexivity. }
  unfold ZliV2.parse_fuel.
  change (ZliV2.findCommand Examples.shortTagsV2 "test")
    with (Some ("test", ZliV2.mkCommand Examples.shortTagsSchema Examples.silent [])).
  change (Array_includes ["-t"; "x"] "--help") with false. cbn iota.
  unfold ZliV2.parseArgs_fuel. cbn [ZliV2.schema].
  change (ZliV2.unwrapSchema Examples.shortTagsSchema)
    with (Normal Examples.shortTagsSchema : Completion ZodTypeAny).
  cbn iota. fold shape. fold table. rewrite Hstuck; reflexivity.
Qed.

Lemma null_throw_escapes_parse :
  ZliV2.parse Examples.throwingV2 ["test"; "--verbose"]
  = Some (Examples.throwingV2,
          [HandlerCall "test" (<["verbose" := JsBoolean true]> ∅)],
          Throw TypeError).
Proof. reflexivity. Qed.

(** ** The three scans on long options *)

Section LongOptions.
Context `{ZodRuntime}.
Variable shape : list (string * ZodTypeAny).
Variables table1 table2 : gmap string string.

(** The tables agree on double-dash names, and every table entry is a key
    of the shape. *)
Hypothesis Hagree :
  forall name, startsWith name "--" = true -> table2 !! name = table1 !! name.
Hypothesis Hkeys :
  forall name key, truthy (table1 !! name) = Some key ->
                   exists fieldType, getProperty shape key = Some fieldType.

Lemma long_name (token name : string) (value : option string) :
  startsWith token "--" = true ->
  splitInlineValue token = (name, value) ->
  startsWith name "--" = true.
Proof.
  rewrite startsWith_dashes. destruct token as [|a [|b token]]; try discriminate.
  intros [Ha Hb]%andb_true_iff. apply Ascii.eqb_eq in Ha, Hb. subst a b.
  unfold splitInlineValue.
  destruct (includes _ "="); [|intros [= <- _]; rewrite startsWith_dashes; reflexivity].
  unfold split. cbn [split_pieces].
  destruct (split_pieces token "=") as [p ps].
  change (Ascii.eqb "-" "=") with false. cbn [hd]. intros [= <- _].
  rewrite startsWith_dashes. reflexivity.
Qed.

Lemma no_bare_values (args : list string) (start : nat) (next : option string) :
  args !! start = next ->
  (forall v, next = Some v -> startsWith v "-" = true) ->
  Spec.bareValues (drop start args) = [].
Proof.
  intros Hnext Hdash. destruct next as [v|].
  - rewrite (drop_S _ _ _ Hnext). cbn [Spec.bareValues].
    rewrite (Hdash v eq_refl). reflexivity.
  - apply lookup_ge_None in Hnext. rewrite drop_ge by exact Hnext. reflexivity.
Qed.

Lemma takesNextValue_not_array (token name : string) (value : option string)
    (key : string) :
  Spec.takesNextValue table1 shape token ->
  splitInlineValue token = (name, value) ->
  truthy (table1 !! name) = Some key ->
  isArrayType (getProperty shape key) = false
  /\ isBooleanType (getProperty shape key) = false
  /\ truthy value = None.
Proof.
  intros (name' & value' & key' & ft & (Hsplit' & Hkey' & Hfield) & Hvalue & Hbool & Harray)
    Hsplit Hkey.
  rewrite Hsplit in Hsplit'. injection Hsplit' as <- <-.
  rewrite Hkey in Hkey'. injection Hkey' as <-.
  rewrite Hfield. repeat split; assumption.
Qed.

Lemma V1_turn_long (args : list string) (token : string) (next : option string)
    (st : ZliV1.LoopState) :
  startsWith token "--" = true ->
  args !! (ZliV1.i st + 1) = next ->
  (forall v, next = Some v -> startsWith v "-" = false ->
             Spec.takesNextValue table1 shape token) ->
  ZliV1.loopBody args shape table1 token st
  = Turn.V1_after st (Spec.longStep table1 shape token next).
Proof.
  intros Hlong Hnext Hvalued. unfold ZliV1.loopBody, ZliV1.longOption, Spec.longStep.
  rewrite Hlong. destruct (splitInlineValue token) as [name value] eqn:Hsplit.
  destruct (truthy (table1 !! name)) as [key|] eqn:Hkey; [|reflexivity].
  destruct (isBooleanType (getProperty shape key)) eqn:Hbool; [reflexivity|].
  destruct (isArrayType (getProperty shape key)) eqn:Harray.
  - cbn [ZliV1.i ZliV1.parsedArgs ZliV1.processedIndices].
    rewrite consumeArrayValues_spec, (no_bare_values _ _ next Hnext).
    + cbn [Turn.V1_after List.length seq list_to_set app]. rewrite Nat.add_0_r.
      rewrite (left_id_L ∅ (∪)). reflexivity.
    + intros v -> . destruct (startsWith v "-") eqn:Hv; [reflexivity|].
      destruct (takesNextValue_not_array _ _ _ _ (Hvalued v eq_refl Hv) Hsplit Hkey)
        as (Hno & _). congruence.
  - unfold ZliV1.scalarOption. cbn [ZliV1.i ZliV1.parsedArgs ZliV1.processedIndices].
    destruct (truthy value) as [v|]; [reflexivity|]. rewrite Hnext.
    destruct next as [v|]; [|reflexivity].
    destruct (startsWith v "-"); reflexivity.
Qed.

Lemma dashes_dash (token : string) :
  startsWith token "--" = true -> startsWith token "-" = true.
Proof.
  rewrite startsWith_dashes, startsWith_dash.
  destruct token as [|a [|b token]]; try discriminate.
  intros [Ha _]%andb_true_iff. exact Ha.
Qed.

Ltac v2_cbn :=
  cbn [Turn.V2_after ZliV2.setIndex ZliV2.setParsedArg ZliV2.addProcessed
         ZliV2.reportError ZliV2.parseValue' ZliV2.i ZliV2.parsedArgs
         ZliV2.processedIndices ZliV2.this_shouldDisplayHelp ZliV2.console truthy].

Ltac index_cbn :=
  cbn [Turn.Index_after Index.setIndex Index.setParsedArg Index.addProcessed
         Index.reportError Index.parseValue' Index.i Index.parsedArgs
         Index.processedIndices Index.this_shouldDisplayHelp Index.console truthy].

Lemma V2_turn_long (args : list string) (token : string) (next : option string)
    (st : ZliV2.LoopState) :
  startsWith token "--" = true ->
  args !! (ZliV2.i st + 1) = next ->
  (forall v, next = Some v -> startsWith v "-" = false ->
             Spec.takesNextValue table1 shape token) ->
  Turn.V2_after st (Spec.longStep table1 shape token next)
    (ZliV2.loopBody args shape table2 token st).
Proof.
  intros Hlong Hnext Hvalued.
  unfold ZliV2.loopBody, ZliV2.longOption, ZliV2.parseOption, Spec.longStep.
  rewrite Hlong. destruct (splitInlineValue token) as [name value] eqn:Hsplit.
  rewrite (Hagree _ (long_name _ _ _ Hlong Hsplit)).
  destruct (truthy (table1 !! name)) as [key|] eqn:Hkey; [|v2_cbn; split; reflexivity].
  destruct (Hkeys _ _ Hkey) as [fieldType Hfield]. rewrite Hfield.
  destruct (isBooleanType (Some fieldType)) eqn:Hbool.
  { rewrite Hbool. v2_cbn. rewrite isTrueLiteral_boolean. repeat split. }
  destruct (isArrayType (Some fieldType)) eqn:Harray.
  { rewrite Hbool, Harray.
    cbn [truthy ZliV2.setIndex ZliV2.addProcessed ZliV2.i ZliV2.processedIndices
           ZliV2.parsedArgs ZliV2.this_shouldDisplayHelp ZliV2.console].
    rewrite consumeArrayValues_spec, (no_bare_values _ _ next Hnext).
    - v2_cbn. cbn [List.length app]. rewrite Nat.add_0_r. repeat split.
    - intros v ->. destruct (startsWith v "-") eqn:Hv; [reflexivity|].
      destruct (takesNextValue_not_array _ _ _ _ (Hvalued v eq_refl Hv) Hsplit Hkey)
        as (Hno & _). rewrite Hfield in Hno. congruence. }
  destruct (truthy value) as [v|] eqn:Hvalue.
  { rewrite Hbool, Harray. v2_cbn. repeat split. }
  cbn [ZliV2.addProcessed ZliV2.i]. rewrite Hnext. destruct next as [v|].
  - destruct (startsWith v "-").
    + v2_cbn. split; reflexivity.
    + rewrite Hbool, Harray. v2_cbn. repeat split.
  - v2_cbn. split; reflexivity.
Qed.

Lemma Index_turn_long (args : list string) (token : string) (next : option string)
    (st : Index.LoopState) :
  startsWith token "--" = true ->
  args !! Index.i st = Some token ->
  args !! (Index.i st + 1) = next ->
  Turn.Index_after st (Spec.longStep table1 shape token next)
    (Index.loopBody args shape table2 token st).
Proof.
  intros Hlong Htoken Hnext.
  unfold Index.loopBody, Index.processOptionValue, Spec.longStep.
  rewrite Hlong. destruct (splitInlineValue token) as [name value] eqn:Hsplit.
  rewrite (Hagree _ (long_name _ _ _ Hlong Hsplit)).
  destruct (truthy (table1 !! name)) as [key|] eqn:Hkey; [|index_cbn; split; reflexivity].
  destruct (Hkeys _ _ Hkey) as [fieldType Hfield]. rewrite Hfield.
  destruct (isBooleanType (Some fieldType)) eqn:Hbool.
  { rewrite Hbool. index_cbn. change Index.isTrueLiteral with ZliV2.isTrueLiteral.
    rewrite isTrueLiteral_boolean. repeat split. }
  destruct (isArrayType (Some fieldType)) eqn:Harray.
  { rewrite Hbool, Harray. unfold Index.processArrayArgs.
    cbn [truthy Index.addProcessed Index.i]. rewrite (drop_S _ _ _ Htoken).
    cbn [Index.processArrayArgs_from]. rewrite (dashes_dash _ Hlong).
    index_cbn. repeat split. }
  destruct (truthy value) as [v|] eqn:Hvalue.
  { rewrite Hbool, Harray. index_cbn. repeat split. lia. }
  cbn [Index.addProcessed Index.i]. rewrite Hnext. destruct next as [v|].
  - destruct (startsWith v "-").
    + index_cbn. split; reflexivity.
    + rewrite Hbool, Harray. index_cbn. repeat split. lia.
  - index_cbn. split; reflexivity.
Qed.

Lemma drop_cons_inv (args : list string) (n : nat) (x : string) (rest : list string) :
  drop n args = x :: rest ->
  args !! n = Some x /\ drop (n + 1) args = rest /\ args !! (n + 1) = head rest.
Proof.
  intros Hdrop.
  assert (Hx : args !! n = Some x).
  { rewrite <- (Nat.add_0_r n), <- lookup_drop, Hdrop. reflexivity. }
  split; [exact Hx|].
  assert (Hrest : drop (n + 1) args = rest).
  { rewrite (drop_S _ _ _ Hx) in Hdrop. injection Hdrop as <-.
    rewrite Nat.add_1_r. reflexivity. }
  split; [exact Hrest|].
  rewrite <- Hrest, head_lookup, lookup_drop, Nat.add_0_r. reflexivity.
Qed.

Lemma longForm_head (rest : list string) :
  Spec.longForm table1 shape rest ->
  forall v, head rest = Some v -> startsWith v "-" = true.
Proof.
  intros Hrest v Hv. destruct Hrest as [|token rest Hlong _|token w rest Hlong _ _ _];
    cbn [head] in Hv; [discriminate| |]; injection Hv as <-; apply dashes_dash, Hlong.
Qed.

Lemma longStep_takes (token : string) (next : option string) (key : string)
    (v : JsValue) :
  Spec.longStep table1 shape token next = Spec.StepSet key v true ->
  exists w, next = Some w /\ startsWith w "-" = false.
Proof.
  unfold Spec.longStep. destruct (splitInlineValue token) as [name value].
  destruct (truthy (table1 !! name)); [|discriminate].
  destruct (isBooleanType _); [discriminate|].
  destruct (isArrayType _); [discriminate|].
  destruct (truthy value); [discriminate|].
  destruct next as [w|]; [|discriminate].
  destruct (startsWith w "-") eqn:Hw; [discriminate|]. intros _. exists w.
  split; [reflexivity|exact Hw].
Qed.

Lemma longStep_valued (token w : string) :
  Spec.takesNextValue table1 shape token ->
  startsWith w "-" = false ->
  exists key v, Spec.longStep table1 shape token (Some w) = Spec.StepSet key v true.
Proof.
  intros (name & value & key & ft & (Hsplit & Hkey & Hfield) & Hvalue & Hbool & Harray) Hw.
  unfold Spec.longStep. rewrite Hsplit, Hkey, Hfield, Hbool, Harray, Hvalue, Hw.
  eexists _, _. reflexivity.
Qed.

(** A long-form token list has no bare token where an option is expected. *)
Lemma longForm_turn (token : string) (rest : list string) :
  Spec.longForm table1 shape (token :: rest) ->
  startsWith token "--" = true
  /\ (forall v, head rest = Some v -> startsWith v "-" = false ->
                Spec.takesNextValue table1 shape token).
Proof.
  intros Hform. inversion Hform as [|? ? Hlong Hrest|? w ? Hlong Hw Htakes Hrest]; subst.
  - split; [exact Hlong|]. intros v Hv Hbare.
    rewrite (longForm_head _ Hrest v Hv) in Hbare. discriminate.
  - split; [exact Hlong|]. intros; exact Htakes.
Qed.

(** What is left of a long-form list after a resolved step. *)
Lemma longForm_rest (token : string) (rest : list string) (key : string)
    (v : JsValue) (takesNext : bool) :
  Spec.longForm table1 shape (token :: rest) ->
  Spec.longStep table1 shape token (head rest) = Spec.StepSet key v takesNext ->
  let rest' := if takesNext then tail rest else rest in
  Spec.longForm table1 shape rest'
  /\ List.length rest = (if takesNext then 1 else 0) + List.length rest'
  /\ forall record,
       Spec.resolveLong table1 shape (token :: rest) record
       = Spec.resolveLong table1 shape rest' (<[key := v]> record).
Proof.
  intros Hform Hstep rest'.
  assert (Hresolve : forall record,
             Spec.resolveLong table1 shape (token :: rest) record
             = if takesNext
               then match rest with
                    | [] => inr (<[key := v]> record)
                    | _ :: rest'' => Spec.resolveLong table1 shape rest'' (<[key := v]> record)
                    end
               else Spec.resolveLong table1 shape rest (<[key := v]> record)).
  { intros record. cbn [Spec.resolveLong]. rewrite Hstep. destruct takesNext; reflexivity. }
  inversion Hform as [|? ? Hlong Hrest|? w rest'' Hlong Hw Htakes Hrest]; subst.
  - destruct takesNext.
    + apply longStep_takes in Hstep as (w & Hhead & Hbare).
      rewrite (longForm_head _ Hrest w Hhead) in Hbare. discriminate.
    + split; [exact Hrest|]. split; [reflexivity|]. exact Hresolve.
  - destruct (longStep_valued token w Htakes Hw) as (key' & v' & Hvalued).
    cbn [head] in Hstep. rewrite Hvalued in Hstep. injection Hstep as <- <- <-.
    split; [exact Hrest|]. split; [reflexivity|]. exact Hresolve.
Qed.

Lemma drop_nil_lookup (args : list string) (n : nat) :
  drop n args = [] -> args !! n = None /\ List.length args <= n.
Proof.
  intros Hdrop. apply (f_equal List.length) in Hdrop.
  rewrite length_drop in Hdrop. cbn [List.length] in Hdrop.
  split; [apply lookup_ge_None; lia|lia].
Qed.

Lemma drop_tail (args : list string) (n : nat) (rest : list string) :
  drop n args = rest ->
  List.length rest = 1 + List.length (tail rest) ->
  drop (n + 1) args = tail rest.
Proof.
  intros Hdrop Hlen. destruct rest as [|w rest]; [cbn in Hlen; lia|].
  apply drop_cons_inv in Hdrop as (_ & Hdrop & _). exact Hdrop.
Qed.

Lemma V1_scan_long (args : list string) :
  forall fuel suffix st,
    Spec.longForm table1 shape suffix ->
    drop (ZliV1.i st) args = suffix ->
    List.length suffix < fuel ->
    (forall j, j < ZliV1.i st -> j ∈ ZliV1.processedIndices st) ->
    match Spec.resolveLong table1 shape suffix (ZliV1.parsedArgs st) with
    | inl error => ZliV1.scan fuel args shape table1 st = Some (ZliV1.ReturnNull error)
    | inr record =>
        exists st', ZliV1.scan fuel args shape table1 st = Some (ZliV1.Next st')
                    /\ ZliV1.parsedArgs st' = record
                    /\ forall j, j < List.length args -> j ∈ ZliV1.processedIndices st'
    end.
Proof.
  induction fuel as [|fuel IH]; intros suffix st Hform Hdrop Hfuel Hdone; [lia|].
  destruct suffix as [|token rest].
  - apply drop_nil_lookup in Hdrop as [Hnone Hlen].
    cbn [Spec.resolveLong ZliV1.scan]. rewrite Hnone. exists st.
    split; [reflexivity|]. split; [reflexivity|]. intros j Hj. apply Hdone. lia.
  - pose proof Hdrop as (Htoken & Hdrop' & Hnext)%drop_cons_inv.
    destruct (longForm_turn _ _ Hform) as [Hlong Hvalued].
    cbn [ZliV1.scan]. rewrite Htoken.
    rewrite (V1_turn_long args token (head rest) st Hlong Hnext Hvalued).
    destruct (Spec.longStep table1 shape token (head rest)) as [error|key v takesNext] eqn:Hstep.
    + cbn [Spec.resolveLong Turn.V1_after]. rewrite Hstep. reflexivity.
    + destruct (longForm_rest _ _ _ _ _ Hform Hstep) as (Hrest & Hlen & Hresolve).
      rewrite Hresolve. destruct takesNext; cbn [Turn.V1_after].
      * match goal with
        | |- context [ZliV1.scan fuel args shape table1 ?s] => apply (IH (tail rest) s)
        end; cbn [ZliV1.i ZliV1.processedIndices].
        -- exact Hrest.
        -- apply drop_tail; [exact Hdrop'|exact Hlen].
        -- cbn [List.length] in Hfuel. lia.
        -- intros j Hj. rewrite !elem_of_union, !elem_of_singleton.
           destruct (decide (j = ZliV1.i st + 1)) as [->|]; [left; reflexivity|].
           destruct (decide (j = ZliV1.i st)) as [->|]; [right; left; reflexivity|].
           right. right. apply Hdone. lia.
      * match goal with
        | |- context [ZliV1.scan fuel args shape table1 ?s] => apply (IH rest s)
        end; cbn [ZliV1.i ZliV1.processedIndices].
        -- exact Hrest.
        -- exact Hdrop'.
        -- cbn [List.length] in Hfuel. lia.
        -- intros j Hj. rewrite elem_of_union, elem_of_singleton.
           destruct (decide (j = ZliV1.i st)) as [->|]; [left; reflexivity|].
           right. apply Hdone. lia.
Qed.

Lemma V2_scan_long (args : list string) :
  forall fuel suffix st,
    Spec.longForm table1 shape suffix ->
    drop (ZliV2.i st) args = suffix ->
    List.length suffix < fuel ->
    match Spec.resolveLong table1 shape suffix (ZliV2.parsedArgs st) with
    | inl error =>
        exists st', ZliV2.scan fuel args shape table2 st = Some (ZliV2.ReturnNull st')
                    /\ ZliV2.console st' = (ZliV2.console st ++ [ConsoleError error])%list
                    /\ ZliV2.this_shouldDisplayHelp st' = true
    | inr record =>
        exists st', ZliV2.scan fuel args shape table2 st = Some (ZliV2.Next st')
                    /\ ZliV2.parsedArgs st' = record
                    /\ ZliV2.console st' = ZliV2.console st
                    /\ ZliV2.this_shouldDisplayHelp st' = ZliV2.this_shouldDisplayHelp st
    end.
Proof.
  induction fuel as [|fuel IH]; intros suffix st Hform Hdrop Hfuel; [lia|].
  destruct suffix as [|token rest].
  - apply drop_nil_lookup in Hdrop as [Hnone Hlen].
    cbn [Spec.resolveLong ZliV2.scan]. rewrite Hnone. exists st. repeat split.
  - pose proof Hdrop as (Htoken & Hdrop' & Hnext)%drop_cons_inv.
    destruct (longForm_turn _ _ Hform) as [Hlong Hvalued].
    cbn [ZliV2.scan]. rewrite Htoken.
    pose proof (V2_turn_long args token (head rest) st Hlong Hnext Hvalued) as Hturn.
    destruct (Spec.longStep table1 shape token (head rest)) as [error|key v takesNext] eqn:Hstep.
    + cbn [Spec.resolveLong]. rewrite Hstep.
      destruct (ZliV2.loopBody args shape table2 token st) as [st1|st1];
        cbn [Turn.V2_after] in Hturn; [contradiction|].
      exists st1. split; [reflexivity|exact Hturn].
    + destruct (longForm_rest _ _ _ _ _ Hform Hstep) as (Hrest & Hlen & Hresolve).
      rewrite Hresolve.
      destruct (ZliV2.loopBody args shape table2 token st) as [st1|st1];
        cbn [Turn.V2_after] in Hturn; [|contradiction].
      destruct Hturn as (Hi & Hparsed & Hconsole & Hflag).
      rewrite <- Hparsed, <- Hconsole, <- Hflag. apply IH.
      * exact Hrest.
      * rewrite Hi. destruct takesNext.
        -- replace (ZliV2.i st + 2) with (ZliV2.i st + 1 + 1) by lia.
           apply drop_tail; [exact Hdrop'|exact Hlen].
        -- exact Hdrop'.
      * cbn [List.length] in Hfuel. destruct takesNext; lia.
Qed.

Lemma Index_scan_long (args : list string) :
  forall fuel suffix st,
    Spec.longForm table1 shape suffix ->
    drop (Index.i st) args = suffix ->
    List.length suffix < fuel ->
    match Spec.resolveLong table1 shape suffix (Index.parsedArgs st) with
    | inl error =>
        exists st', Index.scan fuel args shape table2 st = Some (Index.ReturnNull st')
                    /\ Index.console st' = (Index.console st ++ [ConsoleError error])%list
                    /\ Index.this_shouldDisplayHelp st' = true
    | inr record =>
        exists st', Index.scan fuel args shape table2 st = Some (Index.Continue st')
                    /\ Index.parsedArgs st' = record
                    /\ Index.console st' = Index.console st
                    /\ Index.this_shouldDisplayHelp st' = Index.this_shouldDisplayHelp st
    end.
Proof.
  induction fuel as [|fuel IH]; intros suffix st Hform Hdrop Hfuel; [lia|].
  destruct suffix as [|token rest].
  - apply drop_nil_lookup in Hdrop as [Hnone Hlen].
    cbn [Spec.resolveLong Index.scan]. rewrite Hnone. exists st. repeat split.
  - pose proof Hdrop as (Htoken & Hdrop' & Hnext)%drop_cons_inv.
    destruct (longForm_turn _ _ Hform) as [Hlong _].
    cbn [Index.scan]. rewrite Htoken.
    pose proof (Index_turn_long args token (head rest) st Hlong Htoken Hnext) as Hturn.
    destruct (Spec.longStep table1 shape token (head rest)) as [error|key v takesNext] eqn:Hstep.
    + cbn [Spec.resolveLong]. rewrite Hstep.
      destruct (Index.loopBody args shape table2 token st) as [st1|st1];
        cbn [Turn.Index_after] in Hturn; [contradiction|].
      exists st1. split; [reflexivity|exact Hturn].
    + destruct (longForm_rest _ _ _ _ _ Hform Hstep) as (Hrest & Hlen & Hresolve).
      rewrite Hresolve.
      destruct (Index.loopBody args shape table2 token st) as [st1|st1];
        cbn [Turn.Index_after] in Hturn; [|contradiction].
      destruct Hturn as (Hi & Hparsed & Hconsole & Hflag).
      rewrite <- Hparsed, <- Hconsole, <- Hflag.
      apply (IH _ (Index.setIndex (Index.i st1 + 1) st1)).
      * exact Hrest.
      * cbn [Index.setIndex Index.i]. rewrite Hi. destruct takesNext.
        -- replace (Index.i st + 2) with (Index.i st + 1 + 1) by lia.
           apply drop_tail; [exact Hdrop'|exact Hlen].
        -- exact Hdrop'.
      * cbn [List.length] in Hfuel. destruct takesNext; lia.
Qed.

End LongOptions.

(** ** Agreement of the three copies on long options *)

Section Agreement.
Context `{ZodRuntime}.

Lemma unprocessedArgs_offset (args : list string) (processed : gset nat) (k : nat) :
  (forall j, k <= j < k + List.length args -> j ∈ processed) ->
  filter (fun p : nat * string => negb (bool_decide (fst p ∈ processed)))
    (imap (fun index a => (k + index, a)) args) = [].
Proof.
  revert k. induction args as [|a args IH]; intros k Hdone; [reflexivity|].
  cbn [imap]. rewrite filter_cons_False.
  - rewrite (imap_ext _ (fun index a => (S k + index, a))).
    + apply IH. intros j Hj. apply Hdone. cbn [List.length]. lia.
    + intros index x _. cbn. f_equal. lia.
  - cbn [fst]. rewrite Nat.add_0_r.
    rewrite bool_decide_eq_true_2 by (apply Hdone; cbn [List.length]; lia).
    cbn. exact id.
Qed.

Lemma unprocessedArgs_none (args : list string) (processed : gset nat) :
  (forall j, j < List.length args -> j ∈ processed) ->
  ZliV1.unprocessedArgs args processed = [].
Proof.
  intros Hdone. unfold ZliV1.unprocessedArgs.
  rewrite (imap_ext _ (fun index a => (0 + index, a))) by reflexivity.
  rewrite unprocessedArgs_offset; [reflexivity|].
  intros j Hj. apply Hdone. lia.
Qed.

Lemma truthy_Some (v : option string) (s : string) : truthy v = Some s -> v = Some s.
Proof. destruct v as [[|c v]|]; cbn; congruence. Qed.

Lemma getProperty_elem (shape : list (string * ZodTypeAny)) (key : string)
    (field : ZodTypeAny) :
  (key, field) ∈ shape -> exists fieldType, getProperty shape key = Some fieldType.
Proof.
  induction shape as [|[k f] shape IH]; intros Hin; [exfalso; exact (not_elem_of_nil _ Hin)|].
  cbn [getProperty]. destruct (String.eqb k key) eqn:Hk; [eexists; reflexivity|].
  apply elem_of_cons in Hin as [Heq|Hin]; [|exact (IH Hin)].
  injection Heq as -> ->. rewrite String.eqb_refl in Hk. discriminate.
Qed.

Lemma V1_table_keys (shape : list (string * ZodTypeAny)) (name key : string) :
  truthy (ZliV1.buildRecognizedOptions shape !! name) = Some key ->
  exists fieldType, getProperty shape key = Some fieldType.
Proof.
  intros Hkey%truthy_Some. rewrite V1_table_fold in Hkey.
  apply foldV1_origin in Hkey as [Hempty|(field & Hin & _)].
  - rewrite lookup_empty in Hempty. discriminate.
  - exact (getProperty_elem _ _ _ Hin).
Qed.

(** When no key begins with a dash, the extra [-key] entries of the
    second table never collide with a double-dash name. *)
Lemma tables_agree_on_long_names (shape : list (string * ZodTypeAny)) (name : string) :
  Forall (fun entry => startsWith (fst entry) "-" = false) shape ->
  startsWith name "--" = true ->
  ZliV2.buildRecognizedOptions shape !! name = ZliV1.buildRecognizedOptions shape !! name.
Proof.
  intros Hshape Hname. rewrite V1_table_fold, V2_table_fold.
  generalize (eq_refl (A:=option string) (x:=(∅ : gmap string string) !! name)).
  generalize (∅ : gmap string string) at 1 3. generalize (∅ : gmap string string).
  induction Hshape as [|entry shape Hentry _ IH]; intros m1 m2 Hm; [exact Hm|].
  cbn [fold_left]. apply IH. rewrite stepV1_lookup, stepV2_lookup, Hm.
  destruct (decide (name ∈ Spec.tokensV1 entry)) as [Hin|Hnin].
  - rewrite decide_True; [reflexivity|].
    unfold Spec.tokensV1, Spec.tokensV2 in *.
    apply elem_of_cons in Hin as [->|Hin]; [left|do 2 right; exact Hin].
  - rewrite decide_False; [reflexivity|].
    unfold Spec.tokensV1, Spec.tokensV2 in *.
    intros [->|[->|Hin]%elem_of_cons]%elem_of_cons.
    + apply Hnin. left.
    + change ("-" ++ fst entry) with (String "-" (fst entry)) in Hname.
      rewrite startsWith_dashes in Hname. rewrite startsWith_dash in Hentry.
      destruct (fst entry) as [|c key]; [discriminate|].
      rewrite Hentry, andb_false_r in Hname. discriminate.
    + apply Hnin. right. exact Hin.
Qed.

Lemma V1_unwrap_V2 (schema : ZodTypeAny) (d : ZodTypeDef)
    (shape : list (string * ZodTypeAny)) :
  ZliV1.unwrapSchema schema = Normal (ZodObject d shape) ->
  ZliV2.unwrapSchema schema = Normal (ZodObject d shape)
  /\ Index.resolveSchema schema = Normal (ZodObject d shape).
Proof.
  destruct schema as [| | | | |d' shape'|d' [| | | | |d'' shape''| |]|]; cbn;
    try discriminate; intros [= <- <-]; split; reflexivity.
Qed.

End Agreement.

(** Where the three copies do agree: on token lists made of long options
    only (every token begins with [--], except that a scalar option
    without inline value may be followed by its value), for a schema that
    is an object or one refinement layer around an object and has no key
    beginning with [-], they have the same outcome, the one of the resolver
    [Spec.resolveLong]: on a resolution failure, the same single error
    message; otherwise the same record handed to validation, hence the
    same validated data on success and the same issues on failure, which
    the first copy prints line by line and the other two as one text. *)
Theorem copies_agree_on_long_options `{ZodRuntime} (schema : ZodTypeAny)
    (d : ZodTypeDef) (shape : list (string * ZodTypeAny)) (args : list string)
    (this2 : ZliV2.Zli) (this3 : Index.Zli) :
  ZliV1.unwrapSchema schema = Normal (ZodObject d shape) ->
  Forall (fun entry => startsWith (fst entry) "-" = false) shape ->
  Spec.longForm (ZliV1.buildRecognizedOptions shape) shape args ->
  match Spec.resolveLong (ZliV1.buildRecognizedOptions shape) shape args ∅ with
  | inl error =>
      ZliV1.parseArgs args schema = Some (Normal ([ConsoleError error], None))
      /\ ZliV2.parseArgs this2 args schema
         = Some (Normal (ZliV2.mkZli (ZliV2.commands this2) true,
                         [ConsoleError error], None))
      /\ Index.processArguments this3 args schema
         = Some (Normal (Index.mkZli (Index.commands this3) true,
                         [ConsoleError error], None))
  | inr record =>
      match safeParse schema record with
      | SafeParseSuccess data =>
          ZliV1.parseArgs args schema = Some (Normal ([], Some data))
          /\ ZliV2.parseArgs this2 args schema
             = Some (Normal (ZliV2.mkZli (ZliV2.commands this2)
                               (ZliV2.shouldDisplayHelp this2),
                             [], Some data))
          /\ Index.processArguments this3 args schema
             = Some (Normal (Index.mkZli (Index.commands this3)
                               (Index.shouldDisplayHelp this3),
                             [], Some data))
      | SafeParseError issues =>
          ZliV1.parseArgs args schema
          = Some (Normal (ZliV1.displayValidationErrors issues, None))
          /\ ZliV2.parseArgs this2 args schema
             = Some (Normal (ZliV2.mkZli (ZliV2.commands this2) true,
                             ZliV2.displayValidationErrors issues, None))
          /\ Index.processArguments this3 args schema
             = Some (Normal (Index.mkZli (Index.commands this3) true,
                             Index.showValidationErrors issues, None))
      end
  end.
Proof.
  intros Hschema Hshape Hform.
  destruct (V1_unwrap_V2 _ _ _ Hschema) as [Hschema2 Hschema3].
  set (table1 := ZliV1.buildRecognizedOptions shape) in *.
  set (table2 := ZliV2.buildRecognizedOptions shape).
  assert (Hagree : forall name, startsWith name "--" = true ->
                                table2 !! name = table1 !! name)
    by (intros name; apply tables_agree_on_long_names, Hshape).
  assert (Hkeys : forall name key, truthy (table1 !! name) = Some key ->
                                   exists fieldType, getProperty shape key = Some fieldType)
    by (intros name key; apply V1_table_keys).
  pose proof (V1_scan_long shape table1 args (S (List.length args)) args
                (ZliV1.mkState 0 ∅ ∅) Hform eq_refl (Nat.lt_succ_diag_r _)) as H1.
  pose proof (V2_scan_long shape table1 table2 Hagree Hkeys args (S (List.length args)) args
                (ZliV2.mkState 0 ∅ ∅ (ZliV2.shouldDisplayHelp this2) [])
                Hform eq_refl (Nat.lt_succ_diag_r _)) as H2.
  pose proof (Index_scan_long shape table1 table2 Hagree Hkeys args (S (List.length args)) args
                (Index.mkState 0 ∅ ∅ (Index.shouldDisplayHelp this3) [])
                Hform eq_refl (Nat.lt_succ_diag_r _)) as H3.
  cbn [ZliV1.i ZliV1.parsedArgs ZliV2.i ZliV2.parsedArgs ZliV2.console
         ZliV2.this_shouldDisplayHelp Index.i Index.parsedArgs Index.console
         Index.this_shouldDisplayHelp] in H1, H2, H3.
  unfold ZliV1.parseArgs, ZliV2.parseArgs, ZliV2.parseArgs_fuel, Index.processArguments.
  rewrite Hschema, Hschema2, Hschema3. cbn [ZliV1.shapeOf ZliV2.shapeOf Index.shapeOf].
  change (Index.buildOptionAliasMap shape) with table2. fold table1 table2.
  destruct (Spec.resolveLong table1 shape args ∅) as [error|record].
  - destruct H2 as (st2 & -> & -> & ->). destruct H3 as (st3 & -> & -> & ->).
    rewrite H1 by (intros j Hj; lia). repeat split.
  - destruct H1 as (st1 & -> & -> & Hdone); [intros j Hj; lia|].
    destruct H2 as (st2 & -> & -> & -> & ->). destruct H3 as (st3 & -> & -> & -> & ->).
    rewrite (unprocessedArgs_none _ _ Hdone).
    destruct (safeParse schema record); repeat split.
Qed.

Lemma copies_agree_on_long_options_witness :
  let args := ["--name"; "Alice"; "--age=30"; "--verbose"] in
  let shape := ZliV1.shapeOf Examples.userSchema in
  let data : gmap string JsValue :=
    <["verbose" := JsBoolean true]>
      (<["age" := JsNumber 30]> (<["name" := JsString "Alice"]> ∅)) in
  ZliV1.unwrapSchema Examples.userSchema = Normal (ZodObject noDef shape)
  /\ Forall (fun entry => startsWith (fst entry) "-" = false) shape
  /\ Spec.longForm (ZliV1.buildRecognizedOptions shape) shape args
  /\ ZliV1.parseArgs args Examples.userSchema = Some (Normal ([], Some data))
  /\ ZliV2.parseArgs ZliV2.newZli args Examples.userSchema
     = Some (Normal (ZliV2.newZli, [], Some data))
  /\ Index.processArguments Index.newZli args Examples.userSchema
     = Some (Normal (Index.newZli, [], Some data)).
Proof.
  intros args shape data.
  assert (Hkeys : Forall (fun entry => startsWith (fst entry) "-" = false) shape)
    by (repeat constructor).
  assert (Hform : Spec.longForm (ZliV1.buildRecognizedOptions shape) shape args).
  { apply Spec.longForm_valued; [reflexivity|reflexivity| |].
    - exists "--name", None, "name", (aliases (ZodString noDef) ["n"; "fullname"]).
      repeat split; reflexivity.
    - do 2 (apply Spec.longForm_option; [reflexivity|]). apply Spec.longForm_nil. }
  split; [reflexivity|]. split; [exact Hkeys|]. split; [exact Hform|].
  exact (copies_agree_on_long_options Examples.userSchema noDef shape args
           ZliV2.newZli Index.newZli eq_refl Hkeys Hform).
Defined.

(** C2: the three copies are not equivalent, and at each input below one
    copy departs from its siblings and from the test suite. With
    [name: z.string().aliases('n', 'fullname')]: on [--name Alice
    extraArg] the first copy of [zli.ts] ignores the extra token and
    succeeds, while the other two report [Unknown argument: extraArg], as
    the test "should report an error when extra unknown arguments are
    provided" expects; on [-n Bob] the two copies of [zli.ts] hand
    [{ name: 'Bob' }] to validation, as the test "should handle multiple
    aliases for options" expects, while [index.ts] reports [Unknown
    argument: -n]. With [tags: z.array(z.string())], [--tags x y] yields
    [{ tags: ['x', 'y'] }] in the second copy of [zli.ts], as the test
    "should handle space-separated arrays for tags" expects, while
    [index.ts] reports [Unknown argument: x]. *)
Lemma copies_differ_outside_long_options :
  let alice : gmap string JsValue := <["name" := JsString "Alice"]> ∅ in
  let bob : gmap string JsValue := <["name" := JsString "Bob"]> ∅ in
  let tags : gmap string JsValue := <["tags" := JsArray ["x"; "y"]]> ∅ in
  ZliV1.parseArgs ["--name"; "Alice"; "extraArg"] Examples.aliasedNameSchema
  = Some (Normal ([], Some alice))
  /\ ZliV2.parseArgs ZliV2.newZli ["--name"; "Alice"; "extraArg"] Examples.aliasedNameSchema
     = Some (Normal (ZliV2.mkZli [] true, [ConsoleError "Unknown argument: extraArg"], None))
  /\ Index.processArguments Index.newZli ["--name"; "Alice"; "extraArg"]
       Examples.aliasedNameSchema
     = Some (Normal (Index.mkZli [] true, [ConsoleError "Unknown argument: extraArg"], None))
  /\ ZliV1.parseArgs ["-n"; "Bob"] Examples.aliasedNameSchema = Some (Normal ([], Some bob))
  /\ ZliV2.parseArgs ZliV2.newZli ["-n"; "Bob"] Examples.aliasedNameSchema
     = Some (Normal (ZliV2.newZli, [], Some bob))
  /\ Index.processArguments Index.newZli ["-n"; "Bob"] Examples.aliasedNameSchema
     = Some (Normal (Index.mkZli [] true, [ConsoleError "Unknown argument: -n"], None))
  /\ ZliV2.parseArgs ZliV2.newZli ["--tags"; "x"; "y"] Examples.tagsSchema
     = Some (Normal (ZliV2.newZli, [], Some tags))
  /\ Index.processArguments Index.newZli ["--tags"; "x"; "y"] Examples.tagsSchema
     = Some (Normal (Index.mkZli [] true, [ConsoleError "Unknown argument: x"], None)).
Proof. repeat split. Qed.

(** ** Failures in the two copies of [zli.ts] show the command's help *)

Section FailureHelp.
Context `{ZodRuntime}.

Lemma V2_parseOption_console token args i table shape st result st' :
  ZliV2.parseOption token args i table shape st = (result, st') ->
  match result with
  | ZliV2.OptionSuccess _ _ _ _ =>
      ZliV2.console st' = ZliV2.console st
      /\ ZliV2.this_shouldDisplayHelp st' = ZliV2.this_shouldDisplayHelp st
  | ZliV2.OptionFailure _ =>
      ZliV2.this_shouldDisplayHelp st' = true
      /\ exists error, ZliV2.console st' = (ZliV2.console st ++ [ConsoleError error])%list
  end.
Proof.
  unfold ZliV2.parseOption. destruct (splitInlineValue token) as [name value].
  destruct (truthy (table !! name)) as [key|];
    [|intros [= <- <-]; split; [reflexivity|eexists; reflexivity]].
  destruct (getProperty shape key) as [fieldType|];
    [|intros [= <- <-]; split; [reflexivity|eexists; reflexivity]].
  destruct (isBooleanType (Some fieldType)); [intros [= <- <-]; split; reflexivity|].
  destruct (isArrayType (Some fieldType)); [intros [= <- <-]; split; reflexivity|].
  destruct (truthy value); [intros [= <- <-]; split; reflexivity|].
  destruct (args !! (i + 1)) as [next|];
    [|intros [= <- <-]; split; [reflexivity|eexists; reflexivity]].
  destruct (startsWith next "-"); intros [= <- <-];
    split; try reflexivity; eexists; reflexivity.
Qed.

Lemma V2_quiet_after st st1 result :
  ZliV2.console st1 = ZliV2.console st ->
  ZliV2.this_shouldDisplayHelp st1 = ZliV2.this_shouldDisplayHelp st ->
  Turn.V2_quiet st1 result ->
  Turn.V2_quiet st result.
Proof.
  intros Hconsole Hflag. unfold Turn.V2_quiet. destruct result as [st'|st'].
  - rewrite Hconsole, Hflag. exact id.
  - rewrite Hconsole. exact id.
Qed.

Lemma V2_combinedFlags_quiet args shape table flags st :
  Turn.V2_quiet st (ZliV2.combinedFlags args shape table flags st).
Proof.
  revert st. induction flags as [|flag flags IH]; intros st; cbn [ZliV2.combinedFlags].
  - split; reflexivity.
  - destruct (ZliV2.parseOption _ args (ZliV2.i st - 1) table shape st)
      as [[key fieldType value newIndex|newIndex] st1] eqn:Hoption;
      apply V2_parseOption_console in Hoption.
    + destruct Hoption as [Hconsole Hflag].
      assert (Hstep : forall st2,
                 ZliV2.console st2 = ZliV2.console st1 ->
                 ZliV2.this_shouldDisplayHelp st2 = ZliV2.this_shouldDisplayHelp st1 ->
                 Turn.V2_quiet st (ZliV2.combinedFlags args shape table flags st2)).
      { intros st2 Hc Hf. apply (V2_quiet_after st st2); [congruence|congruence|apply IH]. }
      destruct (isBooleanType (Some fieldType)); [apply Hstep; reflexivity|].
      destruct (args !! ZliV2.i st1) as [val|].
      * destruct (startsWith val "-"); [|apply Hstep; reflexivity].
        cbn. split; [reflexivity|]. rewrite Hconsole. eexists; reflexivity.
      * cbn. split; [reflexivity|]. rewrite Hconsole. eexists; reflexivity.
    + exact Hoption.
Qed.

Lemma V2_loopBody_quiet args shape table token st :
  Turn.V2_quiet st (ZliV2.loopBody args shape table token st).
Proof.
  unfold ZliV2.loopBody.
  destruct (startsWith token "--").
  { unfold ZliV2.longOption.
    destruct (ZliV2.parseOption token args (ZliV2.i st) table shape st)
      as [[key fieldType value newIndex|newIndex] st1] eqn:Hoption;
      apply V2_parseOption_console in Hoption; [|exact Hoption].
    destruct (isBooleanType (Some fieldType)); [exact Hoption|].
    destruct (isArrayType (Some fieldType)); [|exact Hoption].
    destruct (truthy value); [exact Hoption|].
    destruct (consumeArrayValues _ _ _ _) as [[values i'] processed]. exact Hoption. }
  destruct (startsWith token "-" && Nat.ltb 2 (String.length token) && negb false).
  { pose proof (V2_combinedFlags_quiet args shape table (chars (slice1 token))
                  (ZliV2.setIndex (ZliV2.i st + 1) (ZliV2.addProcessed (ZliV2.i st) st)))
      as Hflags.
    exact Hflags. }
  destruct (startsWith token "-").
  { unfold ZliV2.shortOption.
    destruct (ZliV2.parseOption token args (ZliV2.i st) table shape st)
      as [[key fieldType value newIndex|newIndex] st1] eqn:Hoption;
      apply V2_parseOption_console in Hoption; [|exact Hoption].
    destruct (isBooleanType (Some fieldType)); exact Hoption. }
  cbn. split; [reflexivity|]. eexists; reflexivity.
Qed.

Lemma V2_scan_quiet args shape table fuel st result :
  ZliV2.scan fuel args shape table st = Some result -> Turn.V2_quiet st result.
Proof.
  revert st. induction fuel as [|fuel IH]; intros st; [discriminate|].
  cbn [ZliV2.scan]. destruct (args !! ZliV2.i st) as [arg|];
    [|intros [= <-]; split; reflexivity].
  pose proof (V2_loopBody_quiet args shape table arg st) as Hturn.
  destruct (ZliV2.loopBody args shape table arg st) as [st1|st1].
  - intros Hrest%IH. destruct Hturn as [Hconsole Hflag].
    exact (V2_quiet_after st st1 result Hconsole Hflag Hrest).
  - intros [= <-]. exact Hturn.
Qed.











End FailureHelp.

(** Validated data that are falsy: with [verboseSchema.transform(() =>
    null)], [test --verbose] validates, the handler is not called and
    nothing is printed. *)
Lemma falsy_data_is_dropped_silently :
  @ZliV2.parse _ nullTransform Scenarios.nullDataV2 ["test"; "--verbose"]
  = Some (Scenarios.nullDataV2, [], Normal tt).
Proof. reflexivity. Qed.

(** ** What [parse] of the second copy reports, and when it returns *)

Section ParseReports.
Context `{ZodCallbacks}.






End ParseReports.




(** A refinement that throws escapes [parse] as well: with
    [verboseSchema.refine(() => { throw new Error('refine exploded') })],
    [test --verbose] ends in that error, before the handler is called. *)
Lemma throwing_refinement_escapes_parse :
  @Callbacks.parse _ _ explodingRefinement Scenarios.refinedV2 ["test"; "--verbose"]
  = Some (Scenarios.refinedV2, [], Throw (Error "refine exploded")).
Proof. reflexivity. Qed.

(** With the same schema and a refinement that passes, [parse] calls the
    handler: the error above is the callback's. *)
Lemma passing_refinement_reaches_handler :
  Callbacks.parse Scenarios.refinedV2 ["test"; "--verbose"]
  = Some (Scenarios.refinedV2, Scenarios.verboseCall, Normal tt).
Proof. reflexivity. Qed.

(** ** The schema extensions *)

Section Extensions.

Lemma alias_token_dash (alias : string) : startsWith (alias_token alias) "-" = true.
Proof.
  unfold alias_token. destruct (Nat.eqb (String.length alias) 1).
  - change ("-" ++ alias) with (String "-" alias). rewrite startsWith_dash. reflexivity.
  - change ("--" ++ alias) with (String "-" (String "-" alias)).
    rewrite startsWith_dash. reflexivity.
Qed.

(** X1: [aliases] and [describe] on a schema node. [getAliases] gives back
    the names as option tokens; a second call of [aliases] replaces the
    first; neither method touches what the other stores; and every stored
    alias begins with a dash. *)
Theorem aliases_and_description_round_trip (t : ZodTypeAny) (first names : list string)
    (description : string) :
  getAliases (aliases (aliases t first) names) = map alias_token names
  /\ getDescription (aliases (describe t description) names) = Some description
  /\ getAliases (describe (aliases t names) description) = map alias_token names
  /\ Forall (fun token => startsWith token "-" = true) (getAliases (aliases t names)).
Proof.
  repeat split; try (destruct t; reflexivity).
  replace (getAliases (aliases t names)) with (map alias_token names)
    by (destruct t; reflexivity).
  induction names as [|alias names IH]; constructor; [apply alias_token_dash|exact IH].
Qed.

(** X2: two different aliases give two different option tokens, except the
    empty alias and the alias [-], which both give [--]. *)
Theorem alias_tokens_coincide (a b : string) :
  alias_token a = alias_token b -> a <> b ->
  (a = "" /\ b = "-") \/ (a = "-" /\ b = "").
Proof.
  unfold alias_token.
  destruct (Nat.eqb (String.length a) 1) eqn:Ha, (Nat.eqb (String.length b) 1) eqn:Hb.
  - change ("-" ++ a) with (String "-" a). change ("-" ++ b) with (String "-" b).
    intros [= ->] Hne. contradiction.
  - change ("-" ++ a) with (String "-" a).
    change ("--" ++ b) with (String "-" (String "-" b)).
    intros [= ->] _. right. apply Nat.eqb_eq in Ha. cbn [String.length] in Ha.
    destruct b; [split; reflexivity|discriminate].
  - change ("--" ++ a) with (String "-" (String "-" a)).
    change ("-" ++ b) with (String "-" b).
    intros [= <-] _. left. apply Nat.eqb_eq in Hb. cbn [String.length] in Hb.
    destruct a; [split; reflexivity|discriminate].
  - change ("--" ++ a) with (String "-" (String "-" a)).
    change ("--" ++ b) with (String "-" (String "-" b)).
    intros [= ->] Hne. contradiction.
Qed.

Lemma alias_tokens_coincide_witness :
  alias_token "" = alias_token "-"
  /\ (("" = "" /\ "-" = "-") \/ ("" = "-" /\ "-" = "")).
Proof.
  split; [reflexivity|].
  apply (alias_tokens_coincide "" "-"); [reflexivity|discriminate].
Defined.

(** X3: which schemas the copies unwrap. The first copy takes an object
    schema, bare or under one refinement; the second copy and [index.ts]
    take an object schema under any number of refinements; what they
    return is that object schema; and the only error is
    [Unsupported schema type]. *)
Theorem unwrapSchema_accepts (schema unwrapped : ZodTypeAny) :
  (ZliV1.unwrapSchema schema = Normal unwrapped
   <-> exists d shape, unwrapped = ZodObject d shape
        /\ (schema = unwrapped \/ exists d', schema = ZodEffects d' unwrapped))
  /\ (ZliV2.unwrapSchema schema = Normal unwrapped
      <-> exists d shape defs, unwrapped = ZodObject d shape
           /\ schema = Scenarios.refinements defs unwrapped)
  /\ Index.resolveSchema schema = ZliV2.unwrapSchema schema
  /\ (forall e, ZliV1.unwrapSchema schema = Throw e \/ ZliV2.unwrapSchema schema = Throw e ->
        e = Error "Unsupported schema type").
Proof.
  split; [|split; [|split]].
  - split.
    + destruct schema as [| | | | | d shape | d [| | | | | d' shape | |] |]; try discriminate.
      * intros [= <-]. exists d, shape. split; [reflexivity|left; reflexivity].
      * intros [= <-]. exists d', shape. split; [reflexivity|right; exists d; reflexivity].
    + intros (d & shape & -> & [->|[d' ->]]); reflexivity.
  - split.
    + induction schema as [| | | | | d shape | d inner IH |]; try discriminate.
      * intros [= <-]. exists d, shape, []. split; reflexivity.
      * cbn [ZliV2.unwrapSchema]. intros Hinner.
        destruct (IH Hinner) as (d' & shape & defs & -> & ->).
        exists d', shape, (d :: defs). split; reflexivity.
    + intros (d & shape & defs & -> & ->).
      induction defs as [|d' defs IH]; [reflexivity|exact IH].
  - reflexivity.
  - intros e [Hthrow|Hthrow].
    + destruct schema as [| | | | | d shape | d [| | | | | d' shape | |] |];
        cbn [ZliV1.unwrapSchema] in Hthrow; congruence.
    + induction schema as [| | | | | d shape | d inner IH |];
        cbn [ZliV2.unwrapSchema] in Hthrow; try congruence. exact (IH Hthrow).
Qed.

End Extensions.

(** ** The registry of commands *)

Section Registry.
Context `{ZodRuntime}.

Lemma setProperty_fresh {A} (o : list (string * A)) (k : string) (v : A) :
  getProperty o k = None -> setProperty o k v = (o ++ [(k, v)])%list.
Proof.
  induction o as [|[k' v'] o IH]; cbn [setProperty getProperty app]; [reflexivity|].
  destruct (String.eqb k' k); [discriminate|].
  intros Hfresh. rewrite (IH Hfresh). reflexivity.
Qed.

Lemma find_snoc {A} (p : A -> bool) (l : list A) (x : A) :
  List.find p (l ++ [x])%list
  = match List.find p l with
    | Some found => Some found
    | None => if p x then Some x else None
    end.
Proof.
  induction l as [|a l IH]; cbn [List.find app]; [reflexivity|].
  destruct (p a); [reflexivity|exact IH].
Qed.

(** X4: the registry of [index.ts]. A command answers to its name and to
    nothing else: after [addCommand] under an ordinary property name, the
    name finds the new definition, also when the name was registered
    before, and every other name finds what it found before. *)
Theorem Index_findCommand_addCommand (this : Index.Zli) (commandName : string)
    (schema : ZodTypeAny) (handler : Data -> HandlerOutcome) (subcommand : string) :
  Objects.ordinaryName commandName = true ->
  Index.findCommand (Index.addCommand this commandName schema handler) subcommand
  = if String.eqb subcommand commandName
    then Some (commandName, Index.mkCommand schema handler)
    else Index.findCommand this subcommand.
Proof.
  intros _. unfold Index.findCommand, Index.addCommand. cbn [Index.commands].
  induction (Index.commands this) as [|[k c] l IH]; cbn [setProperty List.find].
  - unfold Array_includes. cbn [existsb]. rewrite orb_false_r.
    destruct (String.eqb subcommand commandName); reflexivity.
  - destruct (String.eqb k commandName) eqn:Hk.
    + apply String.eqb_eq in Hk. subst k. cbn [List.find].
      unfold Array_includes. cbn [existsb]. rewrite orb_false_r.
      destruct (String.eqb subcommand commandName); reflexivity.
    + cbn [List.find]. unfold Array_includes at 1 3. cbn [existsb]. rewrite orb_false_r.
      destruct (String.eqb subcommand k) eqn:Hs.
      * apply String.eqb_eq in Hs. subst k. rewrite Hk. reflexivity.
      * exact IH.
Qed.

(** X5: the registries of [zli.ts], for commands under ordinary property
    names. For a name not registered before, [addCommand] puts the command
    after all the others: a token that an earlier command answers to, by
    its name or by an alias, still finds that command, and only the other
    tokens among the new name and aliases find the new one. *)
Theorem findCommand_earlier_registration_wins (this1 : ZliV1.Zli) (this2 : ZliV2.Zli)
    (commandName : string) (schema : ZodTypeAny) (handler : Data -> HandlerOutcome)
    (aliases : list string) (subcommand : string) :
  Objects.ordinaryName commandName = true ->
  Forall (fun entry => Objects.ordinaryName (fst entry) = true) (ZliV1.commands this1) ->
  Forall (fun entry => Objects.ordinaryName (fst entry) = true) (ZliV2.commands this2) ->
  getProperty (ZliV1.commands this1) commandName = None ->
  getProperty (ZliV2.commands this2) commandName = None ->
  ZliV1.findCommand (ZliV1.addCommand this1 commandName schema handler aliases) subcommand
  = match ZliV1.findCommand this1 subcommand with
    | Some found => Some found
    | None =>
        if Array_includes (commandName :: aliases) subcommand
        then Some (commandName, ZliV1.mkCommand schema handler aliases)
        else None
    end
  /\ ZliV2.findCommand (ZliV2.addCommand this2 commandName schema handler aliases) subcommand
     = match ZliV2.findCommand this2 subcommand with
       | Some found => Some found
       | None =>
           if Array_includes (commandName :: aliases) subcommand
           then Some (commandName, ZliV2.mkCommand schema handler aliases)
           else None
       end.
Proof.
  intros _ _ _ Hfresh1 Hfresh2. split.
  - unfold ZliV1.findCommand, ZliV1.addCommand. cbn [ZliV1.commands].
    rewrite (setProperty_fresh _ _ _ Hfresh1), find_snoc. reflexivity.
  - unfold ZliV2.findCommand, ZliV2.addCommand. cbn [ZliV2.commands].
    rewrite (setProperty_fresh _ _ _ Hfresh2), find_snoc. reflexivity.
Qed.

End Registry.

Lemma findCommand_earlier_registration_wins_witness :
  ZliV1.findCommand
    (ZliV1.addCommand Scenarios.addV1 "new" Examples.flagSchema Examples.silent ["n"]) "new"
  = Some ("add", ZliV1.mkCommand Examples.userSchema Examples.silent ["a"; "new"])
  /\ ZliV2.findCommand
       (ZliV2.addCommand Scenarios.addV2 "new" Examples.flagSchema Examples.silent ["n"]) "new"
     = Some ("add", ZliV2.mkCommand Examples.userSchema Examples.silent ["a"; "new"]).
Proof.
  apply (findCommand_earlier_registration_wins Scenarios.addV1 Scenarios.addV2 "new"
           Examples.flagSchema Examples.silent ["n"] "new");
    try reflexivity; repeat constructor.
Defined.

Lemma Index_findCommand_addCommand_witness :
  Index.findCommand
    (Index.addCommand Scenarios.addIndex "add" Examples.flagSchema Examples.silent) "add"
  = Some ("add", Index.mkCommand Examples.flagSchema Examples.silent).
Proof.
  exact (Index_findCommand_addCommand Scenarios.addIndex "add" Examples.flagSchema
           Examples.silent "add" eq_refl).
Defined.

(** ** The scans of the first copy and of [index.ts] always end *)

Section Termination.
Context `{ZodRuntime}.

Lemma V1_scalarOption_progress args arg value key fieldType st st' :
  ZliV1.scalarOption args arg value key fieldType st = ZliV1.Next st' ->
  ZliV1.i st < ZliV1.i st'.
Proof.
  unfold ZliV1.scalarOption. destruct (truthy value) as [v|].
  - intros [= <-]. cbn [ZliV1.i]. lia.
  - destruct (args !! (ZliV1.i st + 1)) as [next|]; [|discriminate].
    destruct (startsWith next "-"); [discriminate|].
    intros [= <-]. cbn [ZliV1.i]. lia.
Qed.

Lemma V1_combinedFlags_mono args shape table flags st st' :
  ZliV1.combinedFlags args shape table flags st = ZliV1.Next st' ->
  ZliV1.i st <= ZliV1.i st'.
Proof.
  revert st. induction flags as [|flag flags IH]; intros st; cbn [ZliV1.combinedFlags].
  - intros [= <-]. lia.
  - destruct (truthy (table !! _)) as [key|]; [|discriminate].
    destruct (isBooleanType (getProperty shape key)).
    + intros Hrest. apply IH in Hrest. cbn [ZliV1.i] in Hrest. exact Hrest.
    + destruct (args !! (ZliV1.i st + 1)) as [value|]; [|discriminate].
      destruct (startsWith value "-"); [discriminate|].
      intros Hrest. apply IH in Hrest. cbn [ZliV1.i] in Hrest. lia.
Qed.

(** Every turn of the first copy that goes on moves the index forward. *)
Lemma V1_loopBody_progress args shape table token st st' :
  ZliV1.loopBody args shape table token st = ZliV1.Next st' ->
  ZliV1.i st < ZliV1.i st'.
Proof.
  unfold ZliV1.loopBody. destruct (startsWith token "--").
  - unfold ZliV1.longOption. destruct (splitInlineValue token) as [name value].
    destruct (truthy (table !! name)) as [key|]; [|discriminate].
    cbn [ZliV1.i ZliV1.parsedArgs ZliV1.processedIndices].
    destruct (isBooleanType (getProperty shape key)).
    { intros [= <-]. cbn [ZliV1.i]. lia. }
    destruct (isArrayType (getProperty shape key)).
    { rewrite consumeArrayValues_spec. intros [= <-]. cbn [ZliV1.i]. lia. }
    intros Hscalar. apply V1_scalarOption_progress in Hscalar. exact Hscalar.
  - destruct (startsWith token "-" && Nat.ltb 2 (String.length token)).
    + destruct (ZliV1.combinedFlags args shape table _ st) as [st1|e] eqn:Hflags;
        [|discriminate].
      apply V1_combinedFlags_mono in Hflags. intros [= <-]. cbn [ZliV1.i]. lia.
    + destruct (startsWith token "-").
      * unfold ZliV1.shortOption. destruct (splitInlineValue token) as [name value].
        destruct (truthy (table !! name)) as [key|]; [|discriminate].
        cbn [ZliV1.i ZliV1.parsedArgs ZliV1.processedIndices].
        destruct (isBooleanType (getProperty shape key)).
        { intros [= <-]. cbn [ZliV1.i]. lia. }
        intros Hscalar. apply V1_scalarOption_progress in Hscalar. exact Hscalar.
      * intros [= <-]. cbn [ZliV1.i]. lia.
Qed.

Lemma V1_scan_terminates args shape table fuel st :
  List.length args - ZliV1.i st < fuel ->
  exists result, ZliV1.scan fuel args shape table st = Some result.
Proof.
  revert st. induction fuel as [|fuel IH]; intros st Hfuel; [lia|].
  cbn [ZliV1.scan]. destruct (args !! ZliV1.i st) as [arg|] eqn:Harg; [|eauto].
  apply lookup_lt_Some in Harg.
  destruct (ZliV1.loopBody args shape table arg st) as [st'|e] eqn:Hbody; [|eauto].
  apply V1_loopBody_progress in Hbody. apply IH. lia.
Qed.

Lemma V1_parseArgs_terminates args schema :
  exists result, ZliV1.parseArgs args schema = Some result.
Proof.
  unfold ZliV1.parseArgs. destruct (ZliV1.unwrapSchema schema) as [unwrapped|e]; [|eauto].
  destruct (V1_scan_terminates args (ZliV1.shapeOf unwrapped)
              (ZliV1.buildRecognizedOptions (ZliV1.shapeOf unwrapped))
              (S (List.length args)) (ZliV1.mkState 0 ∅ ∅))
    as [[st|e] Hscan]; [cbn [ZliV1.i]; lia| |]; rewrite Hscan; [|eauto].
  destruct (ZliV1.unprocessedArgs args (ZliV1.processedIndices st)); [|eauto].
  destruct (safeParse schema (ZliV1.parsedArgs st)); eauto.
Qed.

(** X6: [parse] of the first copy ends on every input: its [while] loop
    moves forward at every turn, so the scan of the option tokens never
    runs on. *)
Theorem V1_parse_terminates (this : ZliV1.Zli) (args : list string) :
  exists trace completion, ZliV1.parse this args = Some (trace, completion).
Proof.
  unfold ZliV1.parse. destruct args as [|subcommand options]; [eauto|].
  destruct (ZliV1.findCommand this subcommand) as [[commandName cmd]|].
  - destruct (Array_includes options "--help").
    + destruct (ZliV1.displayHelpForCommand commandName (ZliV1.schema cmd)); eauto.
    + destruct (V1_parseArgs_terminates options (ZliV1.schema cmd))
        as [[[out parsed]|e] Hparsed]; rewrite Hparsed; [|eauto].
      destruct parsed as [data|].
      * destruct (Data_truthy data).
        -- destruct (ZliV1.runHandler commandName cmd data). eauto.
        -- destruct (ZliV1.displayHelpForCommand commandName (ZliV1.schema cmd)); eauto.
      * destruct (ZliV1.displayHelpForCommand commandName (ZliV1.schema cmd)); eauto.
  - destruct (String.eqb subcommand "--help"); eauto.
Qed.

Lemma Index_processOptionValue_index token args n table shape st result st' :
  Index.processOptionValue token args n table shape st = (result, st') ->
  Index.i st' = Index.i st
  /\ match result with
     | Index.OptionSuccess _ fieldType _ newIndex =>
         isBooleanType (Some fieldType) = false ->
         isArrayType (Some fieldType) = false -> n < newIndex
     | Index.OptionFailure _ => True
     end.
Proof.
  unfold Index.processOptionValue. destruct (splitInlineValue token) as [name inline].
  destruct (truthy (table !! name)) as [key|]; [|intros [= <- <-]; split; [reflexivity|exact I]].
  destruct (getProperty shape key) as [ft|]; [|intros [= <- <-]; split; [reflexivity|exact I]].
  destruct (isBooleanType (Some ft)) eqn:Hbool.
  { intros [= <- <-]. split; [reflexivity|]. congruence. }
  destruct (isArrayType (Some ft)) eqn:Harray.
  { intros [= <- <-]. split; [reflexivity|]. congruence. }
  destruct (truthy inline) as [v|].
  { intros [= <- <-]. split; [reflexivity|]. intros _ _. lia. }
  destruct (args !! (n + 1)) as [next|]; [|intros [= <- <-]; split; [reflexivity|exact I]].
  destruct (startsWith next "-"); intros [= <- <-]; split; try reflexivity; try exact I.
  intros _ _. lia.
Qed.

Lemma Index_combinedFlags_mono args table shape flags st :
  Index.i st <= Index.i (Index.combinedFlags args table shape flags st).
Proof.
  revert st. induction flags as [|flag flags IH]; intros st; cbn [Index.combinedFlags].
  - lia.
  - destruct (Index.processOptionValue _ args (Index.i st - 1) table shape st)
      as [[key ft value newIndex|newIndex] st1] eqn:Hoption;
      apply Index_processOptionValue_index in Hoption as [Hi _].
    + destruct (isBooleanType (Some ft)).
      * etransitivity; [|apply IH]. cbn [Index.setParsedArg Index.i]. lia.
      * destruct (args !! Index.i st1) as [val|]; [|cbn [Index.reportError Index.i]; lia].
        destruct (startsWith val "-"); [cbn [Index.reportError Index.i]; lia|].
        etransitivity; [|apply IH].
        cbn [Index.setParsedArg Index.setIndex Index.addProcessed Index.i]. lia.
    + cbn [Index.setShouldDisplayHelp Index.i]. lia.
Qed.

(** A turn of [index.ts] that goes on never moves the index back; the
    [for] loop then adds one. *)
Lemma Index_loopBody_progress args shape table token st st' :
  Index.loopBody args shape table token st = Index.Continue st' ->
  Index.i st <= Index.i st'.
Proof.
  unfold Index.loopBody. destruct (startsWith token "--").
  - destruct (Index.processOptionValue token args (Index.i st) table shape st)
      as [[key ft value newIndex|newIndex] st1] eqn:Hoption; [|discriminate].
    apply Index_processOptionValue_index in Hoption as [Hi Hnew].
    destruct (isBooleanType (Some ft)).
    { intros [= <-]. cbn [Index.setParsedArg Index.i]. lia. }
    destruct (isArrayType (Some ft)).
    { intros [= <-]. cbn [Index.setParsedArg Index.i]. lia. }
    intros [= <-]. cbn [Index.setIndex Index.i].
    specialize (Hnew eq_refl eq_refl). lia.
  - destruct (startsWith token "-" && Nat.ltb 2 (String.length token)); [|discriminate].
    intros [= <-]. cbn [Index.setIndex Index.i]. unfold Index.processCombinedShortFlags.
    pose proof (Index_combinedFlags_mono args table shape (chars (slice1 token))
                  (Index.setIndex (Index.i st + 1) (Index.addProcessed (Index.i st) st)))
      as Hmono.
    cbn [Index.setIndex Index.addProcessed Index.i] in Hmono. lia.
Qed.

Lemma Index_scan_terminates args shape table fuel st :
  List.length args - Index.i st < fuel ->
  exists result, Index.scan fuel args shape table st = Some result.
Proof.
  revert st. induction fuel as [|fuel IH]; intros st Hfuel; [lia|].
  cbn [Index.scan]. destruct (args !! Index.i st) as [arg|] eqn:Harg; [|eauto].
  apply lookup_lt_Some in Harg.
  destruct (Index.loopBody args shape table arg st) as [st'|st'] eqn:Hbody; [|eauto].
  apply Index_loopBody_progress in Hbody. apply IH. cbn [Index.setIndex Index.i]. lia.
Qed.

Lemma Index_processArguments_terminates this args schema :
  exists result, Index.processArguments this args schema = Some result.
Proof.
  unfold Index.processArguments.
  destruct (Index.resolveSchema schema) as [schemaObject|e]; [|eauto].
  destruct (Index_scan_terminates args (Index.shapeOf schemaObject)
              (Index.buildOptionAliasMap (Index.shapeOf schemaObject))
              (S (List.length args))
              (Index.mkState 0 ∅ ∅ (Index.shouldDisplayHelp this) []))
    as [[st|st] Hscan]; [cbn [Index.i]; lia| |]; rewrite Hscan; [|eauto].
  destruct (safeParse schema (Index.parsedArgs st)); eauto.
Qed.

(** X7: [parse] of [index.ts] ends on every input: its [for] loop never
    moves the index back before adding one. *)
Theorem Index_parse_terminates (this : Index.Zli) (args : list string) :
  exists this' trace completion, Index.parse this args = Some (this', trace, completion).
Proof.
  unfold Index.parse. destruct args as [|subcommand options]; [eauto|].
  destruct (Index.findCommand this subcommand) as [[commandName cmd]|].
  - destruct (Array_includes options "--help").
    + destruct (Index.displayHelpForCommand commandName (Index.schema cmd)); eauto.
    + destruct (Index_processArguments_terminates this options (Index.schema cmd))
        as [[[[this' out] parsed]|e] Hparsed]; rewrite Hparsed; [|eauto].
      destruct parsed as [data|].
      * destruct (Data_truthy data).
        -- destruct (Index.runHandler commandName cmd data). eauto.
        -- destruct (Index.shouldDisplayHelp this'); [|eauto].
           destruct (Index.displayHelpForCommand commandName (Index.schema cmd)); eauto.
      * destruct (Index.shouldDisplayHelp this'); [|eauto].
        destruct (Index.displayHelpForCommand commandName (Index.schema cmd)); eauto.
  - destruct (String.eqb subcommand "--help"); eauto.
Qed.

End Termination.

(** ** A scan of the second copy that never ends *)

Section Standstill.
Context `{ZodRuntime}.

Lemma array_is_not_boolean (fieldType : ZodTypeAny) :
  isArrayType (Some fieldType) = true -> isBooleanType (Some fieldType) = false.
Proof. destruct fieldType; try discriminate. reflexivity. Qed.

(** On a short token for an array-kind field, a turn of the second copy
    goes on without moving the index. *)
Lemma V2_short_array_turn args shape table token name value key fieldType st :
  Spec.isShortToken token ->
  Spec.resolvesTo table shape token name value key fieldType ->
  isArrayType (Some fieldType) = true ->
  exists st', ZliV2.loopBody args shape table token st = ZliV2.Next st'
              /\ ZliV2.i st' = ZliV2.i st.
Proof.
  intros (Hlong & Hdash & Hlen) (Hsplit & Hkey & Hfield) Harray.
  unfold ZliV2.loopBody. rewrite Hlong, Hdash, Hlen. cbn [andb negb].
  unfold ZliV2.shortOption, ZliV2.parseOption. rewrite Hsplit, Hkey, Hfield.
  rewrite (array_is_not_boolean _ Harray), Harray.
  rewrite (array_is_not_boolean _ Harray).
  eexists. split; [reflexivity|]. reflexivity.
Qed.

(** X8: the [while] loop of the second copy never ends once it stands at
    an option token of at most two characters (single dash) that resolves
    to an array-kind field: [parseOption] returns the same index, the
    branch for short options sets [i] to it, and the loop reads the same
    token again, whatever the number of turns. *)
Theorem short_array_option_never_ends (args : list string)
    (shape : list (string * ZodTypeAny)) (table : gmap string string)
    (token name : string) (value : option string) (key : string)
    (fieldType : ZodTypeAny) (fuel : nat) (st : ZliV2.LoopState) :
  args !! ZliV2.i st = Some token ->
  Spec.isShortToken token ->
  Spec.resolvesTo table shape token name value key fieldType ->
  isArrayType (Some fieldType) = true ->
  ZliV2.scan fuel args shape table st = None.
Proof.
  intros Htoken Hshort Hresolves Harray. revert st Htoken.
  induction fuel as [|fuel IH]; intros st Htoken; [reflexivity|].
  cbn [ZliV2.scan]. rewrite Htoken.
  destruct (V2_short_array_turn args shape table token name value key fieldType st
              Hshort Hresolves Harray) as (st' & -> & Hi).
  apply IH. rewrite Hi. exact Htoken.
Qed.

End Standstill.

Lemma short_array_option_never_ends_witness :
  ZliV2.scan 1000 ["-t"; "x"] (ZliV2.shapeOf Examples.shortTagsSchema)
    (ZliV2.buildRecognizedOptions (ZliV2.shapeOf Examples.shortTagsSchema))
    (ZliV2.mkState 0 ∅ ∅ false [])
  = None.
Proof.
  apply (short_array_option_never_ends ["-t"; "x"]
           (ZliV2.shapeOf Examples.shortTagsSchema)
           (ZliV2.buildRecognizedOptions (ZliV2.shapeOf Examples.shortTagsSchema))
           "-t" "-t" None "tags" (aliases (ZodArray noDef (ZodString noDef)) ["t"]));
    [reflexivity|repeat split|repeat split|reflexivity].
Defined.

(** ** What the handlers receive *)

Section HandlerCalls.
Context `{ZodRuntime}.

Lemma handlerCalls_app (t1 t2 : list Event) :
  Trace.handlerCalls (t1 ++ t2)%list
  = (Trace.handlerCalls t1 ++ Trace.handlerCalls t2)%list.
Proof. unfold Trace.handlerCalls. apply flat_map_app. Qed.

Lemma handlerCalls_map {A} (event : A -> Event) (l : list A) :
  (forall x, Trace.handlerCalls [event x] = []) ->
  Trace.handlerCalls (map event l) = [].
Proof.
  intros Hquiet. induction l as [|x l IH]; [reflexivity|].
  change (map event (x :: l)) with ([event x] ++ map event l)%list.
  rewrite handlerCalls_app, Hquiet, IH. reflexivity.
Qed.

Lemma onlyConsole_calls (trace : list Event) :
  Turn.onlyConsole trace <-> Trace.handlerCalls trace = [].
Proof.
  unfold Turn.onlyConsole. induction trace as [|event trace IH].
  - split; [reflexivity|constructor].
  - change (event :: trace) with ([event] ++ trace)%list.
    rewrite handlerCalls_app, Forall_app, IH. destruct event; cbn.
    + split; [intros [_ Hrest]; exact Hrest|intros Hrest; split; [repeat constructor|exact Hrest]].
    + split; [intros [_ Hrest]; exact Hrest|intros Hrest; split; [repeat constructor|exact Hrest]].
    + split; [intros [Habsurd _]; inversion Habsurd; contradiction|discriminate].
Qed.

Lemma V1_displayHelp_calls (this : ZliV1.Zli) :
  Trace.handlerCalls (ZliV1.displayHelp this) = [].
Proof.
  unfold ZliV1.displayHelp.
  match goal with
  | |- Trace.handlerCalls (?first :: ?lines ++ ?last)%list = _ =>
      change (Trace.handlerCalls (lines ++ last)%list = [])
  end.
  rewrite handlerCalls_app, handlerCalls_map; [reflexivity|].
  intros [commandName cmd]. reflexivity.
Qed.

Lemma V1_displayHelpForCommand_calls (commandName : string) (schema : ZodTypeAny)
    (help : list Event) :
  ZliV1.displayHelpForCommand commandName schema = Normal help ->
  Trace.handlerCalls help = [].
Proof.
  unfold ZliV1.displayHelpForCommand.
  destruct (ZliV1.unwrapSchema schema) as [unwrapped|e]; [|discriminate].
  intros [= <-].
  match goal with
  | |- Trace.handlerCalls (?first :: ?second :: ?lines ++ ?last)%list = _ =>
      change (Trace.handlerCalls (lines ++ last)%list = [])
  end.
  rewrite handlerCalls_app, handlerCalls_map; [reflexivity|].
  intros [key type]. reflexivity.
Qed.

(** What [parseArgs] of the first copy returns: console output only, and
    data that [safeParse] gave for some record. *)
Lemma V1_parseArgs_result (args : list string) (schema : ZodTypeAny)
    (out : list Event) (parsed : option Data) :
  ZliV1.parseArgs args schema = Some (Normal (out, parsed)) ->
  Trace.handlerCalls out = []
  /\ match parsed with
     | Some data => exists record, safeParse schema record = SafeParseSuccess data
     | None => True
     end.
Proof.
  unfold ZliV1.parseArgs.
  destruct (ZliV1.unwrapSchema schema) as [unwrapped|e]; [|discriminate].
  destruct (ZliV1.scan _ args _ _ _) as [[st|e]|]; [| |discriminate].
  - destruct (ZliV1.unprocessedArgs args (ZliV1.processedIndices st)) as [|first rest].
    + destruct (safeParse schema (ZliV1.parsedArgs st)) as [data|issues] eqn:Hsafe;
        intros [= <- <-].
      * split; [reflexivity|]. exists (ZliV1.parsedArgs st). exact Hsafe.
      * split; [|exact I]. unfold ZliV1.displayValidationErrors.
        change (Trace.handlerCalls
                  (map (fun issue => ConsoleError (issueLine issue)) issues) = []).
        apply handlerCalls_map. reflexivity.
    + intros [= <- <-]. split; [reflexivity|exact I].
  - intros [= <- <-]. split; [reflexivity|exact I].
Qed.

Lemma runHandler_calls_V1 (commandName : string) (cmd : ZliV1.CommandDefinition)
    (data : Data) :
  Trace.handlerCalls (fst (ZliV1.runHandler commandName cmd data)) = [(commandName, data)].
Proof.
  unfold ZliV1.runHandler. destruct (ZliV1.handler cmd data) as [|[message|]]; reflexivity.
Qed.

(** X9: in the first copy, [parse] calls a handler at most once, and only
    the handler of the command that the first token finds, with data that
    [safeParse] of that command's schema returned; in particular never
    when [--help] is among the options. *)
Theorem V1_handler_gets_validated_data (this : ZliV1.Zli) (args : list string)
    (trace : list Event) (completion : Completion unit) :
  ZliV1.parse this args = Some (trace, completion) ->
  Trace.handlerCalls trace = []
  \/ exists subcommand options commandName cmd record data,
       args = subcommand :: options
       /\ ZliV1.findCommand this subcommand = Some (commandName, cmd)
       /\ Array_includes options "--help" = false
       /\ safeParse (ZliV1.schema cmd) record = SafeParseSuccess data
       /\ Trace.handlerCalls trace = [(commandName, data)].
Proof.
  unfold ZliV1.parse. destruct args as [|subcommand options].
  { intros [= <- <-]. left. apply V1_displayHelp_calls. }
  destruct (ZliV1.findCommand this subcommand) as [[commandName cmd]|] eqn:Hfind.
  2:{ destruct (String.eqb subcommand "--help"); intros [= <- <-]; left.
      - apply V1_displayHelp_calls.
      - change (Trace.handlerCalls (ZliV1.displayHelp this) = []).
        apply V1_displayHelp_calls. }
  destruct (Array_includes options "--help") eqn:Hhelp.
  { destruct (ZliV1.displayHelpForCommand commandName (ZliV1.schema cmd)) as [out|e] eqn:Hout;
      intros [= <- <-]; left; [|reflexivity].
    exact (V1_displayHelpForCommand_calls _ _ _ Hout). }
  destruct (ZliV1.parseArgs options (ZliV1.schema cmd)) as [[[out parsed]|e]|] eqn:Hparsed;
    [| |discriminate].
  2:{ intros [= <- <-]. left. reflexivity. }
  apply V1_parseArgs_result in Hparsed as [Hout Hdata].
  assert (Hnull : forall trace completion,
             match ZliV1.displayHelpForCommand commandName (ZliV1.schema cmd) with
             | Throw e => Some (out, Throw e)
             | Normal help => Some ((out ++ help)%list, Normal tt)
             end = Some (trace, completion) ->
             Trace.handlerCalls trace = []).
  { intros trace' completion'.
    destruct (ZliV1.displayHelpForCommand commandName (ZliV1.schema cmd)) as [help|e] eqn:Hcmd;
      intros [= <- <-]; [|exact Hout].
    rewrite handlerCalls_app, Hout, (V1_displayHelpForCommand_calls _ _ _ Hcmd).
    reflexivity. }
  destruct parsed as [data|]; [|intros Hend; left; exact (Hnull _ _ Hend)].
  destruct (Data_truthy data); [|intros Hend; left; exact (Hnull _ _ Hend)].
  destruct Hdata as [record Hsafe].
  pose proof (runHandler_calls_V1 commandName cmd data) as Hcalls.
  destruct (ZliV1.runHandler commandName cmd data) as [events completion'].
  intros [= <- <-]. right.
  exists subcommand, options, commandName, cmd, record, data.
  repeat split; try assumption.
  rewrite handlerCalls_app, Hout. exact Hcalls.
Qed.

(** What [parseArgs] of the second copy returns. *)
Lemma V2_parseArgs_result (fuel : nat) (this this' : ZliV2.Zli) (args : list string)
    (schema : ZodTypeAny) (out : list Event) (parsed : option Data) :
  ZliV2.parseArgs_fuel fuel this args schema = Some (Normal (this', out, parsed)) ->
  Trace.handlerCalls out = []
  /\ match parsed with
     | Some data => exists record, safeParse schema record = SafeParseSuccess data
     | None => True
     end.
Proof.
  unfold ZliV2.parseArgs_fuel.
  destruct (ZliV2.unwrapSchema schema) as [unwrapped|e]; [|discriminate].
  destruct (ZliV2.scan fuel args _ _ _) as [[st|st]|] eqn:Hscan; [| |discriminate];
    apply V2_scan_quiet in Hscan; cbn [Turn.V2_quiet ZliV2.console] in Hscan.
  - destruct Hscan as [Hconsole _].
    destruct (safeParse schema (ZliV2.parsedArgs st)) as [data|issues] eqn:Hsafe;
      intros [= <- <- <-]; rewrite Hconsole.
    + split; [reflexivity|]. exists (ZliV2.parsedArgs st). exact Hsafe.
    + split; [reflexivity|exact I].
  - destruct Hscan as [_ [error Hconsole]]. intros [= <- <- <-]. rewrite Hconsole.
    split; [reflexivity|exact I].
Qed.

Lemma V2_displayHelpForCommand_calls (commandName : string) (schema : ZodTypeAny)
    (help : list Event) :
  ZliV2.displayHelpForCommand commandName schema = Normal help ->
  Trace.handlerCalls help = [].
Proof.
  unfold ZliV2.displayHelpForCommand.
  destruct (ZliV2.unwrapSchema schema) as [unwrapped|e]; [|discriminate].
  intros [= <-]. reflexivity.
Qed.

Lemma runHandler_calls_V2 (commandName : string) (cmd : ZliV2.CommandDefinition)
    (data : Data) :
  Trace.handlerCalls (fst (ZliV2.runHandler commandName cmd data)) = [(commandName, data)].
Proof.
  unfold ZliV2.runHandler. destruct (ZliV2.handler cmd data) as [|[message|]]; reflexivity.
Qed.

(** X10: the same in the second copy, for a [parse] that ends. *)
Theorem V2_handler_gets_validated_data (fuel : nat) (this this' : ZliV2.Zli)
    (args : list string) (trace : list Event) (completion : Completion unit) :
  ZliV2.parse_fuel fuel this args = Some (this', trace, completion) ->
  Trace.handlerCalls trace = []
  \/ exists subcommand options commandName cmd record data,
       args = subcommand :: options
       /\ ZliV2.findCommand this subcommand = Some (commandName, cmd)
       /\ Array_includes options "--help" = false
       /\ safeParse (ZliV2.schema cmd) record = SafeParseSuccess data
       /\ Trace.handlerCalls trace = [(commandName, data)].
Proof.
  unfold ZliV2.parse_fuel. destruct args as [|subcommand options].
  { intros [= <- <- <-]. left. reflexivity. }
  destruct (ZliV2.findCommand this subcommand) as [[commandName cmd]|] eqn:Hfind.
  2:{ destruct (String.eqb subcommand "--help"); intros [= <- <- <-]; left; reflexivity. }
  destruct (Array_includes options "--help") eqn:Hhelp.
  { destruct (ZliV2.displayHelpForCommand commandName (ZliV2.schema cmd)) as [out|e] eqn:Hout;
      intros [= <- <- <-]; left; [|reflexivity].
    exact (V2_displayHelpForCommand_calls _ _ _ Hout). }
  destruct (ZliV2.parseArgs_fuel fuel this options (ZliV2.schema cmd))
    as [[[[this1 out] parsed]|e]|] eqn:Hparsed; [| |discriminate].
  2:{ intros [= <- <- <-]. left. reflexivity. }
  apply V2_parseArgs_result in Hparsed as [Hout Hdata].
  assert (Hnull : forall this2 trace completion,
             (if ZliV2.shouldDisplayHelp this1
              then match ZliV2.displayHelpForCommand commandName (ZliV2.schema cmd) with
                   | Throw e => Some (this1, out, Throw e)
                   | Normal help => Some (this1, (out ++ help)%list, Normal tt)
                   end
              else Some (this1, out, Normal tt)) = Some (this2, trace, completion) ->
             Trace.handlerCalls trace = []).
  { intros this2 trace' completion'.
    destruct (ZliV2.shouldDisplayHelp this1); [|intros [= <- <- <-]; exact Hout].
    destruct (ZliV2.displayHelpForCommand commandName (ZliV2.schema cmd)) as [help|e] eqn:Hcmd;
      intros [= <- <- <-]; [|exact Hout].
    rewrite handlerCalls_app, Hout, (V2_displayHelpForCommand_calls _ _ _ Hcmd).
    reflexivity. }
  destruct parsed as [data|]; [|intros Hend; left; exact (Hnull _ _ _ Hend)].
  destruct (Data_truthy data); [|intros Hend; left; exact (Hnull _ _ _ Hend)].
  destruct Hdata as [record Hsafe].
  pose proof (runHandler_calls_V2 commandName cmd data) as Hcalls.
  destruct (ZliV2.runHandler commandName cmd data) as [events completion'].
  intros [= <- <- <-]. right.
  exists subcommand, options, commandName, cmd, record, data.
  repeat split; try assumption.
  rewrite handlerCalls_app, Hout. exact Hcalls.
Qed.

Lemma Index_reportError_calls (text : string) (st : Index.LoopState) :
  Trace.handlerCalls (Index.console (Index.reportError text st))
  = Trace.handlerCalls (Index.console st).
Proof.
  cbn [Index.reportError Index.console]. rewrite handlerCalls_app. apply app_nil_r.
Qed.

Lemma Index_processOptionValue_calls token args n table shape st result st' :
  Index.processOptionValue token args n table shape st = (result, st') ->
  Trace.handlerCalls (Index.console st') = Trace.handlerCalls (Index.console st).
Proof.
  unfold Index.processOptionValue. destruct (splitInlineValue token) as [name inline].
  destruct (truthy (table !! name)) as [key|];
    [|intros [= <- <-]; rewrite Index_reportError_calls; reflexivity].
  destruct (getProperty shape key) as [ft|];
    [|intros [= <- <-]; rewrite Index_reportError_calls; reflexivity].
  destruct (isBooleanType (Some ft)); [intros [= <- <-]; reflexivity|].
  destruct (isArrayType (Some ft)); [intros [= <- <-]; reflexivity|].
  destruct (truthy inline) as [v|]; [intros [= <- <-]; reflexivity|].
  destruct (args !! (n + 1)) as [next|];
    [|intros [= <- <-]; rewrite Index_reportError_calls; reflexivity].
  destruct (startsWith next "-"); intros [= <- <-];
    [rewrite Index_reportError_calls; reflexivity|reflexivity].
Qed.

Lemma Index_combinedFlags_calls args table shape flags st :
  Trace.handlerCalls (Index.console (Index.combinedFlags args table shape flags st))
  = Trace.handlerCalls (Index.console st).
Proof.
  revert st. induction flags as [|flag flags IH]; intros st; cbn [Index.combinedFlags];
    [reflexivity|].
  destruct (Index.processOptionValue _ args (Index.i st - 1) table shape st)
    as [[key ft value newIndex|newIndex] st1] eqn:Hoption;
    apply Index_processOptionValue_calls in Hoption; [|exact Hoption].
  destruct (isBooleanType (Some ft)); [rewrite IH; exact Hoption|].
  destruct (args !! Index.i st1) as [val|];
    [|rewrite Index_reportError_calls; exact Hoption].
  destruct (startsWith val "-"); [rewrite Index_reportError_calls; exact Hoption|].
  rewrite IH. exact Hoption.
Qed.

Lemma Index_loopBody_calls args shape table token st :
  match Index.loopBody args shape table token st with
  | Index.Continue st' | Index.ReturnNull st' =>
      Trace.handlerCalls (Index.console st') = Trace.handlerCalls (Index.console st)
  end.
Proof.
  unfold Index.loopBody. destruct (startsWith token "--").
  - destruct (Index.processOptionValue token args (Index.i st) table shape st)
      as [[key ft value newIndex|newIndex] st1] eqn:Hoption;
      apply Index_processOptionValue_calls in Hoption; [|exact Hoption].
    destruct (isBooleanType (Some ft)); [exact Hoption|].
    destruct (isArrayType (Some ft)); exact Hoption.
  - destruct (startsWith token "-" && Nat.ltb 2 (String.length token)).
    + cbn [Index.setIndex Index.console]. unfold Index.processCombinedShortFlags.
      rewrite Index_combinedFlags_calls. reflexivity.
    + apply Index_reportError_calls.
Qed.

Lemma Index_scan_calls args shape table fuel st result :
  Index.scan fuel args shape table st = Some result ->
  match result with
  | Index.Continue st' | Index.ReturnNull st' =>
      Trace.handlerCalls (Index.console st') = Trace.handlerCalls (Index.console st)
  end.
Proof.
  revert st. induction fuel as [|fuel IH]; intros st; [discriminate|].
  cbn [Index.scan]. destruct (args !! Index.i st) as [arg|]; [|intros [= <-]; reflexivity].
  pose proof (Index_loopBody_calls args shape table arg st) as Hturn.
  destruct (Index.loopBody args shape table arg st) as [st1|st1].
  - intros Hrest. apply IH in Hrest. cbn [Index.setIndex Index.console] in Hrest.
    destruct result; congruence.
  - intros [= <-]. exact Hturn.
Qed.

(** What [processArguments] returns. *)
Lemma Index_processArguments_result (this this' : Index.Zli) (args : list string)
    (schema : ZodTypeAny) (out : list Event) (parsed : option Data) :
  Index.processArguments this args schema = Some (Normal (this', out, parsed)) ->
  Trace.handlerCalls out = []
  /\ match parsed with
     | Some data => exists record, safeParse schema record = SafeParseSuccess data
     | None => True
     end.
Proof.
  unfold Index.processArguments.
  destruct (Index.resolveSchema schema) as [schemaObject|e]; [|discriminate].
  destruct (Index.scan _ args _ _ _) as [[st|st]|] eqn:Hscan; [| |discriminate];
    apply Index_scan_calls in Hscan; cbn [Index.console] in Hscan.
  - destruct (safeParse schema (Index.parsedArgs st)) as [data|issues] eqn:Hsafe;
      intros [= <- <- <-].
    + split; [exact Hscan|]. exists (Index.parsedArgs st). exact Hsafe.
    + split; [|exact I]. rewrite handlerCalls_app, Hscan. reflexivity.
  - intros [= <- <- <-]. split; [exact Hscan|exact I].
Qed.

Lemma Index_displayHelpForCommand_calls (commandName : string) (schema : ZodTypeAny)
    (help : list Event) :
  Index.displayHelpForCommand commandName schema = Normal help ->
  Trace.handlerCalls help = [].
Proof.
  unfold Index.displayHelpForCommand.
  destruct (Index.resolveSchema schema) as [schemaObject|e]; [|discriminate].
  intros [= <-]. reflexivity.
Qed.

Lemma runHandler_calls_Index (commandName : string) (cmd : Index.CommandDefinition)
    (data : Data) :
  Trace.handlerCalls (fst (Index.runHandler commandName cmd data)) = [(commandName, data)].
Proof.
  unfold Index.runHandler. destruct (Index.handler cmd data) as [|[message|]]; reflexivity.
Qed.

(** X11: the same in [index.ts], where a command answers to its name
    only. *)
Theorem Index_handler_gets_validated_data (this this' : Index.Zli)
    (args : list string) (trace : list Event) (completion : Completion unit) :
  Index.parse this args = Some (this', trace, completion) ->
  Trace.handlerCalls trace = []
  \/ exists options cmd record data commandName,
       args = commandName :: options
       /\ Index.findCommand this commandName = Some (commandName, cmd)
       /\ Array_includes options "--help" = false
       /\ safeParse (Index.schema cmd) record = SafeParseSuccess data
       /\ Trace.handlerCalls trace = [(commandName, data)].
Proof.
  unfold Index.parse. destruct args as [|subcommand options].
  { intros [= <- <- <-]. left. reflexivity. }
  destruct (Index.findCommand this subcommand) as [[commandName cmd]|] eqn:Hfind.
  2:{ destruct (String.eqb subcommand "--help"); intros [= <- <- <-]; left; reflexivity. }
  assert (Hname : commandName = subcommand).
  { unfold Index.findCommand in Hfind. apply find_some in Hfind as [_ Hmatch].
    unfold Array_includes in Hmatch. cbn [existsb] in Hmatch.
    rewrite orb_false_r in Hmatch. apply String.eqb_eq in Hmatch. congruence. }
  subst commandName.
  destruct (Array_includes options "--help") eqn:Hhelp.
  { destruct (Index.displayHelpForCommand subcommand (Index.schema cmd)) as [out|e] eqn:Hout;
      intros [= <- <- <-]; left; [|reflexivity].
    exact (Index_displayHelpForCommand_calls _ _ _ Hout). }
  destruct (Index.processArguments this options (Index.schema cmd))
    as [[[[this1 out] parsed]|e]|] eqn:Hparsed; [| |discriminate].
  2:{ intros [= <- <- <-]. left. reflexivity. }
  apply Index_processArguments_result in Hparsed as [Hout Hdata].
  assert (Hnull : forall this2 trace completion,
             (if Index.shouldDisplayHelp this1
              then match Index.displayHelpForCommand subcommand (Index.schema cmd) with
                   | Throw e => Some (this1, out, Throw e)
                   | Normal help => Some (this1, (out ++ help)%list, Normal tt)
                   end
              else Some (this1, out, Normal tt)) = Some (this2, trace, completion) ->
             Trace.handlerCalls trace = []).
  { intros this2 trace' completion'.
    destruct (Index.shouldDisplayHelp this1); [|intros [= <- <- <-]; exact Hout].
    destruct (Index.displayHelpForCommand subcommand (Index.schema cmd)) as [help|e] eqn:Hcmd;
      intros [= <- <- <-]; [|exact Hout].
    rewrite handlerCalls_app, Hout, (Index_displayHelpForCommand_calls _ _ _ Hcmd).
    reflexivity. }
  destruct parsed as [data|]; [|intros Hend; left; exact (Hnull _ _ _ Hend)].
  destruct (Data_truthy data); [|intros Hend; left; exact (Hnull _ _ _ Hend)].
  destruct Hdata as [record Hsafe].
  pose proof (runHandler_calls_Index subcommand cmd data) as Hcalls.
  destruct (Index.runHandler subcommand cmd data) as [events completion'].
  intros [= <- <- <-]. right.
  exists options, cmd, record, data, subcommand.
  repeat split; try assumption.
  rewrite handlerCalls_app, Hout. exact Hcalls.
Qed.

End HandlerCalls.

Lemma V1_handler_gets_validated_data_witness :
  ZliV1.parse Examples.verboseV1 ["test"; "--verbose"]
  = Some (Scenarios.verboseCall, Normal tt)
  /\ (Trace.handlerCalls Scenarios.verboseCall = []
      \/ exists subcommand options commandName cmd record data,
           ["test"; "--verbose"] = subcommand :: options
           /\ ZliV1.findCommand Examples.verboseV1 subcommand = Some (commandName, cmd)
           /\ Array_includes options "--help" = false
           /\ safeParse (ZliV1.schema cmd) record = SafeParseSuccess data
           /\ Trace.handlerCalls Scenarios.verboseCall = [(commandName, data)]).
Proof.
  split; [reflexivity|].
  apply (V1_handler_gets_validated_data Examples.verboseV1 ["test"; "--verbose"]
           Scenarios.verboseCall (Normal tt)).
  reflexivity.
Defined.

Lemma V2_handler_gets_validated_data_witness :
  ZliV2.parse Examples.verboseV2 ["test"; "--verbose"]
  = Some (Examples.verboseV2, Scenarios.verboseCall, Normal tt)
  /\ (Trace.handlerCalls Scenarios.verboseCall = []
      \/ exists subcommand options commandName cmd record data,
           ["test"; "--verbose"] = subcommand :: options
           /\ ZliV2.findCommand Examples.verboseV2 subcommand = Some (commandName, cmd)
           /\ Array_includes options "--help" = false
           /\ safeParse (ZliV2.schema cmd) record = SafeParseSuccess data
           /\ Trace.handlerCalls Scenarios.verboseCall = [(commandName, data)]).
Proof.
  split; [reflexivity|].
  apply (V2_handler_gets_validated_data 2 Examples.verboseV2 Examples.verboseV2
           ["test"; "--verbose"] Scenarios.verboseCall (Normal tt)).
  reflexivity.
Defined.

Lemma Index_handler_gets_validated_data_witness :
  Index.parse Examples.verboseIndex ["test"; "--verbose"]
  = Some (Examples.verboseIndex, Scenarios.verboseCall, Normal tt)
  /\ (Trace.handlerCalls Scenarios.verboseCall = []
      \/ exists options cmd record data commandName,
           ["test"; "--verbose"] = commandName :: options
           /\ Index.findCommand Examples.verboseIndex commandName = Some (commandName, cmd)
           /\ Array_includes options "--help" = false
           /\ safeParse (Index.schema cmd) record = SafeParseSuccess data
           /\ Trace.handlerCalls Scenarios.verboseCall = [(commandName, data)]).
Proof.
  split; [reflexivity|].
  apply (Index_handler_gets_validated_data Examples.verboseIndex Examples.verboseIndex
           ["test"; "--verbose"] Scenarios.verboseCall (Normal tt)).
  reflexivity.
Defined.

(** ** The help texts of the two copies of [zli.ts] *)

Section HelpTexts.
Context `{ZodRuntime}.

Lemma accumulated_lines {A} (line : A -> string) (l : list A) (acc : string) :
  fold_left (fun helpMessage x => helpMessage ++ line x ++ newline) l (acc ++ newline)
  = join newline (acc :: map line l) ++ newline.
Proof.
  revert acc. induction l as [|x l IH]; intros acc; [reflexivity|].
  cbn [fold_left map].
  rewrite <- (string_app_assoc (acc ++ newline) (line x) newline), IH.
  rewrite string_app_assoc, join_merge_head. reflexivity.
Qed.

Lemma join_snoc (sep x last : string) (xs : list string) :
  join sep ((x :: xs) ++ [last])%list = join sep (x :: xs) ++ sep ++ last.
Proof.
  revert x. induction xs as [|y xs IH]; intros x; [reflexivity|].
  change ((x :: y :: xs) ++ [last])%list with (x :: ((y :: xs) ++ [last]))%list.
  change (join sep (x :: ((y :: xs) ++ [last]))%list)
    with (x ++ sep ++ join sep ((y :: xs) ++ [last])%list).
  rewrite IH, join_cons_cons, !string_app_assoc. reflexivity.
Qed.

Lemma fold_left_pointwise {A B} (f g : A -> B -> A) (l : list B) (a : A) :
  (forall a x, f a x = g a x) -> fold_left f l a = fold_left g l a.
Proof.
  intros Hfg. revert a. induction l as [|x l IH]; intros a; [reflexivity|].
  cbn [fold_left]. rewrite Hfg. apply IH.
Qed.

Lemma logTexts_logs (texts : list string) :
  Trace.logTexts (map ConsoleLog texts) = texts.
Proof.
  induction texts as [|text texts IH]; [reflexivity|].
  change (Trace.logTexts (map ConsoleLog (text :: texts)))
    with (text :: Trace.logTexts (map ConsoleLog texts)).
  rewrite IH. reflexivity.
Qed.

Lemma V1_displayHelp_lines (this : ZliV1.Zli) :
  ZliV1.displayHelp this
  = map ConsoleLog
      (("Available commands:" :: map Trace.commandLine (map Trace.entryV1 (ZliV1.commands this)))
         ++ [(newline ++ "Use --help with a command for more details.")%string])%list.
Proof.
  unfold ZliV1.displayHelp. rewrite map_app. cbn [map app].
  apply (f_equal (cons _)), (f_equal (fun lines => (lines ++ _)%list)).
  rewrite !map_map. apply map_ext. intros [commandName cmd]. reflexivity.
Qed.

Lemma V2_displayHelp_lines (this : ZliV2.Zli) :
  ZliV2.displayHelp this
  = [ConsoleLog
       (join newline
          (("Available commands:" :: map Trace.commandLine (map Trace.entryV2 (ZliV2.commands this)))
             ++ [(newline ++ "Use --help with a command for more details.")%string])%list)].
Proof.
  unfold ZliV2.displayHelp. apply (f_equal (fun text => [ConsoleLog text])).
  rewrite join_snoc, map_map.
  rewrite <- (string_app_assoc (join newline _) newline), <- accumulated_lines.
  apply (f_equal (fun text => text ++ _)).
  apply fold_left_pointwise. intros helpMessage [commandName cmd].
  unfold Trace.commandLine, Trace.entryV2. cbn [fst snd].
  rewrite !string_app_assoc. reflexivity.
Qed.

(** X12: the global help of the two copies of [zli.ts] is the same text.
    For the same commands, with the same aliases and schemas, in the same
    order, the one message that the second copy logs is the lines that
    the first copy logs one by one, joined by line breaks. *)
Theorem global_help_same_text (this1 : ZliV1.Zli) (this2 : ZliV2.Zli) :
  map Trace.entryV1 (ZliV1.commands this1) = map Trace.entryV2 (ZliV2.commands this2) ->
  ZliV2.displayHelp this2
  = [ConsoleLog (join newline (Trace.logTexts (ZliV1.displayHelp this1)))].
Proof.
  intros Hsame. rewrite V2_displayHelp_lines, V1_displayHelp_lines, logTexts_logs.
  rewrite Hsame. reflexivity.
Qed.



End HelpTexts.

Lemma global_help_same_text_witness :
  ZliV2.displayHelp Scenarios.addV2
  = [ConsoleLog (join newline (Trace.logTexts (ZliV1.displayHelp Scenarios.addV1)))].
Proof. apply global_help_same_text. reflexivity. Defined.


(** ** Empty inline values, bare tokens and short tokens *)

Section EdgeTokens.
Context `{ZodRuntime}.

Lemma splitInlineValue_empty (name : string) :
  includes name "=" = false -> splitInlineValue (name ++ "=") = (name, Some "").
Proof. intros Hname. exact (splitInlineValue_one name "" Hname eq_refl). Qed.

(** X14: an empty inline value counts as no value. For an option name
    without [=], the option helpers of the three copies return the same
    for [name=] as for [name]: a boolean field becomes [true], and a
    scalar field takes the next token as its value. *)
Theorem empty_inline_value_is_no_value (name : string) (args : list string)
    (shape : list (string * ZodTypeAny)) (table : gmap string string) (n : nat)
    (st1 : ZliV1.LoopState) (st2 : ZliV2.LoopState) (st3 : Index.LoopState) :
  includes name "=" = false ->
  ZliV1.longOption args shape table (name ++ "=") st1
  = ZliV1.longOption args shape table name st1
  /\ ZliV1.shortOption args shape table (name ++ "=") st1
     = ZliV1.shortOption args shape table name st1
  /\ ZliV2.parseOption (name ++ "=") args n table shape st2
     = ZliV2.parseOption name args n table shape st2
  /\ Index.processOptionValue (name ++ "=") args n table shape st3
     = Index.processOptionValue name args n table shape st3.
Proof.
  intros Hname.
  unfold ZliV1.longOption, ZliV1.shortOption, ZliV2.parseOption, Index.processOptionValue,
    ZliV1.scalarOption.
  rewrite (splitInlineValue_empty _ Hname), (splitInlineValue_plain _ Hname).
  repeat split; reflexivity.
Qed.

Lemma bare_is_not_long (token : string) :
  startsWith token "-" = false -> startsWith token "--" = false.
Proof.
  rewrite startsWith_dash, startsWith_dashes.
  destruct token as [|a [|b token]]; try reflexivity.
  intros ->. reflexivity.
Qed.

(** Over bare tokens only, the scan of the first copy marks every index
    and sets nothing. *)
Lemma V1_scan_bare (args : list string) (shape : list (string * ZodTypeAny))
    (table : gmap string string) (fuel : nat) (st : ZliV1.LoopState) :
  Forall (fun token => startsWith token "-" = false) args ->
  List.length args - ZliV1.i st < fuel ->
  exists st',
    ZliV1.scan fuel args shape table st = Some (ZliV1.Next st')
    /\ ZliV1.parsedArgs st' = ZliV1.parsedArgs st
    /\ forall j, (ZliV1.i st <= j < List.length args \/ j ∈ ZliV1.processedIndices st) ->
                 j ∈ ZliV1.processedIndices st'.
Proof.
  intros Hbare. revert st. induction fuel as [|fuel IH]; intros st Hfuel; [lia|].
  cbn [ZliV1.scan]. destruct (args !! ZliV1.i st) as [token|] eqn:Htoken.
  - assert (Hdash : startsWith token "-" = false).
    { rewrite Forall_forall in Hbare. apply Hbare.
      apply list_elem_of_lookup. eauto. }
    apply lookup_lt_Some in Htoken.
    unfold ZliV1.loopBody. rewrite (bare_is_not_long _ Hdash), Hdash. cbn [andb].
    destruct (IH (ZliV1.mkState (ZliV1.i st + 1) (ZliV1.parsedArgs st)
                    ({[ZliV1.i st]} ∪ ZliV1.processedIndices st)))
      as (st' & Hscan & Hrecord & Hmarked); [cbn [ZliV1.i]; lia|].
    exists st'. split; [exact Hscan|]. split; [exact Hrecord|].
    intros j Hj. apply Hmarked. cbn [ZliV1.i ZliV1.processedIndices].
    destruct (decide (j = ZliV1.i st)) as [->|Hne].
    + right. apply elem_of_union_l, elem_of_singleton. reflexivity.
    + destruct Hj as [Hj|Hj]; [left; lia|right; apply elem_of_union_r; exact Hj].
  - apply lookup_ge_None in Htoken. exists st. split; [reflexivity|].
    split; [reflexivity|]. intros j [Hj|Hj]; [lia|exact Hj].
Qed.

(** X15: the first copy ignores bare tokens. When no option token begins
    with a dash, [parseArgs] reports no unknown argument and validates
    the empty record, as it does for no option token at all. *)
Theorem V1_ignores_bare_tokens (args : list string) (schema : ZodTypeAny) :
  Forall (fun token => startsWith token "-" = false) args ->
  ZliV1.parseArgs args schema = ZliV1.parseArgs [] schema.
Proof.
  intros Hbare. unfold ZliV1.parseArgs.
  destruct (ZliV1.unwrapSchema schema) as [unwrapped|e]; [|reflexivity].
  destruct (V1_scan_bare args (ZliV1.shapeOf unwrapped)
              (ZliV1.buildRecognizedOptions (ZliV1.shapeOf unwrapped))
              (S (List.length args)) (ZliV1.mkState 0 ∅ ∅) Hbare)
    as (st' & -> & Hrecord & Hmarked); [cbn [ZliV1.i]; lia|].
  rewrite unprocessedArgs_none, Hrecord;
    [reflexivity|].
  intros j Hj. apply Hmarked. left. cbn [ZliV1.i]. lia.
Qed.

(** X16: the second copy and [index.ts] reject a bare token. When the
    first option token does not begin with a dash, both report it as an
    unknown argument, ask for the help of the command and return [null]
    without validating anything. *)
Theorem bare_token_is_rejected (this2 : ZliV2.Zli) (this3 : Index.Zli)
    (token : string) (rest : list string) (schema unwrapped : ZodTypeAny) :
  startsWith token "-" = false ->
  ZliV2.unwrapSchema schema = Normal unwrapped ->
  ZliV2.parseArgs this2 (token :: rest) schema
  = Some (Normal (ZliV2.mkZli (ZliV2.commands this2) true,
                  [ConsoleError ("Unknown argument: " ++ token)], None))
  /\ Index.processArguments this3 (token :: rest) schema
     = Some (Normal (Index.mkZli (Index.commands this3) true,
                     [ConsoleError ("Unknown argument: " ++ token)], None)).
Proof.
  intros Hdash Hunwrap. split.
  - unfold ZliV2.parseArgs, ZliV2.parseArgs_fuel. rewrite Hunwrap.
    cbn [ZliV2.scan ZliV2.i lookup list_lookup]. unfold ZliV2.loopBody.
    rewrite (bare_is_not_long _ Hdash), Hdash. reflexivity.
  - unfold Index.processArguments.
    change (Index.resolveSchema schema) with (ZliV2.unwrapSchema schema). rewrite Hunwrap.
    cbn [Index.scan Index.i lookup list_lookup]. unfold Index.loopBody.
    rewrite (bare_is_not_long _ Hdash), Hdash. reflexivity.
Qed.

(** X17: [index.ts] has no branch for a single short option. A first
    option token of at most two characters that does not begin with
    [--], such as the token [-n] of a one-character alias, is reported as
    an unknown argument, whatever the schema declares. *)
Theorem Index_rejects_short_tokens (this : Index.Zli) (token : string)
    (rest : list string) (schema unwrapped : ZodTypeAny) :
  startsWith token "--" = false ->
  String.length token <= 2 ->
  Index.resolveSchema schema = Normal unwrapped ->
  Index.processArguments this (token :: rest) schema
  = Some (Normal (Index.mkZli (Index.commands this) true,
                  [ConsoleError ("Unknown argument: " ++ token)], None)).
Proof.
  intros Hlong Hlen Hunwrap. unfold Index.processArguments. rewrite Hunwrap.
  cbn [Index.scan Index.i lookup list_lookup]. unfold Index.loopBody.
  rewrite Hlong. apply Nat.ltb_ge in Hlen. rewrite Hlen, andb_false_r. reflexivity.
Qed.

End EdgeTokens.

Lemma empty_inline_value_is_no_value_witness :
  ZliV2.parseOption "--name=" ["--name="; "Alice"] 0
    (ZliV2.buildRecognizedOptions (ZliV2.shapeOf Examples.nameSchema))
    (ZliV2.shapeOf Examples.nameSchema) (ZliV2.mkState 0 ∅ ∅ false [])
  = (ZliV2.OptionSuccess "name" (ZodString noDef) (Some "Alice") 2,
     ZliV2.mkState 0 ∅ ({[1]} ∪ ({[0]} ∪ ∅)) false []).
Proof.
  destruct (empty_inline_value_is_no_value "--name" ["--name="; "Alice"]
              (ZliV2.shapeOf Examples.nameSchema)
              (ZliV2.buildRecognizedOptions (ZliV2.shapeOf Examples.nameSchema)) 0
              (ZliV1.mkState 0 ∅ ∅) (ZliV2.mkState 0 ∅ ∅ false [])
              (Index.mkState 0 ∅ ∅ false []) eq_refl)
    as (_ & _ & Hoption & _).
  exact (eq_trans Hoption eq_refl).
Defined.

Lemma V1_ignores_bare_tokens_witness :
  ZliV1.parseArgs ["extra"; "more"] Examples.verboseSchema
  = ZliV1.parseArgs [] Examples.verboseSchema.
Proof.
  apply V1_ignores_bare_tokens. repeat constructor.
Defined.

Lemma bare_token_is_rejected_witness :
  ZliV2.parseArgs Examples.verboseV2 ["extra"; "--verbose"] Examples.verboseSchema
  = Some (Normal (ZliV2.mkZli (ZliV2.commands Examples.verboseV2) true,
                  [ConsoleError "Unknown argument: extra"], None))
  /\ Index.processArguments Examples.verboseIndex ["extra"; "--verbose"]
       Examples.verboseSchema
     = Some (Normal (Index.mkZli (Index.commands Examples.verboseIndex) true,
                     [ConsoleError "Unknown argument: extra"], None)).
Proof.
  apply (bare_token_is_rejected Examples.verboseV2 Examples.verboseIndex "extra"
           ["--verbose"] Examples.verboseSchema Examples.verboseSchema);
    reflexivity.
Defined.

Lemma Index_rejects_short_tokens_witness :
  Index.processArguments Scenarios.addIndex [alias_token "n"; "Alice"] Examples.userSchema
  = Some (Normal (Index.mkZli (Index.commands Scenarios.addIndex) true,
                  [ConsoleError "Unknown argument: -n"], None)).
Proof.
  apply (Index_rejects_short_tokens Scenarios.addIndex (alias_token "n") ["Alice"]
           Examples.userSchema Examples.userSchema); [reflexivity|apply Nat.leb_le; reflexivity|reflexivity].
Defined.

(** ** Values after combined flags and after array options *)

Section TakenValues.
Context `{ZodRuntime}.

(** In the first copy, the boolean flags of a combined token leave the
    index and the processed indices as they are. *)
Lemma V1_combinedFlags_booleans args shape table bools rest st :
  Forall (fun flag => exists key, Spec.isBooleanFlag table shape flag key) bools ->
  exists record,
    ZliV1.combinedFlags args shape table (bools ++ rest)%list st
    = ZliV1.combinedFlags args shape table rest
        (ZliV1.mkState (ZliV1.i st) record (ZliV1.processedIndices st)).
Proof.
  intros Hbools. revert st. induction Hbools as [|flag bools [key Hflag] _ IH]; intros st.
  - exists (ZliV1.parsedArgs st). destruct st. reflexivity.
  - cbn [app]. rewrite (V1_combinedFlags_flag _ _ _ _ _ _ _ Hflag).
    destruct (IH (ZliV1.mkState (ZliV1.i st)
                    (<[key := JsBoolean true]> (ZliV1.parsedArgs st))
                    (ZliV1.processedIndices st))) as [record Hrest].
    exists record. exact Hrest.
Qed.

(** X18: in the first copy, a combined token whose last flag takes the
    next token as its value is always refused. The flags are set and the
    value is marked as processed, but the index of the combined token
    itself is not, since [i] has moved on to the value by then; so
    [parseArgs] reports the combined token as an unknown argument. *)
Theorem V1_combined_value_flag_is_refused (token value : string) (bools : list ascii)
    (flag : ascii) (key : string) (schema unwrapped : ZodTypeAny) :
  ZliV1.unwrapSchema schema = Normal unwrapped ->
  startsWith token "--" = false ->
  startsWith token "-" = true ->
  2 < String.length token ->
  chars (slice1 token) = (bools ++ [flag])%list ->
  Forall (fun b =>
            exists k, Spec.isBooleanFlag
                        (ZliV1.buildRecognizedOptions (ZliV1.shapeOf unwrapped))
                        (ZliV1.shapeOf unwrapped) b k) bools ->
  truthy (ZliV1.buildRecognizedOptions (ZliV1.shapeOf unwrapped) !! Spec.flagToken flag)
  = Some key ->
  isBooleanType (getProperty (ZliV1.shapeOf unwrapped) key) = false ->
  startsWith value "-" = false ->
  ZliV1.parseArgs [token; value] schema
  = Some (Normal ([ConsoleError ("Unknown argument: " ++ token)], None)).
Proof.
  intros Hunwrap Hlong Hdash Hlen Hflags Hbools Hkey Hscalar Hvalue.
  unfold ZliV1.parseArgs. rewrite Hunwrap.
  cbn [List.length ZliV1.scan ZliV1.i lookup list_lookup].
  unfold ZliV1.loopBody. apply Nat.ltb_lt in Hlen. rewrite Hlong, Hdash, Hlen. cbn [andb].
  rewrite Hflags.
  destruct (V1_combinedFlags_booleans [token; value] (ZliV1.shapeOf unwrapped)
              (ZliV1.buildRecognizedOptions (ZliV1.shapeOf unwrapped)) bools [flag]
              (ZliV1.mkState 0 ∅ ∅) Hbools) as [record ->].
  cbn [ZliV1.combinedFlags ZliV1.i ZliV1.parsedArgs ZliV1.processedIndices].
  change ("-" ++ String flag "") with (Spec.flagToken flag).
  rewrite Hkey, Hscalar.
  cbn [Nat.add lookup list_lookup]. rewrite Hvalue.
  cbn [ZliV1.i ZliV1.parsedArgs ZliV1.processedIndices Nat.add lookup list_lookup].
  reflexivity.
Qed.

Lemma long_is_dash (token : string) :
  startsWith token "--" = true -> startsWith token "-" = true.
Proof.
  rewrite startsWith_dashes, startsWith_dash.
  destruct token as [|a [|b token]]; try discriminate.
  intros [Ha _]%andb_true_iff. exact Ha.
Qed.

(** X19: in [index.ts] an array option takes no values. The values are
    collected from the index of the option token itself, which begins
    with a dash, so the field is set to the empty array and the index
    stays; a bare token that follows the option is then reported as an
    unknown argument. *)
Theorem Index_array_option_takes_no_values (this : Index.Zli) (token v : string)
    (rest : list string) (schema unwrapped : ZodTypeAny) (name : string)
    (value : option string) (key : string) (fieldType : ZodTypeAny) :
  Index.resolveSchema schema = Normal unwrapped ->
  startsWith token "--" = true ->
  Spec.resolvesTo (Index.buildOptionAliasMap (Index.shapeOf unwrapped))
    (Index.shapeOf unwrapped) token name value key fieldType ->
  isArrayType (Some fieldType) = true ->
  startsWith v "-" = false ->
  Index.loopBody (token :: v :: rest) (Index.shapeOf unwrapped)
    (Index.buildOptionAliasMap (Index.shapeOf unwrapped)) token
    (Index.mkState 0 ∅ ∅ (Index.shouldDisplayHelp this) [])
  = Index.Continue (Index.mkState 0 (<[key := JsArray []]> ∅) ({[0]} ∪ ∅)
                      (Index.shouldDisplayHelp this) [])
  /\ Index.processArguments this (token :: v :: rest) schema
     = Some (Normal (Index.mkZli (Index.commands this) true,
                     [ConsoleError ("Unknown argument: " ++ v)], None)).
Proof.
  intros Hunwrap Hlong (Hsplit & Hkey & Hfield) Harray Hvalue.
  assert (Hturn : Index.loopBody (token :: v :: rest) (Index.shapeOf unwrapped)
                    (Index.buildOptionAliasMap (Index.shapeOf unwrapped)) token
                    (Index.mkState 0 ∅ ∅ (Index.shouldDisplayHelp this) [])
                  = Index.Continue (Index.mkState 0 (<[key := JsArray []]> ∅) ({[0]} ∪ ∅)
                                      (Index.shouldDisplayHelp this) [])).
  { unfold Index.loopBody, Index.processOptionValue.
    rewrite Hlong, Hsplit, Hkey, Hfield, (array_is_not_boolean _ Harray), Harray.
    rewrite (array_is_not_boolean _ Harray), Harray.
    cbn [truthy Index.addProcessed Index.i]. unfold Index.processArrayArgs.
    cbn [drop Index.processArrayArgs_from]. rewrite (long_is_dash _ Hlong). reflexivity. }
  split; [exact Hturn|].
  unfold Index.processArguments. rewrite Hunwrap.
  cbn [List.length Index.scan Index.i lookup list_lookup]. rewrite Hturn.
  cbn [Index.setIndex Index.i Nat.add lookup list_lookup Index.parsedArgs
         Index.processedIndices Index.this_shouldDisplayHelp Index.console].
  unfold Index.loopBody. rewrite (bare_is_not_long _ Hvalue), Hvalue. reflexivity.
Qed.

End TakenValues.

Lemma V1_combined_value_flag_is_refused_witness :
  ZliV1.parseArgs ["-vn"; "Alice"] Examples.userSchema
  = Some (Normal ([ConsoleError "Unknown argument: -vn"], None)).
Proof.
  apply (V1_combined_value_flag_is_refused "-vn" "Alice" ["v"%char] "n"%char "name"
           Examples.userSchema Examples.userSchema);
    try reflexivity.
  - apply Nat.ltb_lt. reflexivity.
  - repeat constructor. exists "verbose", (aliases (ZodOptional noDef (ZodBoolean noDef)) ["v"]).
    repeat split.
Defined.

Lemma Index_array_option_takes_no_values_witness :
  Index.loopBody ["--tags"; "tag1"; "tag2"] (Index.shapeOf Examples.tagsSchema)
    (Index.buildOptionAliasMap (Index.shapeOf Examples.tagsSchema)) "--tags"
    (Index.mkState 0 ∅ ∅ (Index.shouldDisplayHelp Scenarios.tagsIndex) [])
  = Index.Continue (Index.mkState 0 (<["tags" := JsArray []]> ∅) ({[0]} ∪ ∅)
                      (Index.shouldDisplayHelp Scenarios.tagsIndex) [])
  /\ Index.processArguments Scenarios.tagsIndex ["--tags"; "tag1"; "tag2"]
       Examples.tagsSchema
     = Some (Normal (Index.mkZli (Index.commands Scenarios.tagsIndex) true,
                     [ConsoleError "Unknown argument: tag1"], None)).
Proof.
  apply (Index_array_option_takes_no_values Scenarios.tagsIndex "--tags" "tag1" ["tag2"]
           Examples.tagsSchema Examples.tagsSchema "--tags" None "tags"
           (ZodArray noDef (ZodString noDef)));
    try reflexivity.
  repeat split.
Defined.

(** ** What the tables and the records hold *)

Section Contents.
Context `{ZodRuntime}.

Lemma foldV2_origin (shape : list (string * ZodTypeAny)) (tok key : string)
    (m : gmap string string) :
  fold_left Spec.stepV2 shape m !! tok = Some key ->
  m !! tok = Some key
  \/ exists field, (key, field) ∈ shape /\ tok ∈ Spec.tokensV2 (key, field).
Proof.
  revert m. induction shape as [|[k f] shape IH]; intros m Hlookup; [left; exact Hlookup|].
  cbn [fold_left] in Hlookup. apply IH in Hlookup as [Hstep|(field & Hin & Htok)].
  - rewrite stepV2_lookup in Hstep.
    destruct (decide (tok ∈ Spec.tokensV2 (k, f))) as [Htok|_]; [|left; exact Hstep].
    injection Hstep as <-. right. exists f. split; [left|exact Htok].
  - right. exists field. split; [right; exact Hin|exact Htok].
Qed.

(** X20: every entry of an alias table belongs to a field of the schema.
    A name that the table of the first copy resolves to [key] is [--key]
    or an alias of a field declared under [key]; in the table of the
    second copy and of [index.ts] it can also be [-key]. So the lookup
    of the field type by the resolved key always finds a field. *)
Theorem recognized_options_belong_to_fields (shape : list (string * ZodTypeAny))
    (name key : string) :
  (ZliV1.buildRecognizedOptions shape !! name = Some key ->
   exists field, (key, field) ∈ shape /\ name ∈ Spec.tokensV1 (key, field))
  /\ (ZliV2.buildRecognizedOptions shape !! name = Some key ->
      exists field, (key, field) ∈ shape /\ name ∈ Spec.tokensV2 (key, field))
  /\ (Index.buildOptionAliasMap shape !! name = Some key ->
      exists field, (key, field) ∈ shape /\ name ∈ Spec.tokensV2 (key, field))
  /\ ((exists field, (key, field) ∈ shape) ->
      exists fieldType, getProperty shape key = Some fieldType).
Proof.
  split; [|split; [|split]].
  - rewrite V1_table_fold. intros [Hempty|(field & Hin & Htok)]%foldV1_origin.
    + rewrite lookup_empty in Hempty. discriminate.
    + exists field. split; [exact Hin|]. unfold Spec.tokensV1. cbn [fst snd].
      destruct Htok as [->|Htok]; [left|right; exact Htok].
  - rewrite V2_table_fold. intros [Hempty|Hfield]%foldV2_origin; [|exact Hfield].
    rewrite lookup_empty in Hempty. discriminate.
  - rewrite Index_table, V2_table_fold.
    intros [Hempty|Hfield]%foldV2_origin; [|exact Hfield].
    rewrite lookup_empty in Hempty. discriminate.
  - intros [field Hin]. exact (getProperty_elem _ _ _ Hin).
Qed.

Lemma onlyDeclared_empty (shape : list (string * ZodTypeAny)) :
  Trace.onlyDeclared shape ∅.
Proof. intros k [v Hv]. rewrite lookup_empty in Hv. discriminate. Qed.

Lemma onlyDeclared_insert (shape : list (string * ZodTypeAny))
    (record : gmap string JsValue) (key : string) (v : JsValue) :
  is_Some (getProperty shape key) ->
  Trace.onlyDeclared shape record ->
  Trace.onlyDeclared shape (<[key := v]> record).
Proof.
  intros Hkey Hrecord k. destruct (decide (key = k)) as [<-|Hne]; [intros _; exact Hkey|].
  rewrite lookup_insert_ne by exact Hne. apply Hrecord.
Qed.

(** The first copy: every turn sets fields of the schema only. *)
Lemma V1_scalarOption_declared shape args arg value key st st' :
  is_Some (getProperty shape key) ->
  Trace.onlyDeclared shape (ZliV1.parsedArgs st) ->
  ZliV1.scalarOption args arg value key (getProperty shape key) st = ZliV1.Next st' ->
  Trace.onlyDeclared shape (ZliV1.parsedArgs st').
Proof.
  intros Hkey Hrecord. unfold ZliV1.scalarOption. destruct (truthy value) as [v|].
  - intros [= <-]. apply onlyDeclared_insert; assumption.
  - destruct (args !! (ZliV1.i st + 1)) as [next|]; [|discriminate].
    destruct (startsWith next "-"); [discriminate|].
    intros [= <-]. apply onlyDeclared_insert; assumption.
Qed.

Lemma V1_table_declared shape name key :
  truthy (ZliV1.buildRecognizedOptions shape !! name) = Some key ->
  is_Some (getProperty shape key).
Proof. intros Hkey. destruct (V1_table_keys _ _ _ Hkey) as [ft Hft]. eauto. Qed.

Lemma V1_combinedFlags_declared shape args flags st st' :
  Trace.onlyDeclared shape (ZliV1.parsedArgs st) ->
  ZliV1.combinedFlags args shape (ZliV1.buildRecognizedOptions shape) flags st
  = ZliV1.Next st' ->
  Trace.onlyDeclared shape (ZliV1.parsedArgs st').
Proof.
  revert st. induction flags as [|flag flags IH]; intros st Hrecord;
    cbn [ZliV1.combinedFlags]; [intros [= <-]; exact Hrecord|].
  destruct (truthy (ZliV1.buildRecognizedOptions shape !! _)) as [key|] eqn:Hkey;
    [|discriminate].
  apply V1_table_declared in Hkey.
  destruct (isBooleanType (getProperty shape key)).
  - apply IH. apply onlyDeclared_insert; assumption.
  - destruct (args !! (ZliV1.i st + 1)) as [value|]; [|discriminate].
    destruct (startsWith value "-"); [discriminate|].
    apply IH. apply onlyDeclared_insert; assumption.
Qed.

Lemma V1_loopBody_declared shape args token st st' :
  Trace.onlyDeclared shape (ZliV1.parsedArgs st) ->
  ZliV1.loopBody args shape (ZliV1.buildRecognizedOptions shape) token st = ZliV1.Next st' ->
  Trace.onlyDeclared shape (ZliV1.parsedArgs st').
Proof.
  intros Hrecord. unfold ZliV1.loopBody. destruct (startsWith token "--").
  - unfold ZliV1.longOption. destruct (splitInlineValue token) as [name value].
    destruct (truthy (ZliV1.buildRecognizedOptions shape !! name)) as [key|] eqn:Hkey;
      [|discriminate].
    apply V1_table_declared in Hkey.
    cbn [ZliV1.i ZliV1.parsedArgs ZliV1.processedIndices].
    destruct (isBooleanType (getProperty shape key)).
    { intros [= <-]. apply onlyDeclared_insert; assumption. }
    destruct (isArrayType (getProperty shape key)).
    { destruct (consumeArrayValues _ _ _ _) as [[values i'] processed].
      intros [= <-]. apply onlyDeclared_insert; assumption. }
    apply V1_scalarOption_declared; assumption.
  - destruct (startsWith token "-" && Nat.ltb 2 (String.length token)).
    + destruct (ZliV1.combinedFlags args shape _ _ st) as [st1|e] eqn:Hflags; [|discriminate].
      apply V1_combinedFlags_declared in Hflags; [|exact Hrecord].
      intros [= <-]. exact Hflags.
    + destruct (startsWith token "-").
      * unfold ZliV1.shortOption. destruct (splitInlineValue token) as [name value].
        destruct (truthy (ZliV1.buildRecognizedOptions shape !! name)) as [key|] eqn:Hkey;
          [|discriminate].
        apply V1_table_declared in Hkey.
        cbn [ZliV1.i ZliV1.parsedArgs ZliV1.processedIndices].
        destruct (isBooleanType (getProperty shape key)).
        { intros [= <-]. apply onlyDeclared_insert; assumption. }
        apply V1_scalarOption_declared; assumption.
      * intros [= <-]. exact Hrecord.
Qed.

Lemma V1_scan_declared shape args fuel st st' :
  Trace.onlyDeclared shape (ZliV1.parsedArgs st) ->
  ZliV1.scan fuel args shape (ZliV1.buildRecognizedOptions shape) st
  = Some (ZliV1.Next st') ->
  Trace.onlyDeclared shape (ZliV1.parsedArgs st').
Proof.
  revert st. induction fuel as [|fuel IH]; intros st Hrecord; [discriminate|].
  cbn [ZliV1.scan]. destruct (args !! ZliV1.i st) as [arg|];
    [|intros [= <-]; exact Hrecord].
  destruct (ZliV1.loopBody args shape _ arg st) as [st1|e] eqn:Hturn; [|discriminate].
  apply IH. exact (V1_loopBody_declared _ _ _ _ _ Hrecord Hturn).
Qed.

(** The second copy, for any table: [parseOption] looks the field up. *)
Lemma V2_parseOption_declared token args n table shape st result st' :
  ZliV2.parseOption token args n table shape st = (result, st') ->
  ZliV2.parsedArgs st' = ZliV2.parsedArgs st
  /\ match result with
     | ZliV2.OptionSuccess key _ _ _ => is_Some (getProperty shape key)
     | ZliV2.OptionFailure _ => True
     end.
Proof.
  unfold ZliV2.parseOption. destruct (splitInlineValue token) as [name inline].
  destruct (truthy (table !! name)) as [key|]; [|intros [= <- <-]; split; [reflexivity|exact I]].
  destruct (getProperty shape key) as [ft|] eqn:Hfield;
    [|intros [= <- <-]; split; [reflexivity|exact I]].
  assert (Hkey : is_Some (getProperty shape key)) by (rewrite Hfield; eauto).
  destruct (isBooleanType (Some ft)); [intros [= <- <-]; split; [reflexivity|exact Hkey]|].
  destruct (isArrayType (Some ft)); [intros [= <- <-]; split; [reflexivity|exact Hkey]|].
  destruct (truthy inline) as [v|]; [intros [= <- <-]; split; [reflexivity|exact Hkey]|].
  destruct (args !! (n + 1)) as [next|]; [|intros [= <- <-]; split; [reflexivity|exact I]].
  destruct (startsWith next "-"); intros [= <- <-]; split;
    try reflexivity; try exact I; exact Hkey.
Qed.

Lemma V2_combinedFlags_declared shape table args flags st st' :
  Trace.onlyDeclared shape (ZliV2.parsedArgs st) ->
  ZliV2.combinedFlags args shape table flags st = ZliV2.Next st' ->
  Trace.onlyDeclared shape (ZliV2.parsedArgs st').
Proof.
  revert st. induction flags as [|flag flags IH]; intros st Hrecord;
    cbn [ZliV2.combinedFlags]; [intros [= <-]; exact Hrecord|].
  destruct (ZliV2.parseOption _ args (ZliV2.i st - 1) table shape st)
    as [[key ft value newIndex|newIndex] st1] eqn:Hoption; [|discriminate].
  apply V2_parseOption_declared in Hoption as [Hsame Hkey]. rewrite <- Hsame in Hrecord.
  destruct (isBooleanType (Some ft)).
  - apply IH. apply onlyDeclared_insert; assumption.
  - destruct (args !! ZliV2.i st1) as [val|]; [|discriminate].
    destruct (startsWith val "-"); [discriminate|].
    apply IH. apply onlyDeclared_insert; assumption.
Qed.

Lemma V2_loopBody_declared shape table args token st st' :
  Trace.onlyDeclared shape (ZliV2.parsedArgs st) ->
  ZliV2.loopBody args shape table token st = ZliV2.Next st' ->
  Trace.onlyDeclared shape (ZliV2.parsedArgs st').
Proof.
  intros Hrecord. unfold ZliV2.loopBody. destruct (startsWith token "--").
  - unfold ZliV2.longOption.
    destruct (ZliV2.parseOption token args (ZliV2.i st) table shape st)
      as [[key ft value newIndex|newIndex] st1] eqn:Hoption; [|discriminate].
    apply V2_parseOption_declared in Hoption as [Hsame Hkey]. rewrite <- Hsame in Hrecord.
    destruct (isBooleanType (Some ft)).
    { intros [= <-]. apply onlyDeclared_insert; assumption. }
    destruct (isArrayType (Some ft)).
    { destruct (truthy value) as [v|].
      - intros [= <-]. apply onlyDeclared_insert; assumption.
      - destruct (consumeArrayValues _ _ _ _) as [[values i'] processed].
        intros [= <-]. apply onlyDeclared_insert; assumption. }
    intros [= <-]. apply onlyDeclared_insert; assumption.
  - cbn [negb andb]. rewrite andb_true_r.
    destruct (startsWith token "-" && Nat.ltb 2 (String.length token)).
    + apply V2_combinedFlags_declared. exact Hrecord.
    + destruct (startsWith token "-"); [|discriminate].
      unfold ZliV2.shortOption.
      destruct (ZliV2.parseOption token args (ZliV2.i st) table shape st)
        as [[key ft value newIndex|newIndex] st1] eqn:Hoption; [|discriminate].
      apply V2_parseOption_declared in Hoption as [Hsame Hkey]. rewrite <- Hsame in Hrecord.
      destruct (isBooleanType (Some ft));
        intros [= <-]; apply onlyDeclared_insert; assumption.
Qed.

Lemma V2_scan_declared shape table args fuel st st' :
  Trace.onlyDeclared shape (ZliV2.parsedArgs st) ->
  ZliV2.scan fuel args shape table st = Some (ZliV2.Next st') ->
  Trace.onlyDeclared shape (ZliV2.parsedArgs st').
Proof.
  revert st. induction fuel as [|fuel IH]; intros st Hrecord; [discriminate|].
  cbn [ZliV2.scan]. destruct (args !! ZliV2.i st) as [arg|];
    [|intros [= <-]; exact Hrecord].
  destruct (ZliV2.loopBody args shape table arg st) as [st1|st1] eqn:Hturn; [|discriminate].
  apply IH. exact (V2_loopBody_declared _ _ _ _ _ _ Hrecord Hturn).
Qed.

(** X21: in the first copy, the record that is validated has declared
    keys only. Whenever [parseArgs] returns data, the data are what
    [safeParse] made of a record whose keys are all fields of the
    unwrapped schema: an option can only set the field it resolves to. *)
Theorem V1_validated_record_has_declared_keys (args : list string)
    (schema : ZodTypeAny) (out : list Event) (data : Data) :
  ZliV1.parseArgs args schema = Some (Normal (out, Some data)) ->
  exists unwrapped record,
    ZliV1.unwrapSchema schema = Normal unwrapped
    /\ Trace.onlyDeclared (ZliV1.shapeOf unwrapped) record
    /\ safeParse schema record = SafeParseSuccess data.
Proof.
  intros Hparsed. unfold ZliV1.parseArgs in Hparsed.
  destruct (ZliV1.unwrapSchema schema) as [unwrapped|e]; [|discriminate].
  destruct (ZliV1.scan _ args _ _ _) as [[st|e]|] eqn:Hscan; try discriminate.
  apply V1_scan_declared in Hscan; [|apply onlyDeclared_empty].
  destruct (ZliV1.unprocessedArgs args (ZliV1.processedIndices st)); [|discriminate].
  destruct (safeParse schema (ZliV1.parsedArgs st)) as [data'|issues] eqn:Hsafe;
    [|discriminate].
  injection Hparsed as _ <-. exists unwrapped, (ZliV1.parsedArgs st).
  repeat split; assumption.
Qed.

(** X22: the same in the second copy, whatever the alias table holds,
    since [parseOption] looks the resolved key up in the schema before
    anything is set. *)
Theorem V2_validated_record_has_declared_keys (fuel : nat) (this this' : ZliV2.Zli)
    (args : list string) (schema : ZodTypeAny) (out : list Event) (data : Data) :
  ZliV2.parseArgs_fuel fuel this args schema = Some (Normal (this', out, Some data)) ->
  exists unwrapped record,
    ZliV2.unwrapSchema schema = Normal unwrapped
    /\ Trace.onlyDeclared (ZliV2.shapeOf unwrapped) record
    /\ safeParse schema record = SafeParseSuccess data.
Proof.
  intros Hparsed. unfold ZliV2.parseArgs_fuel in Hparsed.
  destruct (ZliV2.unwrapSchema schema) as [unwrapped|e]; [|discriminate].
  destruct (ZliV2.scan fuel args _ _ _) as [[st|st]|] eqn:Hscan; try discriminate.
  apply V2_scan_declared in Hscan; [|apply onlyDeclared_empty].
  destruct (safeParse schema (ZliV2.parsedArgs st)) as [data'|issues] eqn:Hsafe;
    [|discriminate].
  injection Hparsed as _ _ <-. exists unwrapped, (ZliV2.parsedArgs st).
  repeat split; assumption.
Qed.

End Contents.

Lemma recognized_options_belong_to_fields_witness :
  exists field,
    ("name", field) ∈ ZliV2.shapeOf Examples.userSchema
    /\ "-n" ∈ Spec.tokensV2 ("name", field).
Proof.
  destruct (recognized_options_belong_to_fields (ZliV2.shapeOf Examples.userSchema)
              "-n" "name") as (_ & Hsecond & _).
  exact (Hsecond eq_refl).
Defined.

Lemma V1_validated_record_has_declared_keys_witness :
  exists unwrapped record,
    ZliV1.unwrapSchema Examples.verboseSchema = Normal unwrapped
    /\ Trace.onlyDeclared (ZliV1.shapeOf unwrapped) record
    /\ safeParse Examples.verboseSchema record
       = SafeParseSuccess (<["verbose" := JsBoolean true]> ∅).
Proof.
  apply (V1_validated_record_has_declared_keys ["--verbose"] Examples.verboseSchema []).
  reflexivity.
Defined.

Lemma V2_validated_record_has_declared_keys_witness :
  exists unwrapped record,
    ZliV2.unwrapSchema Examples.verboseSchema = Normal unwrapped
    /\ Trace.onlyDeclared (ZliV2.shapeOf unwrapped) record
    /\ safeParse Examples.verboseSchema record
       = SafeParseSuccess (<["verbose" := JsBoolean true]> ∅).
Proof.
  apply (V2_validated_record_has_declared_keys 2 Examples.verboseV2 Examples.verboseV2
           ["--verbose"] Examples.verboseSchema []).
  reflexivity.
Defined.



(** ** Requests for help and short options with an inline value *)

Section HelpAndShort.
Context `{ZodRuntime}.



(** X26: a single short option cannot carry an inline value. A dash token
    of at most two characters has no inline value, or an empty one (the
    token [-=]); and a token such as [-n=Alice] has more than two
    characters, so the second copy reads it as the combined flags [n],
    [=], [A], ... *)
Theorem short_option_has_no_inline_value (token : string) (flag : ascii) (value : string)
    (args : list string) (shape : list (string * ZodTypeAny))
    (table : gmap string string) (st : ZliV2.LoopState) :
  Spec.isShortToken token ->
  flag <> "-"%char ->
  truthy (snd (splitInlineValue token)) = None
  /\ ZliV2.loopBody args shape table (Spec.flagToken flag ++ "=" ++ value) st
     = ZliV2.combinedFlags args shape table (flag :: "="%char :: chars value)
         (ZliV2.setIndex (ZliV2.i st + 1) (ZliV2.addProcessed (ZliV2.i st) st)).
Proof.
  intros (Hlong & Hdash & Hlen) Hflag. split.
  - apply Nat.ltb_ge in Hlen. rewrite startsWith_dash in Hdash.
    destruct token as [|a [|b [|c token]]]; try discriminate;
      [| |cbn [String.length] in Hlen; lia];
      apply Ascii.eqb_eq in Hdash; subst a; [reflexivity|].
    unfold splitInlineValue. rewrite !includes_equals_cons, includes_equals_empty.
    destruct (Ascii.eqb b "=") eqn:Hb; [|reflexivity].
    apply Ascii.eqb_eq in Hb. subst b. reflexivity.
  - change (Spec.flagToken flag ++ "=" ++ value)
      with (String "-" (String flag (String "=" value))).
    unfold ZliV2.loopBody. rewrite startsWith_dashes, startsWith_dash, Ascii.eqb_refl.
    assert (Hne : Ascii.eqb "-" flag = false) by (apply Ascii.eqb_neq; congruence).
    rewrite Hne. reflexivity.
Qed.

End HelpAndShort.


Lemma short_option_has_no_inline_value_witness :
  truthy (snd (splitInlineValue "-=")) = None
  /\ ZliV2.loopBody ["-n=Al"] (ZliV2.shapeOf Examples.userSchema)
       (ZliV2.buildRecognizedOptions (ZliV2.shapeOf Examples.userSchema)) "-n=Al"
       (ZliV2.mkState 0 ∅ ∅ false [])
     = ZliV2.combinedFlags ["-n=Al"] (ZliV2.shapeOf Examples.userSchema)
         (ZliV2.buildRecognizedOptions (ZliV2.shapeOf Examples.userSchema))
         ["n"%char; "="%char; "A"%char; "l"%char]
         (ZliV2.setIndex 1 (ZliV2.addProcessed 0 (ZliV2.mkState 0 ∅ ∅ false []))).
Proof.
  apply (short_option_has_no_inline_value "-=" "n"%char "Al" ["-n=Al"]
           (ZliV2.shapeOf Examples.userSchema)
           (ZliV2.buildRecognizedOptions (ZliV2.shapeOf Examples.userSchema))
           (ZliV2.mkState 0 ∅ ∅ false []));
    [repeat split|discriminate].
Defined.

(** ** Combined flags that end with a value, in the second copy *)

Section CombinedValue.
Context `{ZodRuntime}.

Lemma V2_combinedFlags_booleans args shape table bools keys rest st :
  Forall2 (fun flag key => flag <> "="%char /\ Spec.isBooleanFlag table shape flag key)
    bools keys ->
  exists processed,
    ZliV2.combinedFlags args shape table (bools ++ rest)%list st
    = ZliV2.combinedFlags args shape table rest
        (ZliV2.mkState (ZliV2.i st) (Trace.withFlags keys (ZliV2.parsedArgs st)) processed
           (ZliV2.this_shouldDisplayHelp st) (ZliV2.console st)).
Proof.
  intros Hbools. revert st.
  induction Hbools as [|flag key bools keys [Hne Hflag] _ IH]; intros st.
  - exists (ZliV2.processedIndices st). destruct st. reflexivity.
  - cbn [app]. rewrite (V2_combinedFlags_flag _ _ _ _ _ _ _ Hne Hflag).
    destruct (IH (ZliV2.setParsedArg key (JsBoolean true)
                    (ZliV2.addProcessed (ZliV2.i st - 1) st))) as [processed Hrest].
    exists processed. exact Hrest.
Qed.

(** X27: in the second copy, a combined token may end with a flag that
    takes the next token as its value. The boolean flags before it are set
    to [true], the last flag is set to the coerced value, nothing is
    reported, and the record goes to validation. *)
Theorem V2_combined_flags_take_a_value (this : ZliV2.Zli) (token value : string)
    (bools : list ascii) (keys : list string) (flag : ascii) (key : string)
    (fieldType schema unwrapped : ZodTypeAny) :
  ZliV2.unwrapSchema schema = Normal unwrapped ->
  startsWith token "--" = false ->
  startsWith token "-" = true ->
  2 < String.length token ->
  chars (slice1 token) = (bools ++ [flag])%list ->
  Forall2 (fun b k =>
             b <> "="%char
             /\ Spec.isBooleanFlag (ZliV2.buildRecognizedOptions (ZliV2.shapeOf unwrapped))
                  (ZliV2.shapeOf unwrapped) b k) bools keys ->
  flag <> "="%char ->
  truthy (ZliV2.buildRecognizedOptions (ZliV2.shapeOf unwrapped) !! Spec.flagToken flag)
  = Some key ->
  getProperty (ZliV2.shapeOf unwrapped) key = Some fieldType ->
  isBooleanType (Some fieldType) = false ->
  startsWith value "-" = false ->
  ZliV2.parseArgs this [token; value] schema
  = Some (Normal
            match safeParse schema
                    (<[key := parseValue value (Some fieldType)]> (Trace.withFlags keys ∅)) with
            | SafeParseSuccess data =>
                (ZliV2.mkZli (ZliV2.commands this) (ZliV2.shouldDisplayHelp this), [],
                 Some data)
            | SafeParseError issues =>
                (ZliV2.mkZli (ZliV2.commands this) true,
                 ZliV2.displayValidationErrors issues, None)
            end).
Proof.
  intros Hunwrap Hlong Hdash Hlen Hflags Hbools Hne Hkey Hfield Hbool Hvalue.
  unfold ZliV2.parseArgs, ZliV2.parseArgs_fuel. rewrite Hunwrap.
  cbn [List.length ZliV2.scan ZliV2.i lookup list_lookup].
  unfold ZliV2.loopBody. apply Nat.ltb_lt in Hlen. rewrite Hlong, Hdash, Hlen.
  cbn [andb negb]. rewrite Hflags.
  match goal with
  | |- context [ZliV2.combinedFlags ?a ?sh ?t (bools ++ [flag])%list ?s] =>
      destruct (V2_combinedFlags_booleans a sh t bools keys [flag] s Hbools)
        as [processed ->]
  end.
  cbn [ZliV2.combinedFlags ZliV2.setIndex ZliV2.addProcessed ZliV2.i ZliV2.parsedArgs
         ZliV2.processedIndices ZliV2.this_shouldDisplayHelp ZliV2.console Nat.add Nat.sub].
  change ("-" ++ String flag "") with (Spec.flagToken flag).
  unfold ZliV2.parseOption. rewrite (flagToken_plain _ Hne), Hkey, Hfield, Hbool.
  destruct (isArrayType (Some fieldType)).
  - rewrite Hbool.
    cbn [ZliV2.addProcessed ZliV2.i lookup list_lookup]. rewrite Hvalue.
    cbn [ZliV2.setParsedArg ZliV2.setIndex ZliV2.addProcessed ZliV2.i ZliV2.parsedArgs
           ZliV2.processedIndices ZliV2.this_shouldDisplayHelp ZliV2.console
           Nat.add lookup list_lookup].
    destruct (safeParse schema _); reflexivity.
  - cbn [truthy Nat.add lookup list_lookup]. rewrite Hvalue, Hbool.
    cbn [ZliV2.addProcessed ZliV2.i lookup list_lookup]. rewrite Hvalue.
    cbn [ZliV2.setParsedArg ZliV2.setIndex ZliV2.addProcessed ZliV2.i ZliV2.parsedArgs
           ZliV2.processedIndices ZliV2.this_shouldDisplayHelp ZliV2.console
           Nat.add lookup list_lookup].
    destruct (safeParse schema _); reflexivity.
Qed.

End CombinedValue.

Lemma V2_combined_flags_take_a_value_witness :
  ZliV2.parseArgs Scenarios.addV2 ["-vn"; "Alice"] Examples.userSchema
  = Some (Normal (ZliV2.mkZli (ZliV2.commands Scenarios.addV2) true,
                  [ConsoleError
                     (String.concat newline
                        ["Argument validation failed:"; "  - age: Required"])],
                  None)).
Proof.
  refine (eq_trans
            (V2_combined_flags_take_a_value Scenarios.addV2 "-vn" "Alice" ["v"%char]
               ["verbose"] "n"%char "name" (aliases (ZodString noDef) ["n"; "fullname"])
               Examples.userSchema Examples.userSchema
               eq_refl eq_refl eq_refl _ eq_refl _ _ eq_refl eq_refl eq_refl eq_refl)
            eq_refl).
  - apply Nat.ltb_lt. reflexivity.
  - repeat constructor; [discriminate|].
    exists (aliases (ZodOptional noDef (ZodBoolean noDef)) ["v"]). repeat split.
  - discriminate.
Defined.

(** ** Combined boolean flags in [index.ts] *)

Section CombinedIndex.
Context `{ZodRuntime}.

Lemma Index_combinedFlags_flag args shape table x key flags st :
  x <> "="%char ->
  Spec.isBooleanFlag table shape x key ->
  Index.combinedFlags args table shape (x :: flags) st
  = Index.combinedFlags args table shape flags
      (Index.setParsedArg key (JsBoolean true) (Index.addProcessed (Index.i st - 1) st)).
Proof.
  intros Hx Hflag.
  destruct (flagToken_resolves _ _ _ _ Hx Hflag) as (fieldType & Hres & Hbool).
  cbn [Index.combinedFlags].
  change ("-" ++ String x "") with (Spec.flagToken x).
  rewrite (Index_processOptionValue_boolean _ _ _ _ _ _ _ _ _ _ Hres Hbool), Hbool.
  reflexivity.
Qed.

Lemma Index_combinedFlags_booleans args shape table bools keys st :
  Forall2 (fun flag key => flag <> "="%char /\ Spec.isBooleanFlag table shape flag key)
    bools keys ->
  exists processed,
    Index.combinedFlags args table shape bools st
    = Index.mkState (Index.i st) (Trace.withFlags keys (Index.parsedArgs st)) processed
        (Index.this_shouldDisplayHelp st) (Index.console st).
Proof.
  intros Hbools. revert st.
  induction Hbools as [|flag key bools keys [Hne Hflag] _ IH]; intros st.
  - exists (Index.processedIndices st). destruct st. reflexivity.
  - rewrite (Index_combinedFlags_flag _ _ _ _ _ _ _ Hne Hflag).
    destruct (IH (Index.setParsedArg key (JsBoolean true)
                    (Index.addProcessed (Index.i st - 1) st))) as [processed Hrest].
    exists processed. exact Hrest.
Qed.

(** X28: combined boolean flags in [index.ts]. A single dash token of
    more than two characters whose characters all resolve to boolean-kind
    fields sets each of these fields to [true], prints nothing, and the
    record goes to validation. *)
Theorem Index_combined_boolean_flags (this : Index.Zli) (token : string)
    (bools : list ascii) (keys : list string) (schema unwrapped : ZodTypeAny) :
  Index.resolveSchema schema = Normal unwrapped ->
  startsWith token "--" = false ->
  startsWith token "-" = true ->
  2 < String.length token ->
  chars (slice1 token) = bools ->
  Forall2 (fun b k =>
             b <> "="%char
             /\ Spec.isBooleanFlag (Index.buildOptionAliasMap (Index.shapeOf unwrapped))
                  (Index.shapeOf unwrapped) b k) bools keys ->
  Index.processArguments this [token] schema
  = Some (Normal
            match safeParse schema (Trace.withFlags keys ∅) with
            | SafeParseSuccess data =>
                (Index.mkZli (Index.commands this) (Index.shouldDisplayHelp this), [],
                 Some data)
            | SafeParseError issues =>
                (Index.mkZli (Index.commands this) true,
                 Index.showValidationErrors issues, None)
            end).
Proof.
  intros Hunwrap Hlong Hdash Hlen Hflags Hbools.
  unfold Index.processArguments. rewrite Hunwrap.
  cbn [List.length Index.scan Index.i lookup list_lookup].
  unfold Index.loopBody, Index.processCombinedShortFlags.
  apply Nat.ltb_lt in Hlen. rewrite Hlong, Hdash, Hlen. cbn [andb]. rewrite Hflags.
  match goal with
  | |- context [Index.combinedFlags ?a ?t ?sh bools ?s] =>
      destruct (Index_combinedFlags_booleans a sh t bools keys s Hbools)
        as [processed ->]
  end.
  cbn [Index.setIndex Index.addProcessed Index.i Index.parsedArgs Index.processedIndices
         Index.this_shouldDisplayHelp Index.console Nat.add Nat.sub lookup list_lookup].
  destruct (safeParse schema _); reflexivity.
Qed.

End CombinedIndex.

Lemma Index_combined_boolean_flags_witness :
  Index.processArguments
    (Index.addCommand Index.newZli "test" Examples.abcSchema Examples.silent)
    ["-abc"] Examples.abcSchema
  = Some (Normal
            (Index.addCommand Index.newZli "test" Examples.abcSchema Examples.silent, [],
             Some (Trace.withFlags ["a"; "b"; "c"] ∅))).
Proof.
  refine (eq_trans
            (Index_combined_boolean_flags
               (Index.addCommand Index.newZli "test" Examples.abcSchema Examples.silent)
               "-abc" ["a"; "b"; "c"]%char ["a"; "b"; "c"]
               Examples.abcSchema Examples.abcSchema eq_refl eq_refl eq_refl _ eq_refl _)
            eq_refl).
  - apply Nat.ltb_lt. reflexivity.
  - repeat (constructor; [split; [discriminate|eexists; repeat split]|]). constructor.
Defined.

(** ** An option given more than once *)

Section LastOccurrence.
Context `{ZodRuntime}.

Lemma V2_table_keys (shape : list (string * ZodTypeAny)) (name key : string) :
  truthy (ZliV2.buildRecognizedOptions shape !! name) = Some key ->
  exists fieldType, getProperty shape key = Some fieldType.
Proof.
  intros Hkey%truthy_Some. rewrite V2_table_fold in Hkey.
  apply foldV2_origin in Hkey as [Hempty|(field & Hin & _)].
  - rewrite lookup_empty in Hempty. discriminate.
  - exact (getProperty_elem _ _ _ Hin).
Qed.

(** A scalar option without inline value, followed by its value, at the
    end of the tokens. *)
Lemma resolveLong_final table shape tok v name value key ft record :
  Spec.resolvesTo table shape tok name value key ft ->
  truthy value = None ->
  isBooleanType (Some ft) = false ->
  isArrayType (Some ft) = false ->
  startsWith v "-" = false ->
  Spec.resolveLong table shape [tok; v] record
  = inr (<[key := parseValue v (Some ft)]> record).
Proof.
  intros (Hsplit & Hkey & Hfield) Hvalue Hbool Harray Hbare.
  cbn [Spec.resolveLong head]. unfold Spec.longStep.
  rewrite Hsplit, Hkey, Hfield, Hbool, Harray, Hvalue, Hbare. reflexivity.
Qed.

Lemma resolveLong_last table shape tok v name value key ft :
  startsWith tok "-" = true ->
  Spec.resolvesTo table shape tok name value key ft ->
  truthy value = None ->
  isBooleanType (Some ft) = false ->
  isArrayType (Some ft) = false ->
  startsWith v "-" = false ->
  forall n pre record result,
    List.length pre <= n ->
    Spec.resolveLong table shape (pre ++ [tok; v])%list record = inr result ->
    result !! key = Some (parseValue v (Some ft)).
Proof.
  intros Hdash Hres Hvalue Hbool Harray Hbare.
  assert (Hbase : forall record result,
             Spec.resolveLong table shape [tok; v] record = inr result ->
             result !! key = Some (parseValue v (Some ft))).
  { intros record result.
    rewrite (resolveLong_final _ _ _ _ _ _ _ _ _ Hres Hvalue Hbool Harray Hbare).
    intros [= <-]. apply lookup_insert_eq. }
  induction n as [|n IH]; intros pre record result Hlen.
  - destruct pre; [apply Hbase|cbn [List.length] in Hlen; lia].
  - destruct pre as [|x pre]; [apply Hbase|].
    cbn [app Spec.resolveLong List.length] in *.
    destruct (Spec.longStep table shape x (head (pre ++ [tok; v])%list))
      as [e|k w [|]] eqn:Hstep; [discriminate| |].
    + destruct pre as [|y pre].
      * apply longStep_takes in Hstep as (w' & [= <-] & Hw). congruence.
      * cbn [app]. apply IH. cbn [List.length] in Hlen. lia.
    + apply IH. lia.
Qed.

(** X29: the last occurrence of an option wins. In the second copy, when
    the option tokens are long options only and end with a scalar option
    followed by its value, the record that is validated holds the coerced
    value under the key of that option, whatever the tokens before it
    set. *)
Theorem V2_last_occurrence_wins (this this' : ZliV2.Zli) (pre : list string)
    (tok v name : string) (value : option string) (key : string)
    (ft schema unwrapped : ZodTypeAny) (out : list Event) (data : Data) :
  ZliV2.unwrapSchema schema = Normal unwrapped ->
  Spec.longForm (ZliV2.buildRecognizedOptions (ZliV2.shapeOf unwrapped))
    (ZliV2.shapeOf unwrapped) (pre ++ [tok; v])%list ->
  startsWith tok "--" = true ->
  Spec.resolvesTo (ZliV2.buildRecognizedOptions (ZliV2.shapeOf unwrapped))
    (ZliV2.shapeOf unwrapped) tok name value key ft ->
  truthy value = None ->
  isBooleanType (Some ft) = false ->
  isArrayType (Some ft) = false ->
  startsWith v "-" = false ->
  ZliV2.parseArgs this (pre ++ [tok; v])%list schema = Some (Normal (this', out, Some data)) ->
  exists record,
    record !! key = Some (parseValue v (Some ft))
    /\ safeParse schema record = SafeParseSuccess data.
Proof.
  intros Hunwrap Hform Hlong Hres Hvalue Hbool Harray Hbare.
  unfold ZliV2.parseArgs, ZliV2.parseArgs_fuel. rewrite Hunwrap.
  pose proof (V2_scan_long (ZliV2.shapeOf unwrapped)
                (ZliV2.buildRecognizedOptions (ZliV2.shapeOf unwrapped))
                (ZliV2.buildRecognizedOptions (ZliV2.shapeOf unwrapped))
                (fun _ _ => eq_refl) (V2_table_keys _)
                (pre ++ [tok; v])%list (S (List.length (pre ++ [tok; v])%list))
                (pre ++ [tok; v])%list
                (ZliV2.mkState 0 ∅ ∅ (ZliV2.shouldDisplayHelp this) [])
                Hform eq_refl (Nat.lt_succ_diag_r _)) as Hscan.
  cbn [ZliV2.parsedArgs] in Hscan.
  destruct (Spec.resolveLong _ _ (pre ++ [tok; v])%list ∅) as [error|record] eqn:Hresolved.
  - destruct Hscan as (st' & -> & _). discriminate.
  - destruct Hscan as (st' & -> & Hrecord & _).
    destruct (safeParse schema (ZliV2.parsedArgs st')) as [data'|issues] eqn:Hsafe;
      [|discriminate].
    intros [= _ _ <-]. exists record. split; [|rewrite <- Hrecord; exact Hsafe].
    apply (resolveLong_last _ _ _ _ _ _ _ _ (long_is_dash _ Hlong) Hres Hvalue Hbool
             Harray Hbare (List.length pre) pre ∅ record (le_n _) Hresolved).
Qed.

End LastOccurrence.

Lemma V2_last_occurrence_wins_witness :
  exists record : gmap string JsValue,
    record !! "name" = Some (parseValue "Bob" (Some (ZodString noDef)))
    /\ safeParse Examples.nameSchema record
       = SafeParseSuccess (<["name" := JsString "Bob"]> ∅).
Proof.
  apply (V2_last_occurrence_wins ZliV2.newZli ZliV2.newZli ["--name"; "Alice"]
           "--name" "Bob" "--name" None "name" (ZodString noDef)
           Examples.nameSchema Examples.nameSchema []);
    try reflexivity.
  - apply Spec.longForm_valued; [reflexivity|reflexivity| |].
    + exists "--name", None, "name", (ZodString noDef). repeat split; reflexivity.
    + apply Spec.longForm_valued; [reflexivity|reflexivity| |apply Spec.longForm_nil].
      exists "--name", None, "name", (ZodString noDef). repeat split; reflexivity.
  - repeat split.
Defined.
